(** * Fundraising-BOT: the scoring engine, the needs deriver and the alert store

    A shallow embedding of [src/main.py].  Python values are modelled as
    follows.

    - [int] is [Z]; [float] is an exact rational [Q] (the only float
      operations of the scoring code are sums of integers, one division by
      a constant and comparisons with integer thresholds);
    - [str] is [string], read as the UTF-8 encoding of the Python string:
      the substring test [a in b] on code points and on UTF-8 bytes agree;
    - dataclasses are records, enums are inductive types, and a dict whose
      keys may be absent is a [gmap] or a record of [option] fields;
    - an exception is a value [Raise e] of the [result] type.

    Library calls whose behaviour is fixed outside the repository
    ([str.lower], [re.findall], the chat-completion API) are the fields of
    the class [Externals]; every theorem holds for all of its instances. *)

From Stdlib Require Import ZArith QArith Qminmax String Ascii List Lia Lqa.
From stdpp Require Import base option list strings gmap.

Open Scope Z_scope.

(** ** Python primitives *)

Inductive exn : Type :=
  | AttributeError
  | TypeError
  | KeyError
  | ValueError
  | IntegrityError
  | APIError.

Inductive result (A : Type) : Type :=
  | Ok (a : A)
  | Raise (e : exn).

Arguments Ok {A} a.
Arguments Raise {A} e.

#[global] Instance result_ret : MRet result := fun _ a => Ok a.

#[global] Instance result_bind : MBind result := fun _ _ f m =>
  match m with
  | Ok a => f a
  | Raise e => Raise e
  end.

#[global] Instance result_fmap : FMap result := fun _ _ f m =>
  match m with
  | Ok a => Ok (f a)
  | Raise e => Raise e
  end.

(** [try: m except Exception: h]. *)
Definition try_except {A} (m : result A) (h : A) : A :=
  match m with
  | Ok a => a
  | Raise _ => h
  end.

(** [s.startswith(p)]. *)
Fixpoint startswith (p s : string) : bool :=
  match p, s with
  | EmptyString, _ => true
  | String _ _, EmptyString => false
  | String a p', String b s' => if Ascii.eqb a b then startswith p' s' else false
  end.

(** [needle in hay] on strings. *)
Fixpoint str_in (needle hay : string) : bool :=
  startswith needle hay ||
  match hay with
  | EmptyString => false
  | String _ hay' => str_in needle hay'
  end.

(** [x in l] on a list of strings. *)
Definition list_in (x : string) (l : list string) : bool :=
  existsb (String.eqb x) l.

(** [len(l)]. *)
Definition len {A} (l : list A) : Z := Z.of_nat (length l).

(** [sep.join(l)]. *)
Definition join (sep : string) (l : list string) : string := String.concat sep l.

(** [l[:n]]. *)
Definition slice_to {A} (n : nat) (l : list A) : list A := take n l.

(** The whitespace that [str.strip()] removes from an ASCII string. *)
Definition is_space (c : ascii) : bool :=
  let n := nat_of_ascii c in
  ((9 <=? n)%nat && (n <=? 13)%nat) || ((28 <=? n)%nat && (n <=? 32)%nat).

Fixpoint lstrip (s : string) : string :=
  match s with
  | EmptyString => EmptyString
  | String c s' => if is_space c then lstrip s' else s
  end.

Definition str_rev (s : string) : string :=
  string_of_list_ascii (rev (list_ascii_of_string s)).

Definition strip (s : string) : string :=
  str_rev (lstrip (str_rev (lstrip s))).

(** [s.replace(a, b)] for single characters. *)
Fixpoint replace_char (a b : ascii) (s : string) : string :=
  match s with
  | EmptyString => EmptyString
  | String c s' => String (if Ascii.eqb c a then b else c) (replace_char a b s')
  end.

(** The truth value of a string: empty is false. *)
Definition str_truthy (s : string) : bool :=
  match s with
  | EmptyString => false
  | String _ _ => true
  end.

Definition nl : string := String (ascii_of_nat 10) EmptyString.
Definition dquote : string := String (ascii_of_nat 34) EmptyString.

(** Comparisons of floats. *)
Definition Qltb (x y : Q) : bool := negb (Qle_bool y x).
Definition Qgtb (x y : Q) : bool := Qltb y x.

(** A naive [datetime], in microseconds of wall-clock time. *)
Definition datetime : Type := Z.

(** [(a - b).days]: a [timedelta] is normalised with [0 <= seconds], so its
    [days] is the floor of the difference. *)
Definition timedelta_days (a b : datetime) : Z := (a - b) / 86400000000.

(** What the program calls outside the repository. *)
Class Externals : Type := {
  (** [str.lower] *)
  str_lower : string -> string;
  (** [re.findall(pattern, text)] for a pattern without groups *)
  re_findall : string -> string -> list string;
  (** [openai.ChatCompletion.acreate], returning the message content *)
  openai_acreate : string -> result string;
}.

(** ** Enumerations and dataclasses *)

Module ScamRisk.
Inductive t : Type := LOW | MEDIUM | HIGH | CRITICAL.

#[global] Instance eq_dec : EqDecision t.
Proof. solve_decision. Defined.

Definition value (r : t) : string :=
  match r with
  | LOW => "low"
  | MEDIUM => "medium"
  | HIGH => "high"
  | CRITICAL => "critical"
  end.

(** [ScamRisk(s)]: the member with that value; [ValueError] when there
    is none. *)
Definition of_value (s : string) : option t :=
  if String.eqb s "low" then Some LOW
  else if String.eqb s "medium" then Some MEDIUM
  else if String.eqb s "high" then Some HIGH
  else if String.eqb s "critical" then Some CRITICAL
  else None.
End ScamRisk.

Module CommunitySize.
Inductive t : Type := MICRO | SMALL | MEDIUM_SMALL | MEDIUM | GROWING.

#[global] Instance eq_dec : EqDecision t.
Proof. solve_decision. Defined.

Definition value (c : t) : string :=
  match c with
  | MICRO => "1-30"
  | SMALL => "31-50"
  | MEDIUM_SMALL => "51-100"
  | MEDIUM => "101-200"
  | GROWING => "201-500"
  end.
End CommunitySize.

Module JobCategory.
Inductive t : Type :=
  | COMMUNITY_MANAGEMENT
  | MODERATION
  | GRAPHICS_DESIGN
  | SOCIAL_MEDIA
  | PR_MARKETING
  | BUSINESS_DEVELOPMENT
  | TECHNICAL_WRITING
  | DEVELOPMENT
  | LEGAL_COMPLIANCE
  | PARTNERSHIPS
  | CONTENT_CREATION
  | INFLUENCER_OUTREACH.

#[global] Instance eq_dec : EqDecision t.
Proof. solve_decision. Defined.

Definition value (c : t) : string :=
  match c with
  | COMMUNITY_MANAGEMENT => "community_management"
  | MODERATION => "moderation"
  | GRAPHICS_DESIGN => "graphics_design"
  | SOCIAL_MEDIA => "social_media"
  | PR_MARKETING => "pr_marketing"
  | BUSINESS_DEVELOPMENT => "business_development"
  | TECHNICAL_WRITING => "technical_writing"
  | DEVELOPMENT => "development"
  | LEGAL_COMPLIANCE => "legal_compliance"
  | PARTNERSHIPS => "partnerships"
  | CONTENT_CREATION => "content_creation"
  | INFLUENCER_OUTREACH => "influencer_outreach"
  end.
End JobCategory.

Module JobOpportunity.
Record t : Type := mk {
  category : JobCategory.t;
  urgency : string;
  description : string;
  requirements : list string;
  pitch_strategy : string;
  estimated_budget : string;
  time_commitment : string;
}.
End JobOpportunity.

Module ProjectNeeds.
Record t : Type := mk {
  missing_elements : list string;
  strengths : list string;
  improvement_areas : list string;
  job_opportunities : list JobOpportunity.t;
  overall_maturity : string;
}.
End ProjectNeeds.

Module TelegramCommunityInfo.
Record t : Type := mk {
  title : string;
  username : string;
  member_count : Z;
  description : string;
  recent_messages : list string;
  admin_count : Z;
  creation_date : option datetime;
  invite_link : option string;
  category : string;
  verified : bool;
  restricted : bool;
}.
End TelegramCommunityInfo.

Module ProjectAnalysis.
Record t : Type := mk {
  legitimacy_score : Q;
  scam_indicators : list string;
  positive_indicators : list string;
  risk_level : ScamRisk.t;
  tokenomics_analysis : option string;
  roadmap_quality : option string;
  team_analysis : option string;
  sentiment_score : Q;
}.
End ProjectAnalysis.

Module CommunityAlert.
Record t : Type := mk {
  community_info : TelegramCommunityInfo.t;
  project_analysis : ProjectAnalysis.t;
  discovery_timestamp : datetime;
  unique_id : string;
  size_category : CommunitySize.t;
}.
End CommunityAlert.


(** [d[k]] on a dict: [KeyError] when the key is absent. *)
Definition getitem {V} (d : gmap string V) (k : string) : result V :=
  match d !! k with
  | Some v => Ok v
  | None => Raise KeyError
  end.

(** [o.name] for an attribute that the constructor may not have set. *)
Definition getattr {A} (o : option A) : result A :=
  match o with
  | Some a => Ok a
  | None => Raise AttributeError
  end.

(** ** class TelegramScout *)

Module TelegramScout.
Record t : Type := mk {
  api_id : Z;
  api_hash : string;
  phone_number : string;
  session_name : string;
  crypto_keywords : list string;
  scam_indicators : gmap string (list string);
  legitimacy_indicators : gmap string (list string);
}.

Definition high_risk_phrases : list string :=
  [ "guaranteed profit"; "risk-free"; "100% safe"; "get rich quick";
    "urgent"; "limited time"; "exclusive opportunity"; "secret method";
    "financial freedom"; "millionaire"; "lamborghini"; "to the moon";
    "pump"; "dump"; "shill"; "exit scam"; "rug pull" ].

Definition medium_risk_phrases : list string :=
  [ "investment opportunity"; "high returns"; "passive income";
    "early investor"; "presale"; "private sale"; "airdrop";
    "referral bonus"; "pyramid"; "matrix"; "doubler" ].

(** The regular expressions, as their source text. *)
Definition suspicious_patterns : list string :=
  [ "\d+x profit"; "\d+% return"; "\$\d+k per"; "only \d+ spots";
    "invest \$\d+ get \$\d+"; "\d+ btc"; "\d+ eth" ].

Definition positive_phrases : list string :=
  [ "whitepaper"; "roadmap"; "github"; "audit"; "doxxed team";
    "partnership"; "testnet"; "mainnet"; "smart contract";
    "open source"; "decentralized"; "community driven";
    "development update"; "milestone"; "alpha"; "beta" ].

Definition team_phrases : list string :=
  [ "founder"; "ceo"; "cto"; "developer"; "advisor";
    "team member"; "linkedin"; "experience"; "background" ].

Definition tech_phrases : list string :=
  [ "consensus"; "validator"; "node"; "blockchain"; "protocol";
    "algorithm"; "cryptography"; "security"; "scalability" ].

(** [__init__]: the lexicons do not depend on the arguments. *)
Definition init (api_id : Z) (api_hash phone_number session_name : string) : t :=
  {| api_id := api_id;
     api_hash := api_hash;
     phone_number := phone_number;
     session_name := session_name;
     crypto_keywords :=
       [ "defi"; "nft"; "dao"; "web3"; "crypto"; "blockchain"; "token"; "coin";
         "dapp"; "protocol"; "yield"; "farming"; "staking"; "metaverse"; "gamefi";
         "bridge"; "swap"; "dex"; "cex"; "mining"; "node"; "validator";
         "ethereum"; "bitcoin"; "solana"; "polygon"; "avalanche"; "bsc" ];
     scam_indicators :=
       <["high_risk" := high_risk_phrases]>
       (<["medium_risk" := medium_risk_phrases]>
       (<["suspicious_patterns" := suspicious_patterns]> ∅));
     legitimacy_indicators :=
       <["positive" := positive_phrases]>
       (<["team_indicators" := team_phrases]>
       (<["tech_indicators" := tech_phrases]> ∅)) |}.

(** [matches_size_filter]: the first filter whose range holds the member
    count answers [True]; [False] when the loop ends. *)
Fixpoint matches_size_filter (member_count : Z) (size_filters : list CommunitySize.t) : bool :=
  match size_filters with
  | [] => false
  | size_filter :: rest =>
      if bool_decide (size_filter = CommunitySize.MICRO)
         && ((1 <=? member_count) && (member_count <=? 30)) then true
      else if bool_decide (size_filter = CommunitySize.SMALL)
         && ((31 <=? member_count) && (member_count <=? 50)) then true
      else if bool_decide (size_filter = CommunitySize.MEDIUM_SMALL)
         && ((51 <=? member_count) && (member_count <=? 100)) then true
      else if bool_decide (size_filter = CommunitySize.MEDIUM)
         && ((101 <=? member_count) && (member_count <=? 200)) then true
      else if bool_decide (size_filter = CommunitySize.GROWING)
         && ((201 <=? member_count) && (member_count <=? 500)) then true
      else matches_size_filter member_count rest
  end.

(** What happens to one chat of the dialog list in
    [search_crypto_communities]: it is not a crypto community (skipped), its
    information is fetched, or a call raises. *)
Inductive chat_outcome : Type :=
  | NotCrypto
  | Fetched (community_info : TelegramCommunityInfo.t)
  | Raised (e : exn).

(** The loop over [result.chats]: every fetched community that matches the
    size filters is appended; the first exception leaves the loop, and the
    enclosing [try] returns what was collected so far.  The second loop, over
    [search_public_communities()], runs over an empty list. *)
Fixpoint search_crypto_communities_loop (size_filters : list CommunitySize.t)
    (chats : list chat_outcome) (communities : list TelegramCommunityInfo.t)
    : list TelegramCommunityInfo.t :=
  match chats with
  | [] => communities
  | NotCrypto :: rest => search_crypto_communities_loop size_filters rest communities
  | Fetched community_info :: rest =>
      if matches_size_filter (TelegramCommunityInfo.member_count community_info) size_filters
      then search_crypto_communities_loop size_filters rest (communities ++ [community_info])
      else search_crypto_communities_loop size_filters rest communities
  | Raised _ :: _ => communities
  end.

Definition search_crypto_communities (size_filters : list CommunitySize.t)
    (chats : list chat_outcome) : list TelegramCommunityInfo.t :=
  search_crypto_communities_loop size_filters chats [].
End TelegramScout.

(** ** class ProjectAnalyzer *)

Module ProjectAnalyzer.
(** The attributes of an analyzer.  [__init__] sets [openai_api_key] and
    [sentiment_analyzer]; the methods also read [self.scout], which
    [__init__] does not set, hence the [option]. *)
Record t : Type := mk {
  openai_api_key : option string;
  sentiment_analyzer : option (string -> result Q);
  scout : option TelegramScout.t;
}.

(** [__init__]; [make_sia] is the outcome of [SentimentIntensityAnalyzer()]. *)
Definition init (openai_api_key : option string)
    (make_sia : result (string -> result Q)) : t :=
  {| openai_api_key := openai_api_key;
     sentiment_analyzer :=
       match make_sia with
       | Ok sia => Some sia
       | Raise _ => None
       end;
     scout := None |}.

Section Methods.
Context `{Externals}.

(** The loop [for indicator in phrases: if indicator in text_lower:
    indicators.append(label + indicator)]. *)
Definition append_matches (label : string) (phrases : list string)
    (text_lower : string) : list string :=
  map (fun indicator => label +:+ indicator)
      (List.filter (fun indicator => str_in indicator text_lower) phrases).

Definition hype_emojis_re : string := "[🚀💰💎🔥⚡]".
Definition tme_link_re : string := "t\.me/[a-zA-Z0-9_]+".

Definition detect_scam_indicators (self : t) (text : string) : result (list string) :=
  let indicators := [] in
  let text_lower := str_lower text in
  sc ← getattr (scout self);
  high_risk ← getitem (TelegramScout.scam_indicators sc) "high_risk";
  let indicators := indicators ++ append_matches "HIGH RISK: " high_risk text_lower in
  sc ← getattr (scout self);
  medium_risk ← getitem (TelegramScout.scam_indicators sc) "medium_risk";
  let indicators := indicators ++ append_matches "MEDIUM RISK: " medium_risk text_lower in
  sc ← getattr (scout self);
  patterns ← getitem (TelegramScout.scam_indicators sc) "suspicious_patterns";
  let indicators :=
    indicators ++
    flat_map (fun pattern =>
                map (fun m => "SUSPICIOUS PATTERN: " +:+ m) (re_findall pattern text_lower))
             patterns in
  let indicators :=
    if len (re_findall hype_emojis_re text) >? 10
    then indicators ++ ["EXCESSIVE HYPE EMOJIS"]
    else indicators in
  let indicators :=
    if str_in "telegram.me" text_lower || str_in "t.me" text_lower
    then
      let suspicious_links := len (re_findall tme_link_re text_lower) in
      if suspicious_links >? 3
      then indicators ++ ["MULTIPLE SUSPICIOUS LINKS"]
      else indicators
    else indicators in
  mret indicators.

Definition detect_positive_indicators (self : t) (text : string) : result (list string) :=
  let indicators := [] in
  let text_lower := str_lower text in
  sc ← getattr (scout self);
  positive ← getitem (TelegramScout.legitimacy_indicators sc) "positive";
  let indicators := indicators ++ append_matches "POSITIVE: " positive text_lower in
  sc ← getattr (scout self);
  team_indicators ← getitem (TelegramScout.legitimacy_indicators sc) "team_indicators";
  let indicators := indicators ++ append_matches "TEAM: " team_indicators text_lower in
  sc ← getattr (scout self);
  tech_indicators ← getitem (TelegramScout.legitimacy_indicators sc) "tech_indicators";
  let indicators := indicators ++ append_matches "TECHNICAL: " tech_indicators text_lower in
  let indicators :=
    if str_in "github.com" text_lower
    then indicators ++ ["GITHUB REPOSITORY"]
    else indicators in
  let indicators :=
    if existsb (fun word => str_in word text_lower) ["audit"; "certik"; "peckshield"]
    then indicators ++ ["SECURITY AUDIT"]
    else indicators in
  let indicators :=
    if str_in "whitepaper" text_lower || str_in "lite paper" text_lower
    then indicators ++ ["DOCUMENTATION"]
    else indicators in
  mret indicators.

(** [len([i for i in indicators if tag in i])]. *)
Definition count_tagged (tag : string) (indicators : list string) : Z :=
  len (List.filter (fun i => str_in tag i) indicators).

(** [max(0, min(100, x))] on a float. *)
Definition clamp_0_100 (x : Q) : Q := Qmax 0 (Qmin 100 x).

(** [calculate_legitimacy_score]; [now] is the value of [datetime.now()]. *)
Definition calculate_legitimacy_score (now : datetime)
    (scam_indicators positive_indicators : list string)
    (community_info : TelegramCommunityInfo.t) : Q :=
  let base_score := 50%Q in
  let high_risk_count := count_tagged "HIGH RISK" scam_indicators in
  let medium_risk_count := count_tagged "MEDIUM RISK" scam_indicators in
  let suspicious_patterns := count_tagged "SUSPICIOUS PATTERN" scam_indicators in
  let base_score := (base_score - inject_Z (high_risk_count * 20))%Q in
  let base_score := (base_score - inject_Z (medium_risk_count * 10))%Q in
  let base_score := (base_score - inject_Z (suspicious_patterns * 5))%Q in
  let positive_count := count_tagged "POSITIVE" positive_indicators in
  let team_count := count_tagged "TEAM" positive_indicators in
  let tech_count := count_tagged "TECHNICAL" positive_indicators in
  let base_score := (base_score + inject_Z (positive_count * 8))%Q in
  let base_score := (base_score + inject_Z (team_count * 12))%Q in
  let base_score := (base_score + inject_Z (tech_count * 10))%Q in
  let base_score :=
    if TelegramCommunityInfo.admin_count community_info >? 1
    then (base_score + 5)%Q else base_score in
  let base_score :=
    if TelegramCommunityInfo.verified community_info
    then (base_score + 15)%Q else base_score in
  let base_score :=
    if TelegramCommunityInfo.restricted community_info
    then (base_score - 10)%Q else base_score in
  let base_score :=
    match TelegramCommunityInfo.creation_date community_info with
    | Some creation_date =>
        let days_old := timedelta_days now creation_date in
        if days_old >? 30
        then (base_score + Qmin 10 (inject_Z days_old / 10))%Q
        else base_score
    | None => base_score
    end in
  clamp_0_100 base_score.

Definition determine_risk_level (legitimacy_score : Q) (scam_indicators : list string)
    : ScamRisk.t :=
  let high_risk_count := count_tagged "HIGH RISK" scam_indicators in
  if (high_risk_count >? 0) || Qltb legitimacy_score 20 then ScamRisk.CRITICAL
  else if Qltb legitimacy_score 40 then ScamRisk.HIGH
  else if Qltb legitimacy_score 60 then ScamRisk.MEDIUM
  else ScamRisk.LOW.

(** [analysis.append(label)] under a condition. *)
Definition append_if (cond : bool) (label : string) (analysis : list string) : list string :=
  if cond then analysis ++ [label] else analysis.

(** ["; ".join(items) if items else fallback]. *)
Definition join_or (items : list string) (fallback : string) : string :=
  match items with
  | [] => fallback
  | _ :: _ => join "; " items
  end.

Definition basic_tokenomics_analysis (text : string) : string :=
  let text_lower := str_lower text in
  let analysis := [] in
  let analysis := append_if (str_in "token" text_lower) "Token mentioned" analysis in
  let analysis := append_if (str_in "supply" text_lower) "Supply information present" analysis in
  let analysis :=
    append_if (str_in "burn" text_lower || str_in "deflationary" text_lower)
      "Deflationary mechanism" analysis in
  let analysis :=
    append_if (str_in "stake" text_lower || str_in "staking" text_lower)
      "Staking utility" analysis in
  let analysis := append_if (str_in "governance" text_lower) "Governance utility" analysis in
  let analysis :=
    append_if (str_in "unlimited supply" text_lower) "⚠️ Unlimited supply" analysis in
  let analysis :=
    append_if (str_in "dev wallet" text_lower && str_in "90%" text_lower)
      "⚠️ High dev allocation" analysis in
  join_or analysis "Limited tokenomics information".

(** [analyze_tokenomics]: the prompt is built from [text[:2000]]; the
    external call stands for the request and for [content.strip()], and any
    exception falls back to the basic analysis. *)
Definition analyze_tokenomics (self : t) (text : string) : option string :=
  match openai_api_key self with
  | Some key =>
      if str_truthy key
      then Some (try_except (openai_acreate (substring 0 2000 text))
                            (basic_tokenomics_analysis text))
      else Some (basic_tokenomics_analysis text)
  | None => Some (basic_tokenomics_analysis text)
  end.

Definition analyze_roadmap_quality (text : string) : string :=
  let text_lower := str_lower text in
  let quality_indicators := [] in
  let quality_indicators :=
    append_if (str_in "roadmap" text_lower) "Roadmap present" quality_indicators in
  let quality_indicators :=
    append_if (str_in "q1" text_lower || str_in "q2" text_lower || str_in "quarter" text_lower)
      "Quarterly planning" quality_indicators in
  let quality_indicators :=
    append_if (str_in "milestone" text_lower) "Clear milestones" quality_indicators in
  let quality_indicators :=
    append_if (str_in "phase" text_lower) "Phased development" quality_indicators in
  let quality_indicators :=
    append_if (str_in "mainnet" text_lower || str_in "testnet" text_lower)
      "Network deployment planned" quality_indicators in
  let quality_indicators :=
    append_if (str_in "moon" text_lower || str_in "lambo" text_lower)
      "⚠️ Unrealistic expectations" quality_indicators in
  let quality_indicators :=
    append_if (str_in "coming soon" text_lower && (len quality_indicators =? 0))
      "⚠️ Vague timeline" quality_indicators in
  join_or quality_indicators "No roadmap information".

Definition analyze_team_presence (text : string) : string :=
  let text_lower := str_lower text in
  let team_indicators := [] in
  let team_indicators := append_if (str_in "team" text_lower) "Team mentioned" team_indicators in
  let team_indicators :=
    append_if (str_in "founder" text_lower || str_in "ceo" text_lower)
      "Leadership identified" team_indicators in
  let team_indicators := append_if (str_in "doxxed" text_lower) "Doxxed team" team_indicators in
  let team_indicators :=
    append_if (str_in "anonymous" text_lower) "⚠️ Anonymous team" team_indicators in
  let team_indicators :=
    append_if (str_in "linkedin" text_lower) "Professional profiles" team_indicators in
  let team_indicators :=
    append_if (str_in "experience" text_lower || str_in "background" text_lower)
      "Experience highlighted" team_indicators in
  join_or team_indicators "Limited team information".

Definition analyze_sentiment (self : t) (text : string) : Q :=
  match sentiment_analyzer self with
  | None => 0%Q
  | Some polarity_compound => try_except (polarity_compound text) 0%Q
  end.

(** [f"{title} {description} " + " ".join(recent_messages[:10])]. *)
Definition all_text (community_info : TelegramCommunityInfo.t) : string :=
  (TelegramCommunityInfo.title community_info +:+ " "
   +:+ TelegramCommunityInfo.description community_info +:+ " ")
  +:+ join " " (slice_to 10 (TelegramCommunityInfo.recent_messages community_info)).

Definition analyze_project (now : datetime) (self : t)
    (community_info : TelegramCommunityInfo.t) : result ProjectAnalysis.t :=
  let all_text := all_text community_info in
  scam_indicators ← detect_scam_indicators self all_text;
  positive_indicators ← detect_positive_indicators self all_text;
  let legitimacy_score :=
    calculate_legitimacy_score now scam_indicators positive_indicators community_info in
  let risk_level := determine_risk_level legitimacy_score scam_indicators in
  let tokenomics_analysis := analyze_tokenomics self all_text in
  let roadmap_quality := analyze_roadmap_quality all_text in
  let team_analysis := analyze_team_presence all_text in
  let sentiment_score := analyze_sentiment self all_text in
  mret {| ProjectAnalysis.legitimacy_score := legitimacy_score;
          ProjectAnalysis.scam_indicators := scam_indicators;
          ProjectAnalysis.positive_indicators := positive_indicators;
          ProjectAnalysis.risk_level := risk_level;
          ProjectAnalysis.tokenomics_analysis := tokenomics_analysis;
          ProjectAnalysis.roadmap_quality := Some roadmap_quality;
          ProjectAnalysis.team_analysis := Some team_analysis;
          ProjectAnalysis.sentiment_score := sentiment_score |}.
End Methods.
End ProjectAnalyzer.

(** ** class ProjectResearcher *)

(** The values that the market-data API puts into [basic_info]. *)
Inductive pyval : Type :=
  | PyNone
  | PyNum (q : Q)
  | PyStr (s : string)
  | PyList (l : list string).

(** The truth value of [v]. *)
Definition truthy (v : pyval) : bool :=
  match v with
  | PyNone => false
  | PyNum q => negb (Qeq_bool q 0)
  | PyStr s => str_truthy s
  | PyList l => match l with [] => false | _ :: _ => true end
  end.

(** [v < n] for an integer [n]: ordering [None], a string or a list against
    a number raises [TypeError]. *)
Definition py_lt_int (v : pyval) (n : Z) : result bool :=
  match v with
  | PyNum q => Ok (Qltb q (inject_Z n))
  | PyNone | PyStr _ | PyList _ => Raise TypeError
  end.

(** [d.get(k)]: [None] when the key is absent. *)
Definition dict_get (d : gmap string pyval) (k : string) : pyval :=
  default PyNone (d !! k).

(** [d.get(k, dflt)]. *)
Definition dict_get_default (d : gmap string pyval) (k : string) (dflt : pyval) : pyval :=
  default dflt (d !! k).

Module BasicInfo.
(** [basic_info]; the key ['market_data'] is there only when the
    market-data API answered. *)
Record t : Type := mk {
  name : string;
  description : string;
  website : string;
  social_links : gmap string pyval;
  market_data : option (gmap string pyval);
  sources : list string;
}.
End BasicInfo.

Module Twitter.
Record t : Type := mk {
  present : bool;
  followers : Z;
  engagement : string;
  activity : string;
}.
End Twitter.

Module Telegram.
(** The dict under ['telegram']; both places that build it set ['members'],
    which [.get('members', 0)] and [['members']] then read. *)
Record t : Type := mk {
  present : bool;
  members : Z;
  activity : string;
}.
End Telegram.

Module Discord.
Record t : Type := mk {
  present : bool;
  members : Z;
  activity : string;
}.
End Discord.

Module SocialAnalysis.
Record t : Type := mk {
  twitter : Twitter.t;
  telegram : Telegram.t;
  discord : Discord.t;
  overall_score : Z;
  missing_platforms : list string;
  recommendations : list string;
}.
End SocialAnalysis.

Module Whitepaper.
Record t : Type := mk {
  present : bool;
  quality : string;
  technical_depth : string;
}.
End Whitepaper.

Module Github.
Record t : Type := mk {
  present : bool;
  activity : string;
  code_quality : string;
}.
End Github.

Module SmartContracts.
Record t : Type := mk {
  deployed : bool;
  audited : bool;
  verified : bool;
}.
End SmartContracts.

Module TechnicalAnalysis.
Record t : Type := mk {
  whitepaper : Whitepaper.t;
  github : Github.t;
  smart_contracts : SmartContracts.t;
  technical_score : Z;
  missing_elements : list string;
  recommendations : list string;
}.
End TechnicalAnalysis.

Module TeamAnalysis.
Record t : Type := mk {
  transparency : string;
  team_size : string;
  experience : string;
  linkedin_profiles : Z;
  public_backgrounds : Z;
  team_score : Z;
  missing_elements : list string;
  recommendations : list string;
}.
End TeamAnalysis.

Module CommunityAnalysis.
Record t : Type := mk {
  size : string;
  engagement_rate : string;
  growth_trend : string;
  community_sentiment : string;
  moderation_quality : string;
  community_score : Z;
  issues : list string;
  recommendations : list string;
}.
End CommunityAnalysis.

Module TokenomicsAnalysis.
Record t : Type := mk {
  burn_mechanism : bool;
  staking : bool;
  governance : bool;
  tokenomics_score : Z;
  red_flags : list string;
  positive_aspects : list string;
  recommendations : list string;
}.
End TokenomicsAnalysis.

Module PitchStrategy.
Record t : Type := mk {
  strategy : string;
  approach : string;
  key_points : list string;
}.
End PitchStrategy.

Module ProjectResearcher.
(** [self.pitch_strategies], built by [__init__] and never changed. *)
Definition pitch_strategies (category : JobCategory.t) : option PitchStrategy.t :=
  match category with
  | JobCategory.COMMUNITY_MANAGEMENT =>
      Some {| PitchStrategy.strategy :=
                "Focus on engagement metrics and community building experience";
              PitchStrategy.approach :=
                "Show examples of communities you've grown and engagement strategies";
              PitchStrategy.key_points :=
                [ "Community growth track record"; "Engagement strategies";
                  "Crisis management"; "Event organization" ] |}
  | JobCategory.MODERATION =>
      Some {| PitchStrategy.strategy :=
                "Emphasize reliability, availability, and conflict resolution skills";
              PitchStrategy.approach :=
                "Highlight your availability across time zones and moderation tools experience";
              PitchStrategy.key_points :=
                [ "24/7 availability"; "Moderation tools expertise";
                  "Conflict resolution"; "Rule enforcement" ] |}
  | JobCategory.GRAPHICS_DESIGN =>
      Some {| PitchStrategy.strategy :=
                "Lead with a strong portfolio showcasing crypto/web3 design experience";
              PitchStrategy.approach :=
                "Create sample designs specifically for their project before pitching";
              PitchStrategy.key_points :=
                [ "Crypto design portfolio"; "Brand consistency";
                  "Quick turnaround"; "Multiple format delivery" ] |}
  | JobCategory.SOCIAL_MEDIA =>
      Some {| PitchStrategy.strategy :=
                "Present a content strategy with growth projections and engagement tactics";
              PitchStrategy.approach :=
                "Analyze their current social media and propose specific improvements";
              PitchStrategy.key_points :=
                [ "Content strategy"; "Growth tactics";
                  "Platform expertise"; "Analytics tracking" ] |}
  | JobCategory.PR_MARKETING =>
      Some {| PitchStrategy.strategy :=
                "Demonstrate media connections and successful campaign examples";
              PitchStrategy.approach :=
                "Propose specific PR opportunities and media outreach strategy";
              PitchStrategy.key_points :=
                [ "Media relationships"; "Campaign success stories";
                  "Industry knowledge"; "Crisis communication" ] |}
  | JobCategory.BUSINESS_DEVELOPMENT =>
      Some {| PitchStrategy.strategy :=
                "Showcase network connections and partnership facilitation experience";
              PitchStrategy.approach :=
                "Identify potential partnerships and present strategic opportunities";
              PitchStrategy.key_points :=
                [ "Network connections"; "Deal-making experience";
                  "Market insights"; "Strategic thinking" ] |}
  | _ => None
  end.

(** [self.pitch_strategies[category]]. *)
Definition pitch_strategies_getitem (category : JobCategory.t) : result PitchStrategy.t :=
  match pitch_strategies category with
  | Some s => Ok s
  | None => Raise KeyError
  end.

(** [clamp] of an integer score: [max(0, min(100, score))]. *)
Definition clamp_0_100 (score : Z) : Z := Z.max 0 (Z.min 100 score).

Definition calculate_social_media_score (social_analysis : SocialAnalysis.t) : Z :=
  let score := 0 in
  let score :=
    if Twitter.present (SocialAnalysis.twitter social_analysis) then
      let score := score + 30 in
      let followers := Twitter.followers (SocialAnalysis.twitter social_analysis) in
      if followers >? 10000 then score + 20
      else if followers >? 1000 then score + 10
      else score
    else score in
  let score :=
    if Telegram.present (SocialAnalysis.telegram social_analysis) then
      let score := score + 25 in
      let members := Telegram.members (SocialAnalysis.telegram social_analysis) in
      if members >? 5000 then score + 15
      else if members >? 1000 then score + 8
      else score
    else score in
  let score :=
    if Discord.present (SocialAnalysis.discord social_analysis) then score + 25 else score in
  let missing_platforms := len (SocialAnalysis.missing_platforms social_analysis) in
  let score := score - missing_platforms * 15 in
  clamp_0_100 score.

Definition generate_social_media_recommendations (social_analysis : SocialAnalysis.t)
    : list string :=
  let missing := SocialAnalysis.missing_platforms social_analysis in
  (if list_in "twitter" missing
   then ["Establish Twitter presence for announcements and community engagement"] else [])
  ++ (if list_in "telegram" missing
      then ["Create Telegram community for real-time discussions"] else [])
  ++ (if list_in "discord" missing
      then ["Set up Discord server for community building and support"] else [])
  ++ (if SocialAnalysis.overall_score social_analysis <? 50
      then ["Increase social media activity and engagement"] else []).

(** [analyze_twitter_account] and [analyze_telegram_channel] are
    placeholders that answer a constant. *)
Definition analyze_twitter_account (twitter_handle : pyval) : Twitter.t :=
  {| Twitter.present := true; Twitter.followers := 0;
     Twitter.engagement := "unknown"; Twitter.activity := "unknown" |}.

Definition analyze_telegram_channel (telegram_identifier : pyval) : Telegram.t :=
  {| Telegram.present := true; Telegram.members := 0; Telegram.activity := "unknown" |}.

Definition analyze_social_presence (basic_info : BasicInfo.t) : SocialAnalysis.t :=
  let social_links := BasicInfo.social_links basic_info in
  let twitter0 :=
    {| Twitter.present := false; Twitter.followers := 0;
       Twitter.engagement := "unknown"; Twitter.activity := "unknown" |} in
  let telegram0 :=
    {| Telegram.present := false; Telegram.members := 0; Telegram.activity := "unknown" |} in
  let discord0 :=
    {| Discord.present := false; Discord.members := 0; Discord.activity := "unknown" |} in
  let missing_platforms := [] in
  let '(twitter, missing_platforms) :=
    if truthy (dict_get social_links "twitter")
    then (analyze_twitter_account (dict_get social_links "twitter"), missing_platforms)
    else (twitter0, missing_platforms ++ ["twitter"]) in
  let '(telegram, missing_platforms) :=
    if truthy (dict_get social_links "telegram")
    then (analyze_telegram_channel (dict_get social_links "telegram"), missing_platforms)
    else (telegram0, missing_platforms ++ ["telegram"]) in
  let social_analysis :=
    {| SocialAnalysis.twitter := twitter;
       SocialAnalysis.telegram := telegram;
       SocialAnalysis.discord := discord0;
       SocialAnalysis.overall_score := 0;
       SocialAnalysis.missing_platforms := missing_platforms;
       SocialAnalysis.recommendations := [] |} in
  let social_analysis :=
    {| SocialAnalysis.twitter := twitter;
       SocialAnalysis.telegram := telegram;
       SocialAnalysis.discord := discord0;
       SocialAnalysis.overall_score := calculate_social_media_score social_analysis;
       SocialAnalysis.missing_platforms := missing_platforms;
       SocialAnalysis.recommendations := [] |} in
  {| SocialAnalysis.twitter := twitter;
     SocialAnalysis.telegram := telegram;
     SocialAnalysis.discord := discord0;
     SocialAnalysis.overall_score := SocialAnalysis.overall_score social_analysis;
     SocialAnalysis.missing_platforms := missing_platforms;
     SocialAnalysis.recommendations := generate_social_media_recommendations social_analysis |}.

Definition calculate_technical_score (technical_analysis : TechnicalAnalysis.t) : Z :=
  let score := 0 in
  let score :=
    if Github.present (TechnicalAnalysis.github technical_analysis)
    then score + 40 else score in
  let score :=
    if Whitepaper.present (TechnicalAnalysis.whitepaper technical_analysis)
    then score + 30 else score in
  let score :=
    if SmartContracts.deployed (TechnicalAnalysis.smart_contracts technical_analysis)
    then score + 20 else score in
  let score :=
    if SmartContracts.audited (TechnicalAnalysis.smart_contracts technical_analysis)
    then score + 10 else score in
  let missing_count := len (TechnicalAnalysis.missing_elements technical_analysis) in
  let score := score - missing_count * 20 in
  clamp_0_100 score.

Definition generate_technical_recommendations (technical_analysis : TechnicalAnalysis.t)
    : list string :=
  let missing := TechnicalAnalysis.missing_elements technical_analysis in
  (if list_in "github_repository" missing
   then ["Create public GitHub repository to showcase development progress"] else [])
  ++ (if list_in "whitepaper" missing
      then ["Publish detailed whitepaper explaining technology and tokenomics"] else [])
  ++ (if negb (SmartContracts.audited (TechnicalAnalysis.smart_contracts technical_analysis))
      then ["Get smart contracts professionally audited for security"] else []).

(** [analyze_github_presence]: reached only with a non-empty list. *)
Definition analyze_github_presence (github_repos : list string) : Github.t :=
  {| Github.present := len github_repos >? 0;
     Github.activity := "unknown"; Github.code_quality := "unknown" |}.

(** [check_whitepaper_presence]: a placeholder that never finds one. *)
Definition check_whitepaper_presence (website : string) : Whitepaper.t :=
  {| Whitepaper.present := false; Whitepaper.quality := "unknown";
     Whitepaper.technical_depth := "unknown" |}.

(** [analyze_technical_aspects]; [len()] of a truthy ['github'] value that
    is not a list raises [TypeError]. *)
Definition analyze_technical_aspects (basic_info : BasicInfo.t)
    : result TechnicalAnalysis.t :=
  let whitepaper0 :=
    {| Whitepaper.present := false; Whitepaper.quality := "unknown";
       Whitepaper.technical_depth := "unknown" |} in
  let github0 :=
    {| Github.present := false; Github.activity := "unknown";
       Github.code_quality := "unknown" |} in
  let smart_contracts :=
    {| SmartContracts.deployed := false; SmartContracts.audited := false;
       SmartContracts.verified := false |} in
  let missing_elements := [] in
  let github_repos :=
    dict_get_default (BasicInfo.social_links basic_info) "github" (PyList []) in
  '(github, missing_elements) ←
    (if truthy github_repos
     then match github_repos with
          | PyList l => Ok (analyze_github_presence l, missing_elements)
          | PyStr s => Ok (analyze_github_presence [s], missing_elements)
          | PyNone | PyNum _ => Raise TypeError
          end
     else Ok (github0, missing_elements ++ ["github_repository"]));
  let website := BasicInfo.website basic_info in
  let '(whitepaper, missing_elements) :=
    if str_truthy website
    then (check_whitepaper_presence website, missing_elements)
    else (whitepaper0, missing_elements ++ ["whitepaper"]) in
  let technical_analysis :=
    {| TechnicalAnalysis.whitepaper := whitepaper;
       TechnicalAnalysis.github := github;
       TechnicalAnalysis.smart_contracts := smart_contracts;
       TechnicalAnalysis.technical_score := 0;
       TechnicalAnalysis.missing_elements := missing_elements;
       TechnicalAnalysis.recommendations := [] |} in
  let technical_analysis :=
    {| TechnicalAnalysis.whitepaper := whitepaper;
       TechnicalAnalysis.github := github;
       TechnicalAnalysis.smart_contracts := smart_contracts;
       TechnicalAnalysis.technical_score := calculate_technical_score technical_analysis;
       TechnicalAnalysis.missing_elements := missing_elements;
       TechnicalAnalysis.recommendations := [] |} in
  mret {| TechnicalAnalysis.whitepaper := whitepaper;
          TechnicalAnalysis.github := github;
          TechnicalAnalysis.smart_contracts := smart_contracts;
          TechnicalAnalysis.technical_score :=
            TechnicalAnalysis.technical_score technical_analysis;
          TechnicalAnalysis.missing_elements := missing_elements;
          TechnicalAnalysis.recommendations :=
            generate_technical_recommendations technical_analysis |}.

Definition calculate_team_score (team_analysis : TeamAnalysis.t) : Z :=
  let score := 0 in
  let transparency := TeamAnalysis.transparency team_analysis in
  let score :=
    if String.eqb transparency "high" then score + 50
    else if String.eqb transparency "medium" then score + 30
    else if String.eqb transparency "low" then score + 10
    else score in
  let score := score + TeamAnalysis.linkedin_profiles team_analysis * 10 in
  let score := score + TeamAnalysis.public_backgrounds team_analysis * 5 in
  Z.min 100 score.

Definition generate_team_recommendations (team_analysis : TeamAnalysis.t) : list string :=
  (if String.eqb (TeamAnalysis.transparency team_analysis) "anonymous"
   then ["Consider revealing team members to build trust and credibility"]
   else if String.eqb (TeamAnalysis.transparency team_analysis) "low"
   then ["Provide more detailed team information and backgrounds"]
   else [])
  ++ (if TeamAnalysis.linkedin_profiles team_analysis =? 0
      then ["Create professional LinkedIn profiles for team members"] else []).

Definition calculate_community_score (community_analysis : CommunityAnalysis.t) : Z := 50.

Definition generate_community_recommendations (community_analysis : CommunityAnalysis.t)
    : list string :=
  ["Increase community engagement through regular events and updates"].

Definition analyze_community_health (basic_info : BasicInfo.t) : CommunityAnalysis.t :=
  let community_analysis :=
    {| CommunityAnalysis.size := "unknown";
       CommunityAnalysis.engagement_rate := "unknown";
       CommunityAnalysis.growth_trend := "unknown";
       CommunityAnalysis.community_sentiment := "neutral";
       CommunityAnalysis.moderation_quality := "unknown";
       CommunityAnalysis.community_score := 0;
       CommunityAnalysis.issues := [];
       CommunityAnalysis.recommendations := [] |} in
  {| CommunityAnalysis.size := "unknown";
     CommunityAnalysis.engagement_rate := "unknown";
     CommunityAnalysis.growth_trend := "unknown";
     CommunityAnalysis.community_sentiment := "neutral";
     CommunityAnalysis.moderation_quality := "unknown";
     CommunityAnalysis.community_score := calculate_community_score community_analysis;
     CommunityAnalysis.issues := [];
     CommunityAnalysis.recommendations :=
       generate_community_recommendations community_analysis |}.

Definition calculate_tokenomics_score (tokenomics_analysis : TokenomicsAnalysis.t) : Z :=
  let score := 50 in
  let score := score + len (TokenomicsAnalysis.positive_aspects tokenomics_analysis) * 15 in
  let score := score - len (TokenomicsAnalysis.red_flags tokenomics_analysis) * 25 in
  clamp_0_100 score.

Definition generate_tokenomics_recommendations (tokenomics_analysis : TokenomicsAnalysis.t)
    : list string :=
  (if negb (TokenomicsAnalysis.burn_mechanism tokenomics_analysis)
   then ["Consider implementing token burn mechanism for deflationary pressure"] else [])
  ++ (if negb (TokenomicsAnalysis.staking tokenomics_analysis)
      then ["Add staking utility to encourage long-term holding"] else [])
  ++ (if negb (TokenomicsAnalysis.governance tokenomics_analysis)
      then ["Implement governance functionality for community participation"] else []).

(** [has_professional_branding]: the source returns [False] for every
    project. *)
Definition has_professional_branding (basic_info : BasicInfo.t)
    (social_analysis : SocialAnalysis.t) : bool := false.

(** The default guidance of [format_pitch_strategy], for an empty dict. *)
Definition default_pitch : string :=
  "Research the project thoroughly and propose specific improvements in your area of expertise.".

(** [format_pitch_strategy]: [None] stands for the empty dict. *)
Definition format_pitch_strategy (strategy_dict : option PitchStrategy.t)
    (category : JobCategory.t) : string :=
  match strategy_dict with
  | None => default_pitch
  | Some d =>
      let strategy := PitchStrategy.strategy d in
      let approach := PitchStrategy.approach d in
      let key_points := PitchStrategy.key_points d in
      let formatted_strategy :=
        nl +:+ "**Pitch Strategy:** " +:+ strategy +:+ nl
        +:+ nl
        +:+ "**Approach:** " +:+ approach +:+ nl
        +:+ nl
        +:+ "**Key Points to Highlight:**" +:+ nl
        +:+ join nl (map (fun point => "• " +:+ point) key_points) +:+ nl
        +:+ nl
        +:+ "**Pitch Template:**" +:+ nl
        +:+ dquote +:+ "Hi [Project Name] team! I've been following your project and see great potential. I noticed you could benefit from "
        +:+ replace_char "_" " " (JobCategory.value category)
        +:+ " support. Here's how I can help:" +:+ nl
        +:+ nl
        +:+ "[Specific examples of what you can deliver]" +:+ nl
        +:+ "[Your relevant experience/portfolio]" +:+ nl
        +:+ "[Proposed timeline and deliverables]" +:+ nl
        +:+ nl
        +:+ "I'd love to discuss how we can grow [Project Name] together. When would be a good time for a brief call?"
        +:+ dquote +:+ nl
        +:+ "        " in
      strip formatted_strategy
  end.

Definition create_job_opportunity (category : JobCategory.t) (urgency description : string)
    (requirements : list string) (pitch_strategy : option PitchStrategy.t)
    (estimated_budget time_commitment : string) : JobOpportunity.t :=
  {| JobOpportunity.category := category;
     JobOpportunity.urgency := urgency;
     JobOpportunity.description := description;
     JobOpportunity.requirements := requirements;
     JobOpportunity.pitch_strategy := format_pitch_strategy pitch_strategy category;
     JobOpportunity.estimated_budget := estimated_budget;
     JobOpportunity.time_commitment := time_commitment |}.

(** [basic_info.get('market_data', {}).get('market_cap', 0)]. *)
Definition market_cap_of (basic_info : BasicInfo.t) : pyval :=
  dict_get_default (default ∅ (BasicInfo.market_data basic_info)) "market_cap" (PyNum 0).

(** [avg_score] and the maturity label of [identify_project_needs]. *)
Definition avg_score (social technical team : Z) : Q :=
  (inject_Z (social + technical + team) / 3)%Q.

Definition maturity_label (avg : Q) : string :=
  if Qltb avg 40 then "early"
  else if Qltb avg 70 then "developing"
  else "mature".

Definition identify_project_needs (basic_info : BasicInfo.t)
    (social_analysis : SocialAnalysis.t) (technical_analysis : TechnicalAnalysis.t)
    (team_analysis : TeamAnalysis.t) (community_analysis : CommunityAnalysis.t)
    : result ProjectNeeds.t :=
  let missing_elements := [] in
  let strengths := [] in
  let improvement_areas := [] in
  let job_opportunities := [] in
  (* social media needs *)
  '(missing_elements, improvement_areas, job_opportunities) ←
    (if SocialAnalysis.overall_score social_analysis <? 70 then
       let missing_elements := missing_elements ++ ["strong_social_media_presence"] in
       let improvement_areas := improvement_areas ++ ["social_media_strategy"] in
       job_opportunities ←
         (if list_in "twitter" (SocialAnalysis.missing_platforms social_analysis) then
            ps ← pitch_strategies_getitem JobCategory.SOCIAL_MEDIA;
            mret (job_opportunities ++ [create_job_opportunity
              JobCategory.SOCIAL_MEDIA "high"
              "Twitter account management and content strategy needed"
              ["Social media experience"; "Crypto knowledge"; "Content creation"]
              (Some ps)
              "$500-2000/month" "Part-time (10-20 hrs/week)"])
          else mret job_opportunities);
       job_opportunities ←
         (if Telegram.members (SocialAnalysis.telegram social_analysis) <? 1000 then
            ps ← pitch_strategies_getitem JobCategory.COMMUNITY_MANAGEMENT;
            mret (job_opportunities ++ [create_job_opportunity
              JobCategory.COMMUNITY_MANAGEMENT "high"
              "Telegram community growth and management needed"
              ["Community building experience"; "24/7 availability"; "Crypto enthusiasm"]
              (Some ps)
              "$800-3000/month" "Full-time"])
          else mret job_opportunities);
       mret (missing_elements, improvement_areas, job_opportunities)
     else mret (missing_elements, improvement_areas, job_opportunities));
  (* technical needs *)
  let '(missing_elements, improvement_areas, job_opportunities) :=
    if TechnicalAnalysis.technical_score technical_analysis <? 60 then
      let missing_elements := missing_elements ++ ["strong_technical_foundation"] in
      let improvement_areas := improvement_areas ++ ["technical_documentation"] in
      let job_opportunities :=
        if list_in "whitepaper" (TechnicalAnalysis.missing_elements technical_analysis) then
          job_opportunities ++ [create_job_opportunity
            JobCategory.TECHNICAL_WRITING "high"
            "Technical writer needed for whitepaper and documentation"
            ["Technical writing experience"; "Blockchain knowledge"; "Research skills"]
            (pitch_strategies JobCategory.TECHNICAL_WRITING)
            "$2000-8000 (one-time)" "Project-based"]
        else job_opportunities in
      let job_opportunities :=
        if list_in "github_repository"
             (TechnicalAnalysis.missing_elements technical_analysis) then
          job_opportunities ++ [create_job_opportunity
            JobCategory.DEVELOPMENT "medium"
            "Blockchain developer needed for smart contract development"
            ["Solidity experience"; "Smart contract development"; "Security knowledge"]
            (pitch_strategies JobCategory.DEVELOPMENT)
            "$3000-10000/month" "Full-time"]
        else job_opportunities in
      (missing_elements, improvement_areas, job_opportunities)
    else (missing_elements, improvement_areas, job_opportunities) in
  (* team transparency needs *)
  '(missing_elements, improvement_areas, job_opportunities) ←
    (if TeamAnalysis.team_score team_analysis <? 50 then
       let missing_elements := missing_elements ++ ["team_transparency"] in
       let improvement_areas := improvement_areas ++ ["team_credibility"] in
       ps ← pitch_strategies_getitem JobCategory.PR_MARKETING;
       mret (missing_elements, improvement_areas,
             job_opportunities ++ [create_job_opportunity
               JobCategory.PR_MARKETING "medium"
               "PR specialist needed to build team credibility and media presence"
               ["PR experience"; "Media relationships"; "Crisis communication"]
               (Some ps)
               "$1500-5000/month" "Part-time"])
     else mret (missing_elements, improvement_areas, job_opportunities));
  (* graphics and design needs *)
  '(missing_elements, improvement_areas, job_opportunities) ←
    (if negb (has_professional_branding basic_info social_analysis) then
       let missing_elements := missing_elements ++ ["professional_branding"] in
       let improvement_areas := improvement_areas ++ ["visual_identity"] in
       ps ← pitch_strategies_getitem JobCategory.GRAPHICS_DESIGN;
       mret (missing_elements, improvement_areas,
             job_opportunities ++ [create_job_opportunity
               JobCategory.GRAPHICS_DESIGN "medium"
               "Graphics designer needed for branding and visual content"
               ["Graphic design portfolio"; "Crypto/Web3 experience"; "Brand development"]
               (Some ps)
               "$1000-4000/month" "Part-time"])
     else mret (missing_elements, improvement_areas, job_opportunities));
  (* business development needs *)
  let market_cap := market_cap_of basic_info in
  py_lt_int market_cap 10000000 ≫= λ below : bool,
  '(missing_elements, improvement_areas, job_opportunities) ←
    (if below then
       let missing_elements := missing_elements ++ ["strategic_partnerships"] in
       let improvement_areas := improvement_areas ++ ["business_development"] in
       ps ← pitch_strategies_getitem JobCategory.BUSINESS_DEVELOPMENT;
       mret (missing_elements, improvement_areas,
             job_opportunities ++ [create_job_opportunity
               JobCategory.BUSINESS_DEVELOPMENT "medium"
               "Business development specialist for partnerships and growth"
               ["BD experience"; "Crypto industry network"; "Deal-making skills"]
               (Some ps)
               "$2000-8000/month" "Part-time to Full-time"])
     else mret (missing_elements, improvement_areas, job_opportunities));
  (* strengths *)
  let strengths :=
    if SocialAnalysis.overall_score social_analysis >? 70
    then strengths ++ ["strong_social_media_presence"] else strengths in
  let strengths :=
    if TechnicalAnalysis.technical_score technical_analysis >? 70
    then strengths ++ ["solid_technical_foundation"] else strengths in
  let strengths :=
    if TeamAnalysis.team_score team_analysis >? 70
    then strengths ++ ["transparent_team"] else strengths in
  (* overall maturity *)
  let avg_score :=
    avg_score (SocialAnalysis.overall_score social_analysis)
              (TechnicalAnalysis.technical_score technical_analysis)
              (TeamAnalysis.team_score team_analysis) in
  let overall_maturity := maturity_label avg_score in
  mret {| ProjectNeeds.missing_elements := missing_elements;
          ProjectNeeds.strengths := strengths;
          ProjectNeeds.improvement_areas := improvement_areas;
          ProjectNeeds.job_opportunities := job_opportunities;
          ProjectNeeds.overall_maturity := overall_maturity |}.

Definition create_legitimacy_analysis (basic_info : BasicInfo.t)
    (social_analysis : SocialAnalysis.t) (technical_analysis : TechnicalAnalysis.t)
    (team_analysis : TeamAnalysis.t) : ProjectAnalysis.t :=
  let scam_indicators := [] in
  let positive_indicators := [] in
  let '(scam_indicators, positive_indicators) :=
    if String.eqb (TeamAnalysis.transparency team_analysis) "anonymous"
    then (scam_indicators ++ ["MEDIUM RISK: Anonymous team"], positive_indicators)
    else (scam_indicators, positive_indicators ++ ["POSITIVE: Team information available"]) in
  let '(scam_indicators, positive_indicators) :=
    if TechnicalAnalysis.technical_score technical_analysis <? 30
    then (scam_indicators ++ ["HIGH RISK: Poor technical foundation"], positive_indicators)
    else if TechnicalAnalysis.technical_score technical_analysis >? 70
    then (scam_indicators, positive_indicators ++ ["POSITIVE: Strong technical foundation"])
    else (scam_indicators, positive_indicators) in
  let '(scam_indicators, positive_indicators) :=
    if SocialAnalysis.overall_score social_analysis <? 20
    then (scam_indicators ++ ["MEDIUM RISK: Minimal social media presence"],
          positive_indicators)
    else if SocialAnalysis.overall_score social_analysis >? 60
    then (scam_indicators, positive_indicators ++ ["POSITIVE: Good social media presence"])
    else (scam_indicators, positive_indicators) in
  let legitimacy_score :=
    avg_score (SocialAnalysis.overall_score social_analysis)
              (TechnicalAnalysis.technical_score technical_analysis)
              (TeamAnalysis.team_score team_analysis) in
  let risk_level :=
    if Qgtb legitimacy_score 70 then ScamRisk.LOW
    else if Qgtb legitimacy_score 50 then ScamRisk.MEDIUM
    else if Qgtb legitimacy_score 30 then ScamRisk.HIGH
    else ScamRisk.CRITICAL in
  {| ProjectAnalysis.legitimacy_score := legitimacy_score;
     ProjectAnalysis.scam_indicators := scam_indicators;
     ProjectAnalysis.positive_indicators := positive_indicators;
     ProjectAnalysis.risk_level := risk_level;
     ProjectAnalysis.tokenomics_analysis := Some "See detailed tokenomics analysis";
     ProjectAnalysis.roadmap_quality := Some "See technical analysis";
     ProjectAnalysis.team_analysis := Some "See team analysis";
     ProjectAnalysis.sentiment_score := 0%Q |}.

Module ComprehensiveProjectAnalysis.
Record t : Type := mk {
  project_name : string;
  project_description : string;
  legitimacy_analysis : ProjectAnalysis.t;
  social_presence : SocialAnalysis.t;
  technical_analysis : TechnicalAnalysis.t;
  team_analysis : TeamAnalysis.t;
  community_health : CommunityAnalysis.t;
  tokenomics_deep_dive : TokenomicsAnalysis.t;
  project_needs : ProjectNeeds.t;
  research_timestamp : datetime;
  sources_analyzed : list string;
}.
End ComprehensiveProjectAnalysis.

Section Methods.
Context `{Externals}.

Definition analyze_team (basic_info : BasicInfo.t) : TeamAnalysis.t :=
  let description := BasicInfo.description basic_info in
  let team_keywords := ["team"; "founder"; "ceo"; "developer"; "advisor"] in
  let team_mentions :=
    len (List.filter (fun keyword => str_in keyword (str_lower description)) team_keywords) in
  let '(missing_elements, transparency) :=
    if team_mentions =? 0 then (["team_information"], "anonymous")
    else if team_mentions <? 3 then ([], "low")
    else ([], "medium") in
  let team_analysis :=
    {| TeamAnalysis.transparency := transparency;
       TeamAnalysis.team_size := "unknown";
       TeamAnalysis.experience := "unknown";
       TeamAnalysis.linkedin_profiles := 0;
       TeamAnalysis.public_backgrounds := 0;
       TeamAnalysis.team_score := 0;
       TeamAnalysis.missing_elements := missing_elements;
       TeamAnalysis.recommendations := [] |} in
  let team_analysis :=
    {| TeamAnalysis.transparency := transparency;
       TeamAnalysis.team_size := "unknown";
       TeamAnalysis.experience := "unknown";
       TeamAnalysis.linkedin_profiles := 0;
       TeamAnalysis.public_backgrounds := 0;
       TeamAnalysis.team_score := calculate_team_score team_analysis;
       TeamAnalysis.missing_elements := missing_elements;
       TeamAnalysis.recommendations := [] |} in
  {| TeamAnalysis.transparency := transparency;
     TeamAnalysis.team_size := "unknown";
     TeamAnalysis.experience := "unknown";
     TeamAnalysis.linkedin_profiles := 0;
     TeamAnalysis.public_backgrounds := 0;
     TeamAnalysis.team_score := TeamAnalysis.team_score team_analysis;
     TeamAnalysis.missing_elements := missing_elements;
     TeamAnalysis.recommendations := generate_team_recommendations team_analysis |}.

Definition analyze_tokenomics_deep (basic_info : BasicInfo.t) : TokenomicsAnalysis.t :=
  let description := BasicInfo.description basic_info in
  let red_flags :=
    if str_in "unlimited supply" (str_lower description) then ["unlimited_supply"] else [] in
  let burn_mechanism := str_in "burn" (str_lower description) in
  let staking := str_in "staking" (str_lower description) in
  let governance := str_in "governance" (str_lower description) in
  let positive_aspects :=
    (if burn_mechanism then ["burn_mechanism"] else [])
    ++ (if staking then ["staking_utility"] else [])
    ++ (if governance then ["governance_utility"] else []) in
  let tokenomics_analysis :=
    {| TokenomicsAnalysis.burn_mechanism := burn_mechanism;
       TokenomicsAnalysis.staking := staking;
       TokenomicsAnalysis.governance := governance;
       TokenomicsAnalysis.tokenomics_score := 0;
       TokenomicsAnalysis.red_flags := red_flags;
       TokenomicsAnalysis.positive_aspects := positive_aspects;
       TokenomicsAnalysis.recommendations := [] |} in
  {| TokenomicsAnalysis.burn_mechanism := burn_mechanism;
     TokenomicsAnalysis.staking := staking;
     TokenomicsAnalysis.governance := governance;
     TokenomicsAnalysis.tokenomics_score := calculate_tokenomics_score tokenomics_analysis;
     TokenomicsAnalysis.red_flags := red_flags;
     TokenomicsAnalysis.positive_aspects := positive_aspects;
     TokenomicsAnalysis.recommendations :=
       generate_tokenomics_recommendations tokenomics_analysis |}.

(** [research_project_comprehensive], from the point where
    [gather_basic_project_info] has answered [basic_info]; the [try] has a
    [finally] and no [except], so an exception of a step leaves the
    function. *)
Definition research_project_comprehensive (now : datetime) (project_identifier : string)
    (basic_info : BasicInfo.t) : result ComprehensiveProjectAnalysis.t :=
  let social_analysis := analyze_social_presence basic_info in
  technical_analysis ← analyze_technical_aspects basic_info;
  let team_analysis := analyze_team basic_info in
  let community_analysis := analyze_community_health basic_info in
  let tokenomics_analysis := analyze_tokenomics_deep basic_info in
  project_needs ←
    identify_project_needs basic_info social_analysis technical_analysis
      team_analysis community_analysis;
  let legitimacy_analysis :=
    create_legitimacy_analysis basic_info social_analysis technical_analysis team_analysis in
  mret {| ComprehensiveProjectAnalysis.project_name := BasicInfo.name basic_info;
          ComprehensiveProjectAnalysis.project_description :=
            BasicInfo.description basic_info;
          ComprehensiveProjectAnalysis.legitimacy_analysis := legitimacy_analysis;
          ComprehensiveProjectAnalysis.social_presence := social_analysis;
          ComprehensiveProjectAnalysis.technical_analysis := technical_analysis;
          ComprehensiveProjectAnalysis.team_analysis := team_analysis;
          ComprehensiveProjectAnalysis.community_health := community_analysis;
          ComprehensiveProjectAnalysis.tokenomics_deep_dive := tokenomics_analysis;
          ComprehensiveProjectAnalysis.project_needs := project_needs;
          ComprehensiveProjectAnalysis.research_timestamp := now;
          ComprehensiveProjectAnalysis.sources_analyzed := BasicInfo.sources basic_info |}.
End Methods.
End ProjectResearcher.

(** ** class EnhancedDatabaseManager *)

Module EnhancedDatabaseManager.
(** A row of the table [telegram_communities].  The text columns that hold
    [isoformat()] and [json.dumps()] output are kept as the values they
    encode; [risk_level] is the text written by [risk_level.value]. *)
Record row : Type := mk_row {
  id : Z;
  unique_id : string;
  title : string;
  username : string;
  member_count : Z;
  description : string;
  admin_count : Z;
  creation_date : option datetime;
  invite_link : option string;
  legitimacy_score : Q;
  risk_level : string;
  scam_indicators : list string;
  positive_indicators : list string;
  tokenomics_analysis : option string;
  roadmap_quality : option string;
  team_analysis : option string;
  sentiment_score : Q;
  discovery_timestamp : datetime;
  sent : bool;
}.

(** The database: the rows of [telegram_communities], oldest first. *)
Definition t : Type := list row.

(** [init_db] on a fresh file. *)
Definition init_db : t := [].

(** The constraint [unique_id TEXT UNIQUE] is violated by a new row. *)
Definition unique_violation (db : t) (uid : string) : bool :=
  existsb (fun r => String.eqb (unique_id r) uid) db.

(** [id INTEGER PRIMARY KEY AUTOINCREMENT]; rows are never deleted. *)
Definition next_id (db : t) : Z :=
  1 + fold_right Z.max 0 (map id db).

(** The [INSERT] statement of [add_community_alert] followed by
    [conn.commit()]. *)
Definition insert_community (db : t) (alert : CommunityAlert.t) : result t :=
  if unique_violation db (CommunityAlert.unique_id alert) then Raise IntegrityError
  else
    let community_info := CommunityAlert.community_info alert in
    let project_analysis := CommunityAlert.project_analysis alert in
    Ok (db ++ [
      {| id := next_id db;
         unique_id := CommunityAlert.unique_id alert;
         title := TelegramCommunityInfo.title community_info;
         username := TelegramCommunityInfo.username community_info;
         member_count := TelegramCommunityInfo.member_count community_info;
         description := TelegramCommunityInfo.description community_info;
         admin_count := TelegramCommunityInfo.admin_count community_info;
         creation_date := TelegramCommunityInfo.creation_date community_info;
         invite_link := TelegramCommunityInfo.invite_link community_info;
         legitimacy_score := ProjectAnalysis.legitimacy_score project_analysis;
         risk_level := ScamRisk.value (ProjectAnalysis.risk_level project_analysis);
         scam_indicators := ProjectAnalysis.scam_indicators project_analysis;
         positive_indicators := ProjectAnalysis.positive_indicators project_analysis;
         tokenomics_analysis := ProjectAnalysis.tokenomics_analysis project_analysis;
         roadmap_quality := ProjectAnalysis.roadmap_quality project_analysis;
         team_analysis := ProjectAnalysis.team_analysis project_analysis;
         sentiment_score := ProjectAnalysis.sentiment_score project_analysis;
         discovery_timestamp := CommunityAlert.discovery_timestamp alert;
         sent := false |} ]).

(** [add_community_alert]: the returned flag and the store afterwards.
    [sqlite3.IntegrityError] is the one exception that the method handles. *)
Definition add_community_alert (db : t) (alert : CommunityAlert.t) : result (bool * t) :=
  match insert_community db alert with
  | Ok db' => Ok (true, db')
  | Raise IntegrityError => Ok (false, db)
  | Raise e => Raise e
  end.

(** The size category that [get_unsent_community_alerts] recomputes. *)
Definition size_category_of (member_count : Z) : CommunitySize.t :=
  if (1 <=? member_count) && (member_count <=? 30) then CommunitySize.MICRO
  else if (31 <=? member_count) && (member_count <=? 50) then CommunitySize.SMALL
  else if (51 <=? member_count) && (member_count <=? 100) then CommunitySize.MEDIUM_SMALL
  else if (101 <=? member_count) && (member_count <=? 200) then CommunitySize.MEDIUM
  else CommunitySize.GROWING.

(** One row turned back into an alert; [ScamRisk(row[10])] raises
    [ValueError] on a text that is no member's value. *)
Definition alert_of_row (r : row) : result CommunityAlert.t :=
  let community_info :=
    {| TelegramCommunityInfo.title := title r;
       TelegramCommunityInfo.username := username r;
       TelegramCommunityInfo.member_count := member_count r;
       TelegramCommunityInfo.description := description r;
       TelegramCommunityInfo.recent_messages := [];
       TelegramCommunityInfo.admin_count := admin_count r;
       TelegramCommunityInfo.creation_date := creation_date r;
       TelegramCommunityInfo.invite_link := invite_link r;
       TelegramCommunityInfo.category := "crypto";
       TelegramCommunityInfo.verified := false;
       TelegramCommunityInfo.restricted := false |} in
  match ScamRisk.of_value (risk_level r) with
  | None => Raise ValueError
  | Some risk =>
      let project_analysis :=
        {| ProjectAnalysis.legitimacy_score := legitimacy_score r;
           ProjectAnalysis.scam_indicators := scam_indicators r;
           ProjectAnalysis.positive_indicators := positive_indicators r;
           ProjectAnalysis.risk_level := risk;
           ProjectAnalysis.tokenomics_analysis := tokenomics_analysis r;
           ProjectAnalysis.roadmap_quality := roadmap_quality r;
           ProjectAnalysis.team_analysis := team_analysis r;
           ProjectAnalysis.sentiment_score := sentiment_score r |} in
      Ok {| CommunityAlert.community_info := community_info;
            CommunityAlert.project_analysis := project_analysis;
            CommunityAlert.discovery_timestamp := discovery_timestamp r;
            CommunityAlert.unique_id := unique_id r;
            CommunityAlert.size_category := size_category_of (member_count r) |}
  end.

(** [for row in rows: ... alerts.append(alert)]. *)
Fixpoint alerts_of_rows (rows : list row) : result (list CommunityAlert.t) :=
  match rows with
  | [] => Ok []
  | r :: rest =>
      alert ← alert_of_row r;
      alerts ← alerts_of_rows rest;
      mret (alert :: alerts)
  end.

(** [SELECT * FROM telegram_communities WHERE sent = FALSE]. *)
Definition get_unsent_community_alerts (db : t) : result (list CommunityAlert.t) :=
  alerts_of_rows (List.filter (fun r => negb (sent r)) db).

(** [UPDATE telegram_communities SET sent = TRUE WHERE unique_id = ?]. *)
Definition mark_community_alert_sent (db : t) (uid : string) : t :=
  map (fun r =>
         if String.eqb (unique_id r) uid
         then {| id := id r; unique_id := unique_id r; title := title r;
                 username := username r; member_count := member_count r;
                 description := description r; admin_count := admin_count r;
                 creation_date := creation_date r; invite_link := invite_link r;
                 legitimacy_score := legitimacy_score r; risk_level := risk_level r;
                 scam_indicators := scam_indicators r;
                 positive_indicators := positive_indicators r;
                 tokenomics_analysis := tokenomics_analysis r;
                 roadmap_quality := roadmap_quality r; team_analysis := team_analysis r;
                 sentiment_score := sentiment_score r;
                 discovery_timestamp := discovery_timestamp r; sent := true |}
         else r) db.
End EnhancedDatabaseManager.

(** ** class EnhancedTelegramBot *)

Module EnhancedTelegramBot.
(** A subscriber's preferences, as [should_send_community_to_user] reads
    them with [getattr(prefs, name, default)]: [None] is a missing
    attribute. *)
Record prefs : Type := mk_prefs {
  telegram_communities : option bool;
  community_size_filters : option (list string);
}.

Definition should_send_community_to_user (alert : CommunityAlert.t) (p : prefs) : bool :=
  let telegram_enabled := default true (telegram_communities p) in
  if negb telegram_enabled then false
  else
    let community_filters := default [] (community_size_filters p) in
    if match community_filters with [] => false | _ :: _ => true end
       && negb (list_in (CommunitySize.value (CommunityAlert.size_category alert))
                        community_filters)
    then false
    else if bool_decide (ProjectAnalysis.risk_level (CommunityAlert.project_analysis alert)
                         = ScamRisk.CRITICAL)
    then false
    else true.

(** A call of [send_community_alert(alert, chat_id)]. *)
Record dispatch : Type := mk_dispatch {
  dispatch_alert : CommunityAlert.t;
  dispatch_chat_id : Z;
}.

Section Broadcast.
(** [self.db.get_subscribers()] and [self.db.get_user_preferences(chat_id)]
    are methods that the source calls and does not define. *)
Variable subscribers : list Z.
Variable get_user_preferences : Z -> option prefs.

(** The inner loop, over the subscribers, for one alert. *)
Definition dispatches_for (alert : CommunityAlert.t) : list dispatch :=
  flat_map (fun chat_id =>
              match get_user_preferences chat_id with
              | Some p =>
                  if should_send_community_to_user alert p
                  then [ {| dispatch_alert := alert; dispatch_chat_id := chat_id |} ]
                  else []
              | None => []
              end) subscribers.

(** The outer loop: send, then mark the alert as sent. *)
Fixpoint broadcast_loop (alerts : list CommunityAlert.t)
    (db : EnhancedDatabaseManager.t) (outbox : list dispatch)
    : EnhancedDatabaseManager.t * list dispatch :=
  match alerts with
  | [] => (db, outbox)
  | alert :: rest =>
      let outbox := outbox ++ dispatches_for alert in
      let db :=
        EnhancedDatabaseManager.mark_community_alert_sent db
          (CommunityAlert.unique_id alert) in
      broadcast_loop rest db outbox
  end.

Definition broadcast_community_alerts (db : EnhancedDatabaseManager.t)
    : result (EnhancedDatabaseManager.t * list dispatch) :=
  alerts ← EnhancedDatabaseManager.get_unsent_community_alerts db;
  mret (broadcast_loop alerts db []).
End Broadcast.
End EnhancedTelegramBot.

(** ** An instance of the external calls, for ASCII text

    [str.lower] restricted to ASCII letters, and a backtracking matcher for
    the regular expressions that the program uses.  The theorems below do
    not depend on it; it is the instance at which they are evaluated. *)

Module Ascii_runtime.
Definition lower_char (c : ascii) : ascii :=
  let n := nat_of_ascii c in
  if (65 <=? n)%nat && (n <=? 90)%nat then ascii_of_nat (n + 32) else c.

Fixpoint lower (s : string) : string :=
  match s with
  | EmptyString => EmptyString
  | String c s' => String (lower_char c) (lower s')
  end.

Inductive atom : Type :=
  | Chr (c : ascii)
  | Digits
  | WordChars
  | OneOf (alternatives : list string).

Definition is_digit (c : ascii) : bool :=
  let n := nat_of_ascii c in (48 <=? n)%nat && (n <=? 57)%nat.

Definition is_word_char (c : ascii) : bool :=
  let n := nat_of_ascii c in
  ((97 <=? n)%nat && (n <=? 122)%nat) || ((65 <=? n)%nat && (n <=? 90)%nat)
  || is_digit c || (n =? 95)%nat.

(** The length of the longest prefix of [s] made of [cls] characters. *)
Fixpoint run_length (cls : ascii -> bool) (s : string) : nat :=
  match s with
  | EmptyString => O
  | String c s' => if cls c then S (run_length cls s') else O
  end.

Fixpoint str_drop (n : nat) (s : string) : string :=
  match n, s with
  | O, _ => s
  | S _, EmptyString => EmptyString
  | S n', String _ s' => str_drop n' s'
  end.

(** A greedy repetition: the longest run first, then shorter ones. *)
Fixpoint backtrack (continue : string -> option nat) (s : string) (k : nat) : option nat :=
  match k with
  | O => None
  | S k' =>
      match continue (str_drop k s) with
      | Some n => Some (k + n)%nat
      | None => backtrack continue s k'
      end
  end.

(** The length of the match of [r] at the start of [s]. *)
Fixpoint match_here (r : list atom) (s : string) : option nat :=
  match r with
  | [] => Some O
  | Chr c :: r' =>
      match s with
      | String c' s' => if Ascii.eqb c c' then S <$> match_here r' s' else None
      | EmptyString => None
      end
  | Digits :: r' => backtrack (match_here r') s (run_length is_digit s)
  | WordChars :: r' => backtrack (match_here r') s (run_length is_word_char s)
  | OneOf alternatives :: r' =>
      match List.find (fun a => startswith a s) alternatives with
      | Some a =>
          (fun n => (String.length a + n)%nat) <$> match_here r' (str_drop (String.length a) s)
      | None => None
      end
  end.

(** The matches of [r] in [s], left to right and without overlap; [skip]
    characters of [s] belong to the previous match. *)
Fixpoint findall_from (r : list atom) (s : string) (skip : nat) : list string :=
  match s with
  | EmptyString => []
  | String _ s' =>
      match skip with
      | S k => findall_from r s' k
      | O =>
          match match_here r s with
          | Some (S n) => substring 0 (S n) s :: findall_from r s' n
          | _ => findall_from r s' O
          end
      end
  end.

Definition literal (s : string) : list atom := map Chr (list_ascii_of_string s).

(** The regular expressions of the program, by their source text. *)
Definition compile (pattern : string) : option (list atom) :=
  if String.eqb pattern "\d+x profit" then Some (Digits :: literal "x profit")
  else if String.eqb pattern "\d+% return" then Some (Digits :: literal "% return")
  else if String.eqb pattern "\$\d+k per" then Some (Chr "$" :: Digits :: literal "k per")
  else if String.eqb pattern "only \d+ spots"
  then Some (literal "only " ++ Digits :: literal " spots")
  else if String.eqb pattern "invest \$\d+ get \$\d+"
  then Some (literal "invest $" ++ Digits :: literal " get $" ++ [Digits])
  else if String.eqb pattern "\d+ btc" then Some (Digits :: literal " btc")
  else if String.eqb pattern "\d+ eth" then Some (Digits :: literal " eth")
  else if String.eqb pattern "[🚀💰💎🔥⚡]"
  then Some [OneOf ["🚀"; "💰"; "💎"; "🔥"; "⚡"]]
  else if String.eqb pattern "t\.me/[a-zA-Z0-9_]+"
  then Some (literal "t.me/" ++ [WordChars])
  else None.

Definition findall (pattern text : string) : list string :=
  match compile pattern with
  | Some r => findall_from r text O
  | None => []
  end.

(** The chat-completion API is not reachable. *)
Definition externals : Externals :=
  {| str_lower := lower;
     re_findall := findall;
     openai_acreate := fun _ => Raise APIError |}.
End Ascii_runtime.

(** ** Concrete inputs *)

Module Sample.
(** A community with no title, no description, no messages and default
    metadata. *)
Definition empty_community : TelegramCommunityInfo.t :=
  {| TelegramCommunityInfo.title := "";
     TelegramCommunityInfo.username := "";
     TelegramCommunityInfo.member_count := 0;
     TelegramCommunityInfo.description := "";
     TelegramCommunityInfo.recent_messages := [];
     TelegramCommunityInfo.admin_count := 0;
     TelegramCommunityInfo.creation_date := None;
     TelegramCommunityInfo.invite_link := None;
     TelegramCommunityInfo.category := "crypto";
     TelegramCommunityInfo.verified := false;
     TelegramCommunityInfo.restricted := false |}.

(** A verified community, created on 2016-01-01, that advertises a pump. *)
Definition pump_community : TelegramCommunityInfo.t :=
  {| TelegramCommunityInfo.title := "Solid Protocol";
     TelegramCommunityInfo.username := "solidprotocol";
     TelegramCommunityInfo.member_count := 120;
     TelegramCommunityInfo.description :=
       "Audited open source protocol with whitepaper, roadmap and doxxed team";
     TelegramCommunityInfo.recent_messages := ["Next PUMP is on friday"];
     TelegramCommunityInfo.admin_count := 4;
     TelegramCommunityInfo.creation_date := Some 1451606400000000;
     TelegramCommunityInfo.invite_link := Some "https://t.me/solidprotocol";
     TelegramCommunityInfo.category := "crypto";
     TelegramCommunityInfo.verified := true;
     TelegramCommunityInfo.restricted := false |}.

Definition scout : TelegramScout.t := TelegramScout.init 1 "hash" "+100" "scout_session".

(** An analyzer whose [scout] attribute holds a scout. *)
Definition analyzer : ProjectAnalyzer.t :=
  {| ProjectAnalyzer.openai_api_key := None;
     ProjectAnalyzer.sentiment_analyzer := None;
     ProjectAnalyzer.scout := Some scout |}.

(** The analyzer as [EnhancedTelegramBot.__init__] builds it. *)
Definition fresh_analyzer : ProjectAnalyzer.t :=
  ProjectAnalyzer.init None (Raise APIError).

(** 2024-01-01 00:00:00, in microseconds. *)
Definition a_day : datetime := 1704067200000000.

(** What [gather_basic_project_info] answers for a project that the
    market-data API does not know: the initial dict, without
    ['market_data']. *)
Definition unknown_project : BasicInfo.t :=
  {| BasicInfo.name := "acme";
     BasicInfo.description := "";
     BasicInfo.website := "";
     BasicInfo.social_links := ∅;
     BasicInfo.market_data := None;
     BasicInfo.sources := ["Web Search"] |}.

(** The same project when a website is known. *)
Definition unknown_project_with_website : BasicInfo.t :=
  {| BasicInfo.name := "acme";
     BasicInfo.description := "";
     BasicInfo.website := "https://acme.example";
     BasicInfo.social_links := ∅;
     BasicInfo.market_data := None;
     BasicInfo.sources := ["Web Search"] |}.

(** A project that the market-data API knows, with a market cap of
    5,000,000 dollars. *)
Definition small_cap_project : BasicInfo.t :=
  {| BasicInfo.name := "Acme Protocol";
     BasicInfo.description := "The Acme team and its founder build staking with governance";
     BasicInfo.website := "https://acme.example";
     BasicInfo.social_links :=
       <["twitter" := PyStr "acme"]>
       (<["telegram" := PyStr "acmechat"]>
       (<["discord" := PyNone]>
       (<["github" := PyList ["https://github.com/acme/core"]]> ∅)));
     BasicInfo.market_data :=
       Some (<["market_cap" := PyNum 5000000]>
            (<["volume" := PyNum 120000]>
            (<["price" := PyNum (5 # 100)]> ∅)));
     BasicInfo.sources := ["CoinGecko"; "Web Search"] |}.

(** The same answer when the API reports no dollar figures:
    [market_cap.get('usd')] is [None]. *)
Definition null_cap_project : BasicInfo.t :=
  {| BasicInfo.name := "Acme Protocol";
     BasicInfo.description := "The Acme team and its founder build staking with governance";
     BasicInfo.website := "https://acme.example";
     BasicInfo.social_links :=
       <["twitter" := PyStr "acme"]>
       (<["telegram" := PyStr "acmechat"]>
       (<["discord" := PyNone]>
       (<["github" := PyList ["https://github.com/acme/core"]]> ∅)));
     BasicInfo.market_data :=
       Some (<["market_cap" := PyNone]>
            (<["volume" := PyNone]>
            (<["price" := PyNone]> ∅)));
     BasicInfo.sources := ["CoinGecko"; "Web Search"] |}.

(** Analyses whose score fields are 45, 55 and 30, the values of the
    specification's example. *)
Definition social_45 : SocialAnalysis.t :=
  {| SocialAnalysis.twitter :=
       {| Twitter.present := true; Twitter.followers := 20000;
          Twitter.engagement := "unknown"; Twitter.activity := "unknown" |};
     SocialAnalysis.telegram :=
       {| Telegram.present := true; Telegram.members := 6000;
          Telegram.activity := "unknown" |};
     SocialAnalysis.discord :=
       {| Discord.present := false; Discord.members := 0;
          Discord.activity := "unknown" |};
     SocialAnalysis.overall_score := 45;
     SocialAnalysis.missing_platforms := ["discord"; "reddit"; "youtube"];
     SocialAnalysis.recommendations := [] |}.

Definition technical_55 : TechnicalAnalysis.t :=
  {| TechnicalAnalysis.whitepaper :=
       {| Whitepaper.present := true; Whitepaper.quality := "unknown";
          Whitepaper.technical_depth := "unknown" |};
     TechnicalAnalysis.github :=
       {| Github.present := true; Github.activity := "unknown";
          Github.code_quality := "unknown" |};
     TechnicalAnalysis.smart_contracts :=
       {| SmartContracts.deployed := false; SmartContracts.audited := false;
          SmartContracts.verified := false |};
     TechnicalAnalysis.technical_score := 55;
     TechnicalAnalysis.missing_elements := [];
     TechnicalAnalysis.recommendations := [] |}.

Definition team_30 : TeamAnalysis.t :=
  {| TeamAnalysis.transparency := "medium";
     TeamAnalysis.team_size := "unknown";
     TeamAnalysis.experience := "unknown";
     TeamAnalysis.linkedin_profiles := 0;
     TeamAnalysis.public_backgrounds := 0;
     TeamAnalysis.team_score := 30;
     TeamAnalysis.missing_elements := [];
     TeamAnalysis.recommendations := [] |}.

(** A team analysis with a negative count of LinkedIn profiles. *)
Definition team_negative : TeamAnalysis.t :=
  {| TeamAnalysis.transparency := "anonymous";
     TeamAnalysis.team_size := "unknown";
     TeamAnalysis.experience := "unknown";
     TeamAnalysis.linkedin_profiles := -1;
     TeamAnalysis.public_backgrounds := 0;
     TeamAnalysis.team_score := 0;
     TeamAnalysis.missing_elements := [];
     TeamAnalysis.recommendations := [] |}.

Definition tokenomics : TokenomicsAnalysis.t :=
  @ProjectResearcher.analyze_tokenomics_deep Ascii_runtime.externals small_cap_project.

Definition community : CommunityAnalysis.t :=
  ProjectResearcher.analyze_community_health small_cap_project.

(** An analysis with the given risk level, and an alert made of it. *)
Definition analysis_with (risk : ScamRisk.t) : ProjectAnalysis.t :=
  {| ProjectAnalysis.legitimacy_score := 72;
     ProjectAnalysis.scam_indicators := [];
     ProjectAnalysis.positive_indicators := ["POSITIVE: whitepaper"];
     ProjectAnalysis.risk_level := risk;
     ProjectAnalysis.tokenomics_analysis := Some "Token mentioned";
     ProjectAnalysis.roadmap_quality := Some "Roadmap present";
     ProjectAnalysis.team_analysis := Some "Team mentioned";
     ProjectAnalysis.sentiment_score := 0 |}.

Definition alert_with (uid : string) (risk : ScamRisk.t) : CommunityAlert.t :=
  {| CommunityAlert.community_info := pump_community;
     CommunityAlert.project_analysis := analysis_with risk;
     CommunityAlert.discovery_timestamp := a_day;
     CommunityAlert.unique_id := uid;
     CommunityAlert.size_category := CommunitySize.MEDIUM |}.

(** A subscriber with the default preferences. *)
Definition default_prefs : EnhancedTelegramBot.prefs :=
  {| EnhancedTelegramBot.telegram_communities := Some true;
     EnhancedTelegramBot.community_size_filters := Some [] |}.

(** A store with an unsent [CRITICAL] alert and an unsent [LOW] alert. *)
Definition two_alerts_db : EnhancedDatabaseManager.t :=
  match EnhancedDatabaseManager.add_community_alert EnhancedDatabaseManager.init_db
          (alert_with "a1" ScamRisk.CRITICAL) with
  | Ok (_, db1) =>
      match EnhancedDatabaseManager.add_community_alert db1
              (alert_with "a2" ScamRisk.LOW) with
      | Ok (_, db2) => db2
      | Raise _ => db1
      end
  | Raise _ => EnhancedDatabaseManager.init_db
  end.
End Sample.

(** ** The order of the risk tiers *)

(** The four tiers in the order in which [ScamRisk] declares them, least
    severe first. *)
Definition risk_severity (risk : ScamRisk.t) : Z :=
  match risk with
  | ScamRisk.LOW => 0
  | ScamRisk.MEDIUM => 1
  | ScamRisk.HIGH => 2
  | ScamRisk.CRITICAL => 3
  end.

(** ** One cycle of [community_monitoring_job] *)

Module CommunityMonitoring.
Section Cycle.
Context `{Externals}.

(** [hashlib.md5(s.encode()).hexdigest()]. *)
Variable md5_hexdigest : string -> string.

(** [self.db.get_subscribers()] and [self.db.get_user_preferences(chat_id)],
    as in [broadcast_community_alerts]. *)
Variable subscribers : list Z.
Variable get_user_preferences : Z -> option EnhancedTelegramBot.prefs.

(** The size filters of the automatic monitoring. *)
Definition size_filters : list CommunitySize.t :=
  [CommunitySize.MICRO; CommunitySize.SMALL; CommunitySize.MEDIUM_SMALL;
   CommunitySize.MEDIUM].

(** The alert that the loop body builds from a community and its analysis;
    the chain of ranges for [size_category] is the one of
    [get_unsent_community_alerts]. *)
Definition make_alert (discovered : datetime) (community : TelegramCommunityInfo.t)
    (analysis : ProjectAnalysis.t) : CommunityAlert.t :=
  let unique_content :=
    TelegramCommunityInfo.title community +:+ TelegramCommunityInfo.username community in
  let unique_id := md5_hexdigest unique_content in
  let size_category :=
    EnhancedDatabaseManager.size_category_of
      (TelegramCommunityInfo.member_count community) in
  {| CommunityAlert.community_info := community;
     CommunityAlert.project_analysis := analysis;
     CommunityAlert.discovery_timestamp := discovered;
     CommunityAlert.unique_id := unique_id;
     CommunityAlert.size_category := size_category |}.

(** The body of [for community in communities], inside
    [try: ... except Exception: continue]: an exception of the analysis or
    of the insert leaves the store and the counter as they were.
    [analysed] and [discovered] are the two readings of [datetime.now()]. *)
Definition process_community (self : ProjectAnalyzer.t)
    (analysed discovered : datetime)
    (db : EnhancedDatabaseManager.t) (new_alerts : Z)
    (community : TelegramCommunityInfo.t) : EnhancedDatabaseManager.t * Z :=
  let attempt :=
    analysis ← ProjectAnalyzer.analyze_project analysed self community;
    EnhancedDatabaseManager.add_community_alert db
      (make_alert discovered community analysis) ≫= λ added : bool * EnhancedDatabaseManager.t,
    mret (if added.1 then (added.2, new_alerts + 1) else (added.2, new_alerts)) in
  match attempt with
  | Ok state => state
  | Raise _ => (db, new_alerts)
  end.

(** The loop; [clock i] holds the two readings of the clock while the
    community at position [i] is processed. *)
Fixpoint process_communities (self : ProjectAnalyzer.t)
    (clock : nat -> datetime * datetime) (position : nat)
    (db : EnhancedDatabaseManager.t) (new_alerts : Z)
    (communities : list TelegramCommunityInfo.t) : EnhancedDatabaseManager.t * Z :=
  match communities with
  | [] => (db, new_alerts)
  | community :: rest =>
      let '(db, new_alerts) :=
        process_community self (clock position).1 (clock position).2
          db new_alerts community in
      process_communities self clock (S position) db new_alerts rest
  end.

(** One pass of the [while True] loop of [community_monitoring_job], for a
    bot that has a scout: search, analyse and store, then broadcast when a
    new alert was stored.  The pass is inside [try: ... except Exception],
    so an exception of the broadcast ends it with what was stored. *)
Definition community_monitoring_cycle (self : ProjectAnalyzer.t)
    (clock : nat -> datetime * datetime)
    (chats : list TelegramScout.chat_outcome) (db : EnhancedDatabaseManager.t)
    : EnhancedDatabaseManager.t * list EnhancedTelegramBot.dispatch :=
  let communities := TelegramScout.search_crypto_communities size_filters chats in
  let '(db, new_alerts) := process_communities self clock O db 0 communities in
  if new_alerts >? 0 then
    match EnhancedTelegramBot.broadcast_community_alerts subscribers
            get_user_preferences db with
    | Ok sent => sent
    | Raise _ => (db, [])
    end
  else (db, []).
End Cycle.
End CommunityMonitoring.

(** ** Concrete inputs of a monitoring cycle *)

Module Scenario.
(** A stand-in for the digest: the text itself. *)
Definition digest (content : string) : string := content.

(** The two readings of the clock at each position of the loop. *)
Definition clock (position : nat) : datetime * datetime :=
  (Sample.a_day + Z.of_nat position, Sample.a_day + Z.of_nat position + 1).

Definition subscribers : list Z := [7].

Definition preferences (chat_id : Z) : option EnhancedTelegramBot.prefs :=
  Some Sample.default_prefs.

(** Two communities whose title and username concatenate to the same
    text. *)
Definition community_ab_c : TelegramCommunityInfo.t :=
  {| TelegramCommunityInfo.title := "ab";
     TelegramCommunityInfo.username := "c";
     TelegramCommunityInfo.member_count := 40;
     TelegramCommunityInfo.description := "a token with a roadmap";
     TelegramCommunityInfo.recent_messages := [];
     TelegramCommunityInfo.admin_count := 1;
     TelegramCommunityInfo.creation_date := None;
     TelegramCommunityInfo.invite_link := Some "https://t.me/c";
     TelegramCommunityInfo.category := "crypto";
     TelegramCommunityInfo.verified := false;
     TelegramCommunityInfo.restricted := false |}.

Definition community_a_bc : TelegramCommunityInfo.t :=
  {| TelegramCommunityInfo.title := "a";
     TelegramCommunityInfo.username := "bc";
     TelegramCommunityInfo.member_count := 150;
     TelegramCommunityInfo.description := "another token";
     TelegramCommunityInfo.recent_messages := [];
     TelegramCommunityInfo.admin_count := 2;
     TelegramCommunityInfo.creation_date := None;
     TelegramCommunityInfo.invite_link := Some "https://t.me/bc";
     TelegramCommunityInfo.category := "crypto";
     TelegramCommunityInfo.verified := false;
     TelegramCommunityInfo.restricted := false |}.

(** [str.title] on ASCII text: a letter after a character that is not a
    letter is put in upper case, the other letters in lower case. *)
Definition is_letter (c : ascii) : bool :=
  let n := nat_of_ascii c in
  ((65 <=? n)%nat && (n <=? 90)%nat) || ((97 <=? n)%nat && (n <=? 122)%nat).

Definition upper_char (c : ascii) : ascii :=
  let n := nat_of_ascii c in
  if ((97 <=? n)%nat && (n <=? 122)%nat)%bool then ascii_of_nat (n - 32) else c.

Fixpoint title_from (start : bool) (s : string) : string :=
  match s with
  | EmptyString => EmptyString
  | String c s' =>
      String (if is_letter c
              then if start then upper_char c else Ascii_runtime.lower_char c
              else c)
             (title_from (negb (is_letter c)) s')
  end.

Definition title (s : string) : string := title_from true s.

(** A community with ten harmless messages and a scam phrase in the
    eleventh, and the same community without the eleventh message. *)
Definition ten_messages : list string :=
  ["gm"; "gm"; "gm"; "gm"; "gm"; "gm"; "gm"; "gm"; "gm"; "gm"].

Definition community_with_messages (member_count : Z) (messages : list string)
    : TelegramCommunityInfo.t :=
  {| TelegramCommunityInfo.title := "ab";
     TelegramCommunityInfo.username := "c";
     TelegramCommunityInfo.member_count := member_count;
     TelegramCommunityInfo.description := "a token with a roadmap";
     TelegramCommunityInfo.recent_messages := messages;
     TelegramCommunityInfo.admin_count := 1;
     TelegramCommunityInfo.creation_date := None;
     TelegramCommunityInfo.invite_link := Some "https://t.me/c";
     TelegramCommunityInfo.category := "crypto";
     TelegramCommunityInfo.verified := false;
     TelegramCommunityInfo.restricted := false |}.

(** A research result around given needs. *)
Definition analysis_with_needs (needs : ProjectNeeds.t)
    : ProjectResearcher.ComprehensiveProjectAnalysis.t :=
  {| ProjectResearcher.ComprehensiveProjectAnalysis.project_name := "acme";
     ProjectResearcher.ComprehensiveProjectAnalysis.project_description :=
       "A protocol";
     ProjectResearcher.ComprehensiveProjectAnalysis.legitimacy_analysis :=
       Sample.analysis_with ScamRisk.HIGH;
     ProjectResearcher.ComprehensiveProjectAnalysis.social_presence := Sample.social_45;
     ProjectResearcher.ComprehensiveProjectAnalysis.technical_analysis :=
       Sample.technical_55;
     ProjectResearcher.ComprehensiveProjectAnalysis.team_analysis := Sample.team_30;
     ProjectResearcher.ComprehensiveProjectAnalysis.community_health := Sample.community;
     ProjectResearcher.ComprehensiveProjectAnalysis.tokenomics_deep_dive :=
       Sample.tokenomics;
     ProjectResearcher.ComprehensiveProjectAnalysis.project_needs := needs;
     ProjectResearcher.ComprehensiveProjectAnalysis.research_timestamp := Sample.a_day;
     ProjectResearcher.ComprehensiveProjectAnalysis.sources_analyzed := ["Web Search"] |}.
End Scenario.

(** ** The action plan of a research

    The two parts of [EnhancedTelegramBot.format_action_plan] that are
    computed from the opportunities; the message is assembled around
    them. *)

Module ActionPlan.
Section Format.
(** [str.title]. *)
Variable str_title : string -> string.

(** The loop over [job_opportunities[:3]] that fills [priority_actions]. *)
Definition priority_actions (analysis : ProjectResearcher.ComprehensiveProjectAnalysis.t)
    : list string :=
  fold_left
    (fun priority_actions job =>
       if String.eqb (JobOpportunity.urgency job) "high"
       then priority_actions
            ++ ["🔥 **"
                +:+ str_title (replace_char "_" " "
                                 (JobCategory.value (JobOpportunity.category job)))
                +:+ "** - Act within 48 hours"]
       else priority_actions)
    (slice_to 3
       (ProjectNeeds.job_opportunities
          (ProjectResearcher.ComprehensiveProjectAnalysis.project_needs analysis)))
    [].

(** The number printed after "Time-Sensitive Opportunities:". *)
Definition time_sensitive_opportunities
    (analysis : ProjectResearcher.ComprehensiveProjectAnalysis.t) : Z :=
  len (List.filter (fun j => String.eqb (JobOpportunity.urgency j) "high")
         (ProjectNeeds.job_opportunities
            (ProjectResearcher.ComprehensiveProjectAnalysis.project_needs analysis))).
End Format.
End ActionPlan.

(** Equality of categories is decidable. *)
#[local] Instance job_category_eq_dec : EqDecision JobCategory.t.
Proof. solve_decision. Defined.

(** ** A research on what the market-data API answers

    [BasicInfo.description] holds a string, which is what
    [gather_basic_project_info] starts from.  [fetch_coingecko_data] then
    overwrites it with whatever [description.en] is in the answer of the
    API, also a JSON null, and [analyze_team] and [analyze_tokenomics_deep]
    call [description.lower()] on it. *)

Module ApiResearch.
(** The receiver of [description.lower()]: only a [str] has the method. *)
Definition lower_receiver (description : pyval) : result string :=
  match description with
  | PyStr text => Ok text
  | PyNone | PyNum _ | PyList _ => Raise AttributeError
  end.

(** [basic_info] with the string [text] under ['description']. *)
Definition with_description (basic_info : BasicInfo.t) (text : string) : BasicInfo.t :=
  {| BasicInfo.name := BasicInfo.name basic_info;
     BasicInfo.description := text;
     BasicInfo.website := BasicInfo.website basic_info;
     BasicInfo.social_links := BasicInfo.social_links basic_info;
     BasicInfo.market_data := BasicInfo.market_data basic_info;
     BasicInfo.sources := BasicInfo.sources basic_info |}.

Section Methods.
Context `{Externals}.

(** [research_project_comprehensive] for a [basic_info] whose
    ['description'] is the value [description].  Steps 2 and 3 (social
    presence, technical aspects) do not read the description; step 4,
    [analyze_team], is the first to call [description.lower()]; when the
    description is a string the steps are those of
    [ProjectResearcher.research_project_comprehensive]. *)
Definition research_project_comprehensive (now : datetime) (project_identifier : string)
    (basic_info : BasicInfo.t) (description : pyval)
    : result ProjectResearcher.ComprehensiveProjectAnalysis.t :=
  ProjectResearcher.analyze_technical_aspects basic_info
    ≫= λ _ : TechnicalAnalysis.t,
  text ← lower_receiver description;
  ProjectResearcher.research_project_comprehensive now project_identifier
    (with_description basic_info text).
End Methods.
End ApiResearch.

(** ** String and list facts *)

Lemma startswith_app (p s : string) : startswith p (p +:+ s) = true.
Proof.
  induction p as [|a p IH]; simpl; [reflexivity|].
  rewrite Ascii.eqb_refl. exact IH.
Qed.

Lemma str_in_app (p s : string) : str_in p (p +:+ s) = true.
Proof.
  destruct (p +:+ s) eqn:E; simpl; rewrite <- E, startswith_app; reflexivity.
Qed.

Lemma count_tagged_pos (tag x : string) (l : list string) :
  In x l -> str_in tag x = true -> 0 < ProjectAnalyzer.count_tagged tag l.
Proof.
  intros Hin Htag. unfold ProjectAnalyzer.count_tagged, len.
  assert (Hf : In x (List.filter (fun i => str_in tag i) l)).
  { apply filter_In. split; assumption. }
  destruct (List.filter (fun i => str_in tag i) l); [destruct Hf | simpl; lia].
Qed.

Lemma append_matches_In (label phrase text_lower : string) (phrases : list string) :
  In phrase phrases -> str_in phrase text_lower = true ->
  In (label +:+ phrase) (ProjectAnalyzer.append_matches label phrases text_lower).
Proof.
  intros Hin Hm. unfold ProjectAnalyzer.append_matches.
  apply in_map. apply filter_In. split; assumption.
Qed.

(** ** The scoring engine *)

Lemma Qltb_lt (x y : Q) : Qltb x y = true <-> (x < y)%Q.
Proof.
  unfold Qltb. rewrite negb_true_iff. split.
  - intros Hb. apply Qnot_le_lt. intros Hle.
    apply Qle_bool_iff in Hle. congruence.
  - intros Hlt. destruct (Qle_bool y x) eqn:E; [|reflexivity].
    apply Qle_bool_iff in E. exfalso. exact (Qlt_not_le _ _ Hlt E).
Qed.

Lemma Qltb_ge (x y : Q) : Qltb x y = false <-> (y <= x)%Q.
Proof.
  unfold Qltb. rewrite negb_false_iff. apply Qle_bool_iff.
Qed.

Lemma clamp_Q_bounds (x : Q) :
  (0 <= ProjectAnalyzer.clamp_0_100 x)%Q /\ (ProjectAnalyzer.clamp_0_100 x <= 100)%Q.
Proof.
  unfold ProjectAnalyzer.clamp_0_100. split.
  - apply Q.le_max_l.
  - apply Q.max_lub; [discriminate | apply Q.le_min_l].
Qed.

Lemma clamp_Z_bounds (score : Z) :
  0 <= ProjectResearcher.clamp_0_100 score <= 100.
Proof. unfold ProjectResearcher.clamp_0_100. lia. Qed.

Lemma determine_risk_level_high_risk (score : Q) (indicators : list string) :
  0 < ProjectAnalyzer.count_tagged "HIGH RISK" indicators ->
  ProjectAnalyzer.determine_risk_level score indicators = ScamRisk.CRITICAL.
Proof.
  intros Hpos. unfold ProjectAnalyzer.determine_risk_level.
  assert (E : (ProjectAnalyzer.count_tagged "HIGH RISK" indicators >? 0) = true)
    by (apply Z.gtb_lt; lia).
  rewrite E. reflexivity.
Qed.

Lemma scout_lexicons (api_id : Z) (api_hash phone session : string) :
  let sc := TelegramScout.init api_id api_hash phone session in
  getitem (TelegramScout.scam_indicators sc) "high_risk"
    = Ok TelegramScout.high_risk_phrases
  /\ getitem (TelegramScout.scam_indicators sc) "medium_risk"
    = Ok TelegramScout.medium_risk_phrases
  /\ getitem (TelegramScout.scam_indicators sc) "suspicious_patterns"
    = Ok TelegramScout.suspicious_patterns
  /\ getitem (TelegramScout.legitimacy_indicators sc) "positive"
    = Ok TelegramScout.positive_phrases
  /\ getitem (TelegramScout.legitimacy_indicators sc) "team_indicators"
    = Ok TelegramScout.team_phrases
  /\ getitem (TelegramScout.legitimacy_indicators sc) "tech_indicators"
    = Ok TelegramScout.tech_phrases.
Proof. repeat split; reflexivity. Qed.

Lemma bind_Ok {A B} (a : A) (f : A -> result B) : (Ok a ≫= f) = f a.
Proof. reflexivity. Qed.

Section Analyzer_facts.
Context `{Externals}.

Lemma detect_scam_indicators_scout (self : ProjectAnalyzer.t)
    (api_id : Z) (api_hash phone session text : string) :
  ProjectAnalyzer.scout self = Some (TelegramScout.init api_id api_hash phone session) ->
  exists rest,
    ProjectAnalyzer.detect_scam_indicators self text
    = Ok (ProjectAnalyzer.append_matches "HIGH RISK: " TelegramScout.high_risk_phrases
            (str_lower text) ++ rest).
Proof.
  intros Hs. unfold ProjectAnalyzer.detect_scam_indicators. rewrite Hs.
  destruct (scout_lexicons api_id api_hash phone session) as (Hh & Hm & Hp & _).
  cbv zeta in Hh, Hm, Hp.
  unfold getattr. cbv zeta. rewrite !bind_Ok, Hh, !bind_Ok, Hm, !bind_Ok, Hp, !bind_Ok.
  rewrite app_nil_l.
  destruct (str_in "telegram.me" (str_lower text) || str_in "t.me" (str_lower text));
    [destruct (len (re_findall ProjectAnalyzer.tme_link_re (str_lower text)) >? 3)|];
    destruct (len (re_findall ProjectAnalyzer.hype_emojis_re text) >? 10);
    rewrite <- ?app_assoc; eexists; reflexivity.
Qed.

Lemma detect_positive_indicators_scout (self : ProjectAnalyzer.t)
    (api_id : Z) (api_hash phone session text : string) :
  ProjectAnalyzer.scout self = Some (TelegramScout.init api_id api_hash phone session) ->
  exists indicators, ProjectAnalyzer.detect_positive_indicators self text = Ok indicators.
Proof.
  intros Hs. unfold ProjectAnalyzer.detect_positive_indicators. rewrite Hs.
  destruct (scout_lexicons api_id api_hash phone session) as (_ & _ & _ & Hp & Ht & Hx).
  cbv zeta in Hp, Ht, Hx.
  unfold getattr. cbv zeta. rewrite !bind_Ok, Hp, !bind_Ok, Ht, !bind_Ok, Hx, !bind_Ok.
  eexists; reflexivity.
Qed.

(** The override as it is written, for an analyzer whose [scout] attribute
    were set to a scout: when the lowercased text of a community holds a
    phrase of the high-risk list that [TelegramScout.__init__] configures,
    [analyze_project] returns an analysis whose risk level is [CRITICAL],
    and the same indicators give [CRITICAL] with any other legitimacy
    score.  No analyzer that the program builds meets the premise on
    [scout]: see [high_risk_phrase_raises_AttributeError]. *)
Lemma high_risk_phrase_forces_critical (now : datetime) (self : ProjectAnalyzer.t)
    (api_id : Z) (api_hash phone session : string)
    (community_info : TelegramCommunityInfo.t) (phrase : string) :
  ProjectAnalyzer.scout self = Some (TelegramScout.init api_id api_hash phone session) ->
  In phrase TelegramScout.high_risk_phrases ->
  str_in phrase (str_lower (ProjectAnalyzer.all_text community_info)) = true ->
  exists analysis,
    ProjectAnalyzer.analyze_project now self community_info = Ok analysis
    /\ ProjectAnalysis.risk_level analysis = ScamRisk.CRITICAL
    /\ forall score : Q,
         ProjectAnalyzer.determine_risk_level score
           (ProjectAnalysis.scam_indicators analysis) = ScamRisk.CRITICAL.
Proof.
  intros Hs Hin Hm.
  destruct (detect_scam_indicators_scout self api_id api_hash phone session
              (ProjectAnalyzer.all_text community_info) Hs) as [rest Hscam].
  destruct (detect_positive_indicators_scout self api_id api_hash phone session
              (ProjectAnalyzer.all_text community_info) Hs) as [positive Hpos].
  assert (Hcount : forall score,
    ProjectAnalyzer.determine_risk_level score
      (ProjectAnalyzer.append_matches "HIGH RISK: " TelegramScout.high_risk_phrases
         (str_lower (ProjectAnalyzer.all_text community_info)) ++ rest)
    = ScamRisk.CRITICAL).
  { intros score. apply determine_risk_level_high_risk.
    apply (count_tagged_pos _ ("HIGH RISK: " +:+ phrase)).
    - apply in_or_app. left. apply append_matches_In; assumption.
    - apply (str_in_app "HIGH RISK" (": " +:+ phrase)). }
  unfold ProjectAnalyzer.analyze_project. cbv zeta.
  rewrite Hscam, bind_Ok, Hpos, bind_Ok.
  eexists. split; [reflexivity|]. split; simpl; [apply Hcount | exact Hcount].
Qed.
End Analyzer_facts.

(** The theorem at a verified community with many positive indicators
    whose latest message says PUMP. *)
Lemma high_risk_phrase_forces_critical_witness :
  exists analysis,
    @ProjectAnalyzer.analyze_project Ascii_runtime.externals Sample.a_day
      Sample.analyzer Sample.pump_community = Ok analysis
    /\ ProjectAnalysis.risk_level analysis = ScamRisk.CRITICAL
    /\ forall score : Q,
         ProjectAnalyzer.determine_risk_level score
           (ProjectAnalysis.scam_indicators analysis) = ScamRisk.CRITICAL.
Proof.
  apply (@high_risk_phrase_forces_critical Ascii_runtime.externals Sample.a_day
           Sample.analyzer 1 "hash" "+100" "scout_session" Sample.pump_community "pump").
  - reflexivity.
  - simpl. tauto.
  - vm_compute. reflexivity.
Defined.

(** The override is independent of the score: the sample community reaches
    the legitimacy score 100 and is [CRITICAL]. *)
Example pump_community_score_100_critical :
  (fun analysis =>
     (ProjectAnalysis.legitimacy_score analysis, ProjectAnalysis.risk_level analysis))
  <$> @ProjectAnalyzer.analyze_project Ascii_runtime.externals Sample.a_day
        Sample.analyzer Sample.pump_community
  = Ok (100%Q, ScamRisk.CRITICAL).
Proof. vm_compute. reflexivity. Qed.

Section Analyzer_as_built.
Context `{Externals}.

(** C1. What the code does instead.  [ProjectAnalyzer.__init__] sets
    [openai_api_key] and [sentiment_analyzer] and never the [scout]
    attribute, which [detect_scam_indicators] and
    [detect_positive_indicators] read before anything else.  So on every
    analyzer that the constructor builds, both detections raise
    [AttributeError] on every text, and [analyze_project] raises it on
    every community, also on one whose text holds a phrase of the
    high-risk list: it returns no analysis and assigns no risk level. *)
Theorem high_risk_phrase_raises_AttributeError (now : datetime)
    (openai_api_key : option string) (make_sia : result (string -> result Q))
    (community_info : TelegramCommunityInfo.t) (text : string) :
  let self := ProjectAnalyzer.init openai_api_key make_sia in
  ProjectAnalyzer.scout self = None
  /\ ProjectAnalyzer.detect_scam_indicators self text = Raise AttributeError
  /\ ProjectAnalyzer.detect_positive_indicators self text = Raise AttributeError
  /\ ProjectAnalyzer.analyze_project now self community_info = Raise AttributeError
  /\ forall analysis,
       ProjectAnalyzer.analyze_project now self community_info <> Ok analysis.
Proof.
  cbv zeta.
  assert (Hscam : ProjectAnalyzer.detect_scam_indicators
                    (ProjectAnalyzer.init openai_api_key make_sia) text
                  = Raise AttributeError).
  { unfold ProjectAnalyzer.detect_scam_indicators, ProjectAnalyzer.init, getattr.
    reflexivity. }
  assert (Hrun : ProjectAnalyzer.analyze_project now
                   (ProjectAnalyzer.init openai_api_key make_sia) community_info
                 = Raise AttributeError).
  { unfold ProjectAnalyzer.analyze_project, ProjectAnalyzer.detect_scam_indicators,
      ProjectAnalyzer.init, getattr.
    reflexivity. }
  split; [reflexivity|]. split; [exact Hscam|]. split.
  - unfold ProjectAnalyzer.detect_positive_indicators, ProjectAnalyzer.init, getattr.
    reflexivity.
  - split; [exact Hrun|]. intros analysis. rewrite Hrun. discriminate.
Qed.
End Analyzer_as_built.

(** The failing input: the text of the sample community holds the
    high-risk phrase "pump", and the analyzer is the one that
    [EnhancedTelegramBot.__init__] builds. *)
Example pump_community_raises_AttributeError :
  In "pump" TelegramScout.high_risk_phrases
  /\ str_in "pump"
       (@str_lower Ascii_runtime.externals
          (ProjectAnalyzer.all_text Sample.pump_community)) = true
  /\ @ProjectAnalyzer.analyze_project Ascii_runtime.externals Sample.a_day
       Sample.fresh_analyzer Sample.pump_community = Raise AttributeError.
Proof.
  split; [simpl; tauto|]. split; vm_compute; reflexivity.
Qed.

Lemma calculate_legitimacy_score_bounds (now : datetime)
    (scam_indicators positive_indicators : list string)
    (community_info : TelegramCommunityInfo.t) :
  (0 <= ProjectAnalyzer.calculate_legitimacy_score now scam_indicators
          positive_indicators community_info)%Q
  /\ (ProjectAnalyzer.calculate_legitimacy_score now scam_indicators
        positive_indicators community_info <= 100)%Q.
Proof. unfold ProjectAnalyzer.calculate_legitimacy_score. apply clamp_Q_bounds. Qed.

Lemma calculate_team_score_bounds (team_analysis : TeamAnalysis.t) :
  0 <= TeamAnalysis.linkedin_profiles team_analysis ->
  0 <= TeamAnalysis.public_backgrounds team_analysis ->
  0 <= ProjectResearcher.calculate_team_score team_analysis <= 100.
Proof.
  intros Hl Hp. unfold ProjectResearcher.calculate_team_score.
  destruct (String.eqb (TeamAnalysis.transparency team_analysis) "high");
    [|destruct (String.eqb (TeamAnalysis.transparency team_analysis) "medium");
      [|destruct (String.eqb (TeamAnalysis.transparency team_analysis) "low")]];
    lia.
Qed.

(** C2. Every dimension score and the overall legitimacy score lie in
    [0,100]: the social, technical, tokenomics and community scores and the
    legitimacy score for all inputs, and the team score, which is clamped
    from above only, when the numbers of LinkedIn profiles and of public
    backgrounds are not negative. *)
Theorem scores_within_0_100
    (social_analysis : SocialAnalysis.t) (technical_analysis : TechnicalAnalysis.t)
    (team_analysis : TeamAnalysis.t) (tokenomics_analysis : TokenomicsAnalysis.t)
    (community_analysis : CommunityAnalysis.t)
    (now : datetime) (scam_indicators positive_indicators : list string)
    (community_info : TelegramCommunityInfo.t) :
  0 <= TeamAnalysis.linkedin_profiles team_analysis ->
  0 <= TeamAnalysis.public_backgrounds team_analysis ->
  0 <= ProjectResearcher.calculate_social_media_score social_analysis <= 100
  /\ 0 <= ProjectResearcher.calculate_technical_score technical_analysis <= 100
  /\ 0 <= ProjectResearcher.calculate_team_score team_analysis <= 100
  /\ 0 <= ProjectResearcher.calculate_tokenomics_score tokenomics_analysis <= 100
  /\ 0 <= ProjectResearcher.calculate_community_score community_analysis <= 100
  /\ (0 <= ProjectAnalyzer.calculate_legitimacy_score now scam_indicators
             positive_indicators community_info)%Q
  /\ (ProjectAnalyzer.calculate_legitimacy_score now scam_indicators
        positive_indicators community_info <= 100)%Q.
Proof.
  intros Hl Hp.
  split; [apply clamp_Z_bounds|].
  split; [apply clamp_Z_bounds|].
  split; [apply calculate_team_score_bounds; assumption|].
  split; [apply clamp_Z_bounds|].
  split; [unfold ProjectResearcher.calculate_community_score; lia|].
  apply calculate_legitimacy_score_bounds.
Qed.

(** The premise on the counts is needed: the team score is not clamped from
    below. *)
Example calculate_team_score_negative :
  ProjectResearcher.calculate_team_score Sample.team_negative = -10.
Proof. reflexivity. Qed.

Lemma scores_within_0_100_witness :
  0 <= ProjectResearcher.calculate_social_media_score Sample.social_45 <= 100
  /\ 0 <= ProjectResearcher.calculate_technical_score Sample.technical_55 <= 100
  /\ 0 <= ProjectResearcher.calculate_team_score Sample.team_30 <= 100
  /\ 0 <= ProjectResearcher.calculate_tokenomics_score Sample.tokenomics <= 100
  /\ 0 <= ProjectResearcher.calculate_community_score Sample.community <= 100
  /\ (0 <= ProjectAnalyzer.calculate_legitimacy_score Sample.a_day
             ["HIGH RISK: pump"; "HIGH RISK: dump"; "HIGH RISK: shill"]
             [] Sample.pump_community)%Q
  /\ (ProjectAnalyzer.calculate_legitimacy_score Sample.a_day
        ["HIGH RISK: pump"; "HIGH RISK: dump"; "HIGH RISK: shill"]
        [] Sample.pump_community <= 100)%Q.
Proof.
  apply (scores_within_0_100 Sample.social_45 Sample.technical_55 Sample.team_30
           Sample.tokenomics Sample.community Sample.a_day
           ["HIGH RISK: pump"; "HIGH RISK: dump"; "HIGH RISK: shill"]
           [] Sample.pump_community).
  - simpl. lia.
  - simpl. lia.
Defined.

Example legitimacy_score_clamped_below :
  ProjectAnalyzer.calculate_legitimacy_score Sample.a_day
    ["HIGH RISK: pump"; "HIGH RISK: dump"; "HIGH RISK: shill"; "HIGH RISK: urgent"]
    [] Sample.empty_community = 0%Q.
Proof. reflexivity. Qed.

(** The empty text with default metadata gets the score 50, which
    [determine_risk_level] maps to [MEDIUM]: the tier [LOW] starts at 60. *)
Lemma empty_input_risk_is_not_low :
  @ProjectAnalyzer.detect_scam_indicators Ascii_runtime.externals Sample.analyzer "" = Ok []
  /\ @ProjectAnalyzer.detect_positive_indicators Ascii_runtime.externals Sample.analyzer ""
     = Ok []
  /\ ProjectAnalyzer.calculate_legitimacy_score Sample.a_day [] [] Sample.empty_community
     = 50%Q
  /\ ProjectAnalyzer.determine_risk_level
       (ProjectAnalyzer.calculate_legitimacy_score Sample.a_day [] [] Sample.empty_community)
       [] <> ScamRisk.LOW.
Proof. repeat split; try reflexivity. vm_compute. discriminate. Qed.

Section Empty_input.
Context `{Externals}.

Lemma flat_map_no_match (text : string) (patterns : list string) :
  (forall pattern, In pattern patterns -> re_findall pattern text = []) ->
  flat_map (fun pattern =>
              map (fun m => "SUSPICIOUS PATTERN: " +:+ m) (re_findall pattern text))
           patterns = [].
Proof.
  intros Hall. induction patterns as [|p ps IH]; simpl; [reflexivity|].
  rewrite (Hall p (or_introl eq_refl)). simpl. apply IH.
  intros q Hq. apply Hall. right. exact Hq.
Qed.

(** What the detection is written to return for the empty text, for an
    analyzer whose [scout] attribute were set to a scout: no indicator. *)
Lemma empty_text_no_indicators (self : ProjectAnalyzer.t)
    (api_id : Z) (api_hash phone session : string) :
  ProjectAnalyzer.scout self = Some (TelegramScout.init api_id api_hash phone session) ->
  str_lower "" = "" ->
  (forall pattern,
     In pattern (TelegramScout.suspicious_patterns ++ [ProjectAnalyzer.hype_emojis_re]) ->
     re_findall pattern "" = []) ->
  ProjectAnalyzer.detect_scam_indicators self "" = Ok []
  /\ ProjectAnalyzer.detect_positive_indicators self "" = Ok [].
Proof.
  intros Hs Hlow Hre.
  destruct (scout_lexicons api_id api_hash phone session)
    as (Hh & Hm & Hp & Hpo & Ht & Hx).
  cbv zeta in Hh, Hm, Hp, Hpo, Ht, Hx.
  split.
  - unfold ProjectAnalyzer.detect_scam_indicators. rewrite Hs. unfold getattr. cbv zeta.
    rewrite !bind_Ok, Hh, !bind_Ok, Hm, !bind_Ok, Hp, !bind_Ok, Hlow.
    rewrite (Hre ProjectAnalyzer.hype_emojis_re) by (apply in_or_app; right; left; reflexivity).
    rewrite flat_map_no_match
      by (intros pattern Hin; apply Hre, in_or_app; left; exact Hin).
    reflexivity.
  - unfold ProjectAnalyzer.detect_positive_indicators. rewrite Hs. unfold getattr. cbv zeta.
    rewrite !bind_Ok, Hpo, !bind_Ok, Ht, !bind_Ok, Hx, !bind_Ok, Hlow.
    reflexivity.
Qed.
End Empty_input.

(** The tiers of [determine_risk_level] when no indicator is tagged HIGH
    RISK, that is absent the override: the thresholds 20, 40 and 60. *)
Lemma determine_risk_level_tiers (score : Q) (indicators : list string) :
  ProjectAnalyzer.count_tagged "HIGH RISK" indicators = 0 ->
  ProjectAnalyzer.determine_risk_level score indicators
  = (if Qltb score 20 then ScamRisk.CRITICAL
     else if Qltb score 40 then ScamRisk.HIGH
     else if Qltb score 60 then ScamRisk.MEDIUM
     else ScamRisk.LOW).
Proof.
  intros Hcount. unfold ProjectAnalyzer.determine_risk_level. cbv zeta.
  rewrite Hcount. reflexivity.
Qed.

(** C3, amended. With no indicator matched and default metadata (no
    administrator, not verified, not restricted, no creation date) the
    scoring engine returns the base score 50, from which
    [determine_risk_level] derives the tier [MEDIUM], not [LOW]: absent the
    override, that is with no indicator tagged HIGH RISK,
    [determine_risk_level] gives [LOW] exactly for the scores of 60 or
    more, and [MEDIUM] exactly for the scores from 40 up to 60. *)
Theorem empty_input_base_score_medium (now : datetime)
    (community_info : TelegramCommunityInfo.t) :
  TelegramCommunityInfo.admin_count community_info = 0 ->
  TelegramCommunityInfo.verified community_info = false ->
  TelegramCommunityInfo.restricted community_info = false ->
  TelegramCommunityInfo.creation_date community_info = None ->
  ProjectAnalyzer.calculate_legitimacy_score now [] [] community_info = 50%Q
  /\ ProjectAnalyzer.determine_risk_level
       (ProjectAnalyzer.calculate_legitimacy_score now [] [] community_info) []
     = ScamRisk.MEDIUM
  /\ forall (score : Q) (indicators : list string),
       ProjectAnalyzer.count_tagged "HIGH RISK" indicators = 0 ->
       (ProjectAnalyzer.determine_risk_level score indicators = ScamRisk.LOW
        <-> (60 <= score)%Q)
       /\ (ProjectAnalyzer.determine_risk_level score indicators = ScamRisk.MEDIUM
           <-> (40 <= score)%Q /\ (score < 60)%Q).
Proof.
  intros Hadmin Hver Hres Hdate.
  assert (Hscore :
    ProjectAnalyzer.calculate_legitimacy_score now [] [] community_info = 50%Q).
  { unfold ProjectAnalyzer.calculate_legitimacy_score.
    rewrite Hadmin, Hver, Hres, Hdate. reflexivity. }
  split; [exact Hscore|]. split; [rewrite Hscore; reflexivity|].
  intros score indicators Hcount.
  rewrite (determine_risk_level_tiers score indicators Hcount).
  destruct (Qltb score 20) eqn:H20; destruct (Qltb score 40) eqn:H40;
    destruct (Qltb score 60) eqn:H60;
    repeat match goal with
           | Hb : Qltb _ _ = true |- _ => apply Qltb_lt in Hb
           | Hb : Qltb _ _ = false |- _ => apply Qltb_ge in Hb
           end;
    (split; split);
    try discriminate; try reflexivity;
    try (intros; exfalso; lra);
    try (intros; lra);
    try (intros; split; lra).
Qed.

(** The theorem at the sample community without metadata, and the tiers on
    both sides of 60 and of 40. *)
Lemma empty_input_base_score_medium_witness :
  ProjectAnalyzer.calculate_legitimacy_score Sample.a_day [] [] Sample.empty_community
  = 50%Q
  /\ ProjectAnalyzer.determine_risk_level
       (ProjectAnalyzer.calculate_legitimacy_score Sample.a_day [] [] Sample.empty_community)
       [] = ScamRisk.MEDIUM
  /\ ProjectAnalyzer.determine_risk_level 60 ["MEDIUM RISK: presale"] = ScamRisk.LOW
  /\ ProjectAnalyzer.determine_risk_level 59 ["MEDIUM RISK: presale"] = ScamRisk.MEDIUM
  /\ ProjectAnalyzer.determine_risk_level 39 ["MEDIUM RISK: presale"] <> ScamRisk.MEDIUM.
Proof.
  destruct (empty_input_base_score_medium Sample.a_day Sample.empty_community
              eq_refl eq_refl eq_refl eq_refl) as (Hscore & Htier & Htiers).
  split; [exact Hscore|]. split; [exact Htier|].
  split.
  { apply (proj1 (Htiers 60%Q ["MEDIUM RISK: presale"] eq_refl)).
    unfold Qle. simpl. lia. }
  split.
  { apply (proj2 (Htiers 59%Q ["MEDIUM RISK: presale"] eq_refl)).
    split; [unfold Qle | unfold Qlt]; simpl; lia. }
  intros Hmedium.
  apply (proj2 (Htiers 39%Q ["MEDIUM RISK: presale"] eq_refl)) in Hmedium.
  destruct Hmedium as [Hge _]. unfold Qle in Hge. simpl in Hge. lia.
Defined.

(** ** The needs deriver *)

(** The case analysis that follows the threshold checks of
    [identify_project_needs]. *)
Ltac needs_cases social_analysis technical_analysis team_analysis :=
  destruct (SocialAnalysis.overall_score social_analysis <? 70);
  [ destruct (list_in "twitter" (SocialAnalysis.missing_platforms social_analysis));
    destruct (Telegram.members (SocialAnalysis.telegram social_analysis) <? 1000) | ];
  ( destruct (TechnicalAnalysis.technical_score technical_analysis <? 60);
    [ destruct (list_in "whitepaper"
                  (TechnicalAnalysis.missing_elements technical_analysis));
      destruct (list_in "github_repository"
                  (TechnicalAnalysis.missing_elements technical_analysis)) | ] );
  destruct (TeamAnalysis.team_score team_analysis <? 50).

Lemma identify_project_needs_TypeError (basic_info : BasicInfo.t)
    (social_analysis : SocialAnalysis.t) (technical_analysis : TechnicalAnalysis.t)
    (team_analysis : TeamAnalysis.t) (community_analysis : CommunityAnalysis.t) :
  ProjectResearcher.market_cap_of basic_info = PyNone ->
  ProjectResearcher.identify_project_needs basic_info social_analysis technical_analysis
    team_analysis community_analysis = Raise TypeError.
Proof.
  intros Hcap. unfold ProjectResearcher.identify_project_needs. rewrite Hcap.
  needs_cases social_analysis technical_analysis team_analysis; reflexivity.
Qed.

(** A missing ['market_data'] or a missing ['market_cap'] is read as 0. *)
Example market_cap_missing_is_zero :
  ProjectResearcher.market_cap_of Sample.unknown_project = PyNum 0.
Proof. reflexivity. Qed.

(** C4. The core does raise.  Where the market-data API reports no dollar
    market cap, ['market_cap'] is there and holds [None], the default of
    [.get('market_cap', 0)] is not taken, and [market_cap < 10000000] raises
    [TypeError] out of [identify_project_needs] and out of
    [research_project_comprehensive]; and the analyzer that the bot
    constructs has no [scout] attribute, so its indicator detection raises
    [AttributeError] on every text. *)
Theorem null_market_cap_raises_TypeError :
  ProjectResearcher.market_cap_of Sample.null_cap_project = PyNone
  /\ (forall social_analysis technical_analysis team_analysis community_analysis,
        ProjectResearcher.identify_project_needs Sample.null_cap_project social_analysis
          technical_analysis team_analysis community_analysis = Raise TypeError)
  /\ (forall (E : Externals) now,
        @ProjectResearcher.research_project_comprehensive E now "acme"
          Sample.null_cap_project = Raise TypeError)
  /\ (forall (E : Externals) text,
        @ProjectAnalyzer.detect_scam_indicators E Sample.fresh_analyzer text
        = Raise AttributeError)
  /\ (forall (E : Externals) text,
        @ProjectAnalyzer.detect_positive_indicators E Sample.fresh_analyzer text
        = Raise AttributeError).
Proof.
  split; [reflexivity|].
  split.
  { intros. apply identify_project_needs_TypeError. reflexivity. }
  split.
  { intros E now. unfold ProjectResearcher.research_project_comprehensive.
    cbv zeta.
    assert (Htech : exists technical_analysis,
      ProjectResearcher.analyze_technical_aspects Sample.null_cap_project
      = Ok technical_analysis) by (eexists; reflexivity).
    destruct Htech as [technical_analysis Htech]. rewrite Htech, bind_Ok.
    rewrite identify_project_needs_TypeError by reflexivity. reflexivity. }
  split; intros; reflexivity.
Qed.

(** Two projects without social links or repository, one with a website
    and one without: the three scores and the market cap agree, and only
    the second is offered a technical-writing opportunity. *)
Lemma same_scores_different_opportunities :
  exists technical_1 technical_2,
    let social := ProjectResearcher.analyze_social_presence Sample.unknown_project in
    let team :=
      @ProjectResearcher.analyze_team Ascii_runtime.externals Sample.unknown_project in
    let community := ProjectResearcher.analyze_community_health Sample.unknown_project in
    ProjectResearcher.analyze_technical_aspects Sample.unknown_project_with_website
      = Ok technical_1
    /\ ProjectResearcher.analyze_technical_aspects Sample.unknown_project = Ok technical_2
    /\ TechnicalAnalysis.technical_score technical_1
       = TechnicalAnalysis.technical_score technical_2
    /\ ProjectResearcher.market_cap_of Sample.unknown_project_with_website
       = ProjectResearcher.market_cap_of Sample.unknown_project
    /\ ProjectNeeds.job_opportunities <$>
         ProjectResearcher.identify_project_needs Sample.unknown_project_with_website
           social technical_1 team community
       <> ProjectNeeds.job_opportunities <$>
         ProjectResearcher.identify_project_needs Sample.unknown_project
           social technical_2 team community.
Proof.
  eexists. eexists. cbv zeta.
  split; [reflexivity|]. split; [reflexivity|].
  split; [reflexivity|]. split; [reflexivity|].
  intros Heq.
  apply (f_equal (fun r => match r with Ok l => length l | Raise _ => O end)) in Heq.
  vm_compute in Heq. discriminate.
Qed.

(** C5, amended. The job opportunities are a function of the three scores
    and the market cap together with the platform and element checks that
    the code makes: whether twitter is a missing platform, whether the
    Telegram member count is below 1000, and whether the whitepaper and the
    repository are missing elements.  Inputs that agree on these yield the
    same opportunities in the same order. *)
Theorem job_opportunities_determined
    (basic_info basic_info' : BasicInfo.t)
    (social_analysis social_analysis' : SocialAnalysis.t)
    (technical_analysis technical_analysis' : TechnicalAnalysis.t)
    (team_analysis team_analysis' : TeamAnalysis.t)
    (community_analysis community_analysis' : CommunityAnalysis.t) :
  SocialAnalysis.overall_score social_analysis
    = SocialAnalysis.overall_score social_analysis' ->
  TechnicalAnalysis.technical_score technical_analysis
    = TechnicalAnalysis.technical_score technical_analysis' ->
  TeamAnalysis.team_score team_analysis = TeamAnalysis.team_score team_analysis' ->
  ProjectResearcher.market_cap_of basic_info
    = ProjectResearcher.market_cap_of basic_info' ->
  list_in "twitter" (SocialAnalysis.missing_platforms social_analysis)
    = list_in "twitter" (SocialAnalysis.missing_platforms social_analysis') ->
  (Telegram.members (SocialAnalysis.telegram social_analysis) <? 1000)
    = (Telegram.members (SocialAnalysis.telegram social_analysis') <? 1000) ->
  list_in "whitepaper" (TechnicalAnalysis.missing_elements technical_analysis)
    = list_in "whitepaper" (TechnicalAnalysis.missing_elements technical_analysis') ->
  list_in "github_repository" (TechnicalAnalysis.missing_elements technical_analysis)
    = list_in "github_repository" (TechnicalAnalysis.missing_elements technical_analysis') ->
  ProjectNeeds.job_opportunities <$>
    ProjectResearcher.identify_project_needs basic_info social_analysis
      technical_analysis team_analysis community_analysis
  = ProjectNeeds.job_opportunities <$>
    ProjectResearcher.identify_project_needs basic_info' social_analysis'
      technical_analysis' team_analysis' community_analysis'.
Proof.
  intros Hs Ht Hm Hcap Htw Htg Hwp Hgh.
  unfold ProjectResearcher.identify_project_needs.
  rewrite Hs, Ht, Hm, Hcap, Htw, Htg, Hwp, Hgh. reflexivity.
Qed.

Lemma job_opportunities_determined_witness :
  ProjectNeeds.job_opportunities <$>
    ProjectResearcher.identify_project_needs Sample.unknown_project Sample.social_45
      Sample.technical_55 Sample.team_30 Sample.community
  = ProjectNeeds.job_opportunities <$>
    ProjectResearcher.identify_project_needs Sample.unknown_project_with_website
      Sample.social_45 Sample.technical_55 Sample.team_30 Sample.community.
Proof.
  apply job_opportunities_determined; reflexivity.
Defined.

Lemma maturity_label_buckets (avg : Q) :
  ((avg < 40)%Q -> ProjectResearcher.maturity_label avg = "early")
  /\ ((40 <= avg)%Q -> (avg < 70)%Q -> ProjectResearcher.maturity_label avg = "developing")
  /\ ((70 <= avg)%Q -> ProjectResearcher.maturity_label avg = "mature").
Proof.
  unfold ProjectResearcher.maturity_label. repeat split.
  - intros Hlt. apply Qltb_lt in Hlt. rewrite Hlt. reflexivity.
  - intros Hge Hlt. apply Qltb_ge in Hge. apply Qltb_lt in Hlt.
    rewrite Hge, Hlt. reflexivity.
  - intros Hge.
    assert (H40 : (40 <= avg)%Q) by (eapply Qle_trans; [|exact Hge]; discriminate).
    apply Qltb_ge in Hge. apply Qltb_ge in H40. rewrite H40, Hge. reflexivity.
Qed.

Lemma identify_project_needs_maturity (basic_info : BasicInfo.t)
    (social_analysis : SocialAnalysis.t) (technical_analysis : TechnicalAnalysis.t)
    (team_analysis : TeamAnalysis.t) (community_analysis : CommunityAnalysis.t) (q : Q) :
  ProjectResearcher.market_cap_of basic_info = PyNum q ->
  exists needs,
    ProjectResearcher.identify_project_needs basic_info social_analysis technical_analysis
      team_analysis community_analysis = Ok needs
    /\ ProjectNeeds.overall_maturity needs
       = ProjectResearcher.maturity_label
           (ProjectResearcher.avg_score
              (SocialAnalysis.overall_score social_analysis)
              (TechnicalAnalysis.technical_score technical_analysis)
              (TeamAnalysis.team_score team_analysis)).
Proof.
  intros Hcap. unfold ProjectResearcher.identify_project_needs. rewrite Hcap.
  unfold py_lt_int.
  destruct (Qltb q (inject_Z 10000000));
    needs_cases social_analysis technical_analysis team_analysis;
    eexists; split; reflexivity.
Qed.

(** C8. When [identify_project_needs] returns (the market cap is a
    number), the maturity label is the bucket of the arithmetic mean of the
    social, technical and team scores: "early" below 40, "developing" from
    40 and below 70, "mature" from 70. *)
Theorem maturity_is_bucketed_average (basic_info : BasicInfo.t)
    (social_analysis : SocialAnalysis.t) (technical_analysis : TechnicalAnalysis.t)
    (team_analysis : TeamAnalysis.t) (community_analysis : CommunityAnalysis.t) (q : Q) :
  ProjectResearcher.market_cap_of basic_info = PyNum q ->
  exists needs,
    ProjectResearcher.identify_project_needs basic_info social_analysis technical_analysis
      team_analysis community_analysis = Ok needs
    /\ let average :=
         (inject_Z (SocialAnalysis.overall_score social_analysis
                    + TechnicalAnalysis.technical_score technical_analysis
                    + TeamAnalysis.team_score team_analysis) / 3)%Q in
       ((average < 40)%Q -> ProjectNeeds.overall_maturity needs = "early")
       /\ ((40 <= average)%Q -> (average < 70)%Q ->
           ProjectNeeds.overall_maturity needs = "developing")
       /\ ((70 <= average)%Q -> ProjectNeeds.overall_maturity needs = "mature").
Proof.
  intros Hcap.
  destruct (identify_project_needs_maturity basic_info social_analysis technical_analysis
              team_analysis community_analysis q Hcap) as [needs [Hok Hlabel]].
  exists needs. split; [exact Hok|]. cbv zeta. rewrite Hlabel.
  apply maturity_label_buckets.
Qed.

(** The example of the specification: the scores 45, 55 and 30 have the
    mean 130/3, between 43.3 and 43.4, and the label is "developing". *)
Lemma maturity_is_bucketed_average_witness :
  (433 # 10 < inject_Z (45 + 55 + 30) / 3)%Q
  /\ (inject_Z (45 + 55 + 30) / 3 < 434 # 10)%Q
  /\ exists needs,
       ProjectResearcher.identify_project_needs Sample.small_cap_project Sample.social_45
         Sample.technical_55 Sample.team_30 Sample.community = Ok needs
       /\ ProjectNeeds.overall_maturity needs = "developing".
Proof.
  split; [reflexivity|]. split; [reflexivity|].
  destruct (maturity_is_bucketed_average Sample.small_cap_project Sample.social_45
              Sample.technical_55 Sample.team_30 Sample.community 5000000 eq_refl)
    as [needs [Hok [_ [Hdev _]]]].
  exists needs. split; [exact Hok|].
  apply Hdev; [discriminate | reflexivity].
Defined.

Ltac no_business_development :=
  repeat (apply Forall_app; split);
  repeat constructor;
  intros Hcategory;
  cbv [ProjectResearcher.create_job_opportunity JobOpportunity.category] in Hcategory;
  discriminate Hcategory.

(** C9. With a market cap below 10,000,000 [identify_project_needs]
    returns, and its list of job opportunities ends with a
    business-development opportunity of urgency "medium", which is the only
    one of that category. *)
Theorem small_market_cap_business_development (basic_info : BasicInfo.t)
    (social_analysis : SocialAnalysis.t) (technical_analysis : TechnicalAnalysis.t)
    (team_analysis : TeamAnalysis.t) (community_analysis : CommunityAnalysis.t) (q : Q) :
  ProjectResearcher.market_cap_of basic_info = PyNum q ->
  (q < 10000000)%Q ->
  exists needs earlier opportunity,
    ProjectResearcher.identify_project_needs basic_info social_analysis technical_analysis
      team_analysis community_analysis = Ok needs
    /\ ProjectNeeds.job_opportunities needs = earlier ++ [opportunity]
    /\ JobOpportunity.category opportunity = JobCategory.BUSINESS_DEVELOPMENT
    /\ JobOpportunity.urgency opportunity = "medium"
    /\ Forall (fun job => JobOpportunity.category job <> JobCategory.BUSINESS_DEVELOPMENT)
         earlier.
Proof.
  intros Hcap Hlt. unfold ProjectResearcher.identify_project_needs. rewrite Hcap.
  unfold py_lt_int.
  replace (Qltb q (inject_Z 10000000)) with true by (symmetry; apply Qltb_lt; exact Hlt).
  needs_cases social_analysis technical_analysis team_analysis;
    eexists; eexists; eexists;
    (split; [reflexivity|]); (split; [reflexivity|]);
    (split; [reflexivity|]); (split; [reflexivity|]);
    no_business_development.
Qed.

(** The example of the specification: a market cap of 5,000,000. *)
Lemma small_market_cap_business_development_witness :
  exists needs earlier opportunity,
    ProjectResearcher.identify_project_needs Sample.small_cap_project Sample.social_45
      Sample.technical_55 Sample.team_30 Sample.community = Ok needs
    /\ ProjectNeeds.job_opportunities needs = earlier ++ [opportunity]
    /\ JobOpportunity.category opportunity = JobCategory.BUSINESS_DEVELOPMENT
    /\ JobOpportunity.urgency opportunity = "medium"
    /\ Forall (fun job => JobOpportunity.category job <> JobCategory.BUSINESS_DEVELOPMENT)
         earlier.
Proof.
  apply (small_market_cap_business_development Sample.small_cap_project Sample.social_45
           Sample.technical_55 Sample.team_30 Sample.community 5000000).
  - reflexivity.
  - reflexivity.
Defined.

(** At and above the threshold no such opportunity is appended. *)
Example large_market_cap_no_business_development :
  forall needs,
    ProjectResearcher.identify_project_needs
      {| BasicInfo.name := "Acme Protocol";
         BasicInfo.description := "";
         BasicInfo.website := "";
         BasicInfo.social_links := ∅;
         BasicInfo.market_data := Some (<["market_cap" := PyNum 10000000]> ∅);
         BasicInfo.sources := [] |}
      Sample.social_45 Sample.technical_55 Sample.team_30 Sample.community = Ok needs ->
    map JobOpportunity.category (ProjectNeeds.job_opportunities needs)
    = [JobCategory.PR_MARKETING; JobCategory.GRAPHICS_DESIGN].
Proof. intros needs Hneeds. vm_compute in Hneeds. injection Hneeds as <-. reflexivity. Qed.

(** ** Dispatch and the alert store *)

Lemma should_send_critical (alert : CommunityAlert.t) (p : EnhancedTelegramBot.prefs) :
  ProjectAnalysis.risk_level (CommunityAlert.project_analysis alert) = ScamRisk.CRITICAL ->
  EnhancedTelegramBot.should_send_community_to_user alert p = false.
Proof.
  intros Hrisk. unfold EnhancedTelegramBot.should_send_community_to_user.
  rewrite Hrisk.
  destruct (negb (default true (EnhancedTelegramBot.telegram_communities p)));
    [reflexivity|].
  destruct (match default [] (EnhancedTelegramBot.community_size_filters p) with
            | [] => false
            | _ :: _ => true
            end && _); reflexivity.
Qed.

Lemma dispatches_for_risk (subscribers : list Z)
    (get_user_preferences : Z -> option EnhancedTelegramBot.prefs)
    (alert : CommunityAlert.t) (d : EnhancedTelegramBot.dispatch) :
  In d (EnhancedTelegramBot.dispatches_for subscribers get_user_preferences alert) ->
  ProjectAnalysis.risk_level
    (CommunityAlert.project_analysis (EnhancedTelegramBot.dispatch_alert d))
  <> ScamRisk.CRITICAL.
Proof.
  unfold EnhancedTelegramBot.dispatches_for. intros Hin.
  apply in_flat_map in Hin. destruct Hin as [chat_id [_ Hd]].
  destruct (get_user_preferences chat_id) as [p|]; [|destruct Hd].
  destruct (EnhancedTelegramBot.should_send_community_to_user alert p) eqn:Hsend;
    [|destruct Hd].
  destruct Hd as [<-|[]]. simpl. intros Hrisk.
  rewrite (should_send_critical alert p Hrisk) in Hsend. discriminate.
Qed.

Lemma broadcast_loop_risk (subscribers : list Z)
    (get_user_preferences : Z -> option EnhancedTelegramBot.prefs)
    (alerts : list CommunityAlert.t) :
  forall (db : EnhancedDatabaseManager.t) (outbox : list EnhancedTelegramBot.dispatch),
    Forall (fun d => ProjectAnalysis.risk_level
                       (CommunityAlert.project_analysis
                          (EnhancedTelegramBot.dispatch_alert d))
                     <> ScamRisk.CRITICAL) outbox ->
    Forall (fun d => ProjectAnalysis.risk_level
                       (CommunityAlert.project_analysis
                          (EnhancedTelegramBot.dispatch_alert d))
                     <> ScamRisk.CRITICAL)
      (EnhancedTelegramBot.broadcast_loop subscribers get_user_preferences
         alerts db outbox).2.
Proof.
  induction alerts as [|alert rest IH]; intros db outbox Hout; simpl; [exact Hout|].
  apply IH. apply Forall_app. split; [exact Hout|].
  apply Forall_forall. intros d Hd. apply list_elem_of_In in Hd.
  exact (dispatches_for_risk subscribers get_user_preferences alert d Hd).
Qed.

(** C6. [should_send_community_to_user] answers [False] for an alert whose
    risk level is [CRITICAL], whatever the preferences, and no call of
    [send_community_alert] that [broadcast_community_alerts] makes carries
    such an alert. *)
Theorem critical_alerts_never_dispatched (subscribers : list Z)
    (get_user_preferences : Z -> option EnhancedTelegramBot.prefs) :
  (forall alert p,
     ProjectAnalysis.risk_level (CommunityAlert.project_analysis alert) = ScamRisk.CRITICAL ->
     EnhancedTelegramBot.should_send_community_to_user alert p = false)
  /\ (forall db db' outbox d,
        EnhancedTelegramBot.broadcast_community_alerts subscribers get_user_preferences db
        = Ok (db', outbox) ->
        In d outbox ->
        ProjectAnalysis.risk_level
          (CommunityAlert.project_analysis (EnhancedTelegramBot.dispatch_alert d))
        <> ScamRisk.CRITICAL).
Proof.
  split; [exact should_send_critical|].
  intros db db' outbox d Hrun Hin.
  unfold EnhancedTelegramBot.broadcast_community_alerts in Hrun.
  destruct (EnhancedDatabaseManager.get_unsent_community_alerts db) as [alerts|e];
    [|discriminate Hrun].
  rewrite bind_Ok in Hrun. injection Hrun as Hrun.
  pose proof (broadcast_loop_risk subscribers get_user_preferences alerts db []
                ltac:(constructor)) as Hall.
  rewrite Hrun in Hall. simpl in Hall.
  rewrite Forall_forall in Hall. apply Hall. apply list_elem_of_In. exact Hin.
Qed.

(** One subscriber with default preferences and a store that holds an
    unsent [CRITICAL] alert and an unsent [LOW] alert: only the second is
    sent, and both are marked as sent. *)
Lemma critical_alerts_never_dispatched_witness :
  EnhancedTelegramBot.should_send_community_to_user
    (Sample.alert_with "a1" ScamRisk.CRITICAL) Sample.default_prefs = false
  /\ EnhancedTelegramBot.should_send_community_to_user
       (Sample.alert_with "a2" ScamRisk.LOW) Sample.default_prefs = true
  /\ exists db' alert,
       EnhancedTelegramBot.broadcast_community_alerts [7]
         (fun _ => Some Sample.default_prefs) Sample.two_alerts_db
       = Ok (db', [ {| EnhancedTelegramBot.dispatch_alert := alert;
                       EnhancedTelegramBot.dispatch_chat_id := 7 |} ])
       /\ CommunityAlert.unique_id alert = "a2"
       /\ ProjectAnalysis.risk_level (CommunityAlert.project_analysis alert)
          <> ScamRisk.CRITICAL
       /\ map EnhancedDatabaseManager.sent db' = [true; true].
Proof.
  split.
  { apply (critical_alerts_never_dispatched [7] (fun _ => Some Sample.default_prefs)).
    reflexivity. }
  split; [reflexivity|].
  destruct (EnhancedTelegramBot.broadcast_community_alerts [7]
              (fun _ => Some Sample.default_prefs) Sample.two_alerts_db)
    as [[db' outbox]|e] eqn:Hrun;
    pose proof Hrun as Hcomputed; vm_compute in Hcomputed; [|discriminate Hcomputed].
  injection Hcomputed as Hdb Hout.
  exists db'. eexists.
  split; [rewrite <- Hout; reflexivity|].
  split; [reflexivity|].
  split.
  - apply (proj2 (critical_alerts_never_dispatched [7]
                    (fun _ => Some Sample.default_prefs)) _ _ _
                 {| EnhancedTelegramBot.dispatch_alert := _;
                    EnhancedTelegramBot.dispatch_chat_id := 7 |} Hrun).
    rewrite <- Hout. left. reflexivity.
  - rewrite <- Hdb. reflexivity.
Defined.

Lemma unique_violation_true (db : EnhancedDatabaseManager.t) (uid : string) :
  EnhancedDatabaseManager.unique_violation db uid = true
  <-> exists r, In r db /\ EnhancedDatabaseManager.unique_id r = uid.
Proof.
  unfold EnhancedDatabaseManager.unique_violation. rewrite existsb_exists.
  split; intros [r [Hin Heq]]; exists r; (split; [exact Hin|]).
  - apply String.eqb_eq. exact Heq.
  - apply String.eqb_eq. exact Heq.
Qed.

Lemma unique_violation_false (db : EnhancedDatabaseManager.t) (uid : string) :
  EnhancedDatabaseManager.unique_violation db uid = false
  <-> forall r, In r db -> EnhancedDatabaseManager.unique_id r <> uid.
Proof.
  split.
  - intros Hno r Hin Heq.
    assert (EnhancedDatabaseManager.unique_violation db uid = true)
      by (apply unique_violation_true; exists r; split; assumption).
    congruence.
  - intros Hall.
    destruct (EnhancedDatabaseManager.unique_violation db uid) eqn:E; [|reflexivity].
    apply unique_violation_true in E. destruct E as [r [Hin Heq]].
    exfalso. exact (Hall r Hin Heq).
Qed.

Lemma add_community_alert_existing (db : EnhancedDatabaseManager.t)
    (alert : CommunityAlert.t) :
  EnhancedDatabaseManager.unique_violation db (CommunityAlert.unique_id alert) = true ->
  EnhancedDatabaseManager.add_community_alert db alert = Ok (false, db).
Proof.
  intros Hdup.
  unfold EnhancedDatabaseManager.add_community_alert,
    EnhancedDatabaseManager.insert_community.
  rewrite Hdup. reflexivity.
Qed.

(** C7. [add_community_alert] on an alert whose [unique_id] is already in
    the store returns [False], raises nothing and leaves the store as it
    was; on a [unique_id] that is not in the store it returns [True] and
    appends one unsent row, after which an insert with the same [unique_id]
    is again a no-op. *)
Theorem duplicate_insert_is_noop (db : EnhancedDatabaseManager.t)
    (alert : CommunityAlert.t) :
  ((exists r, In r db
              /\ EnhancedDatabaseManager.unique_id r = CommunityAlert.unique_id alert) ->
   EnhancedDatabaseManager.add_community_alert db alert = Ok (false, db))
  /\ ((forall r, In r db ->
                 EnhancedDatabaseManager.unique_id r <> CommunityAlert.unique_id alert) ->
      exists r,
        EnhancedDatabaseManager.add_community_alert db alert = Ok (true, db ++ [r])
        /\ EnhancedDatabaseManager.unique_id r = CommunityAlert.unique_id alert
        /\ EnhancedDatabaseManager.sent r = false
        /\ forall alert',
             CommunityAlert.unique_id alert' = CommunityAlert.unique_id alert ->
             EnhancedDatabaseManager.add_community_alert (db ++ [r]) alert'
             = Ok (false, db ++ [r])).
Proof.
  split.
  - intros Hdup. apply add_community_alert_existing.
    apply unique_violation_true. exact Hdup.
  - intros Hfresh. apply unique_violation_false in Hfresh.
    unfold EnhancedDatabaseManager.add_community_alert at 1.
    unfold EnhancedDatabaseManager.insert_community. rewrite Hfresh.
    eexists. split; [reflexivity|]. split; [reflexivity|]. split; [reflexivity|].
    intros alert' Hsame. apply add_community_alert_existing.
    apply unique_violation_true. eexists. split.
    + apply in_or_app. right. left. reflexivity.
    + simpl. symmetry. exact Hsame.
Qed.

(** The first insert into an empty store and a repeated insert. *)
Lemma duplicate_insert_is_noop_witness :
  exists r,
    EnhancedDatabaseManager.add_community_alert EnhancedDatabaseManager.init_db
      (Sample.alert_with "a1" ScamRisk.LOW) = Ok (true, [r])
    /\ EnhancedDatabaseManager.add_community_alert [r]
         (Sample.alert_with "a1" ScamRisk.HIGH) = Ok (false, [r]).
Proof.
  destruct (proj2 (duplicate_insert_is_noop EnhancedDatabaseManager.init_db
                     (Sample.alert_with "a1" ScamRisk.LOW)))
    as [r [Hadd [Huid _]]].
  { intros r Hin. destruct Hin. }
  exists r. split; [exact Hadd|].
  apply (proj1 (duplicate_insert_is_noop [r] (Sample.alert_with "a1" ScamRisk.HIGH))).
  exists r. split; [left; reflexivity | exact Huid].
Defined.

(** ** The size filter *)

Lemma matches_size_filter_range (member_count : Z) (size_filters : list CommunitySize.t) :
  TelegramScout.matches_size_filter member_count size_filters = true ->
  1 <= member_count <= 500.
Proof.
  induction size_filters as [|size_filter rest IH]; simpl; [discriminate|].
  repeat match goal with
         | |- context [if ?c && (?lo && ?hi) then _ else _] =>
             destruct c; simpl;
             [ destruct lo eqn:?; simpl; [destruct hi eqn:?; simpl|] | ]
         end;
    intros Hm; try lia; try (apply IH; exact Hm).
Qed.

Lemma search_loop_range (size_filters : list CommunitySize.t)
    (chats : list TelegramScout.chat_outcome) :
  forall communities,
    Forall (fun c => 1 <= TelegramCommunityInfo.member_count c <= 500) communities ->
    Forall (fun c => 1 <= TelegramCommunityInfo.member_count c <= 500)
      (TelegramScout.search_crypto_communities_loop size_filters chats communities).
Proof.
  induction chats as [|chat rest IH]; intros communities Hall; simpl; [exact Hall|].
  destruct chat as [|community_info|e]; [apply IH; exact Hall| |exact Hall].
  destruct (TelegramScout.matches_size_filter
              (TelegramCommunityInfo.member_count community_info) size_filters) eqn:Hm;
    [|apply IH; exact Hall].
  apply IH. apply Forall_app. split; [exact Hall|].
  constructor; [|constructor].
  exact (matches_size_filter_range _ _ Hm).
Qed.

(** C10. [matches_size_filter] answers [True] only for a member count
    between 1 and 500; a count of 0 or less, or above 500, matches no list
    of filters, and every community that [search_crypto_communities] returns
    has between 1 and 500 members. *)
Theorem size_filter_only_1_to_500 (member_count : Z)
    (size_filters : list CommunitySize.t) :
  (TelegramScout.matches_size_filter member_count size_filters = true ->
   1 <= member_count <= 500)
  /\ (member_count <= 0 \/ 500 < member_count ->
      TelegramScout.matches_size_filter member_count size_filters = false)
  /\ (forall chats community_info,
        In community_info (TelegramScout.search_crypto_communities size_filters chats) ->
        1 <= TelegramCommunityInfo.member_count community_info <= 500).
Proof.
  split; [apply matches_size_filter_range|]. split.
  - intros Hout.
    destruct (TelegramScout.matches_size_filter member_count size_filters) eqn:Hm;
      [|reflexivity].
    apply matches_size_filter_range in Hm. lia.
  - intros chats community_info Hin.
    pose proof (search_loop_range size_filters chats [] ltac:(constructor)) as Hall.
    rewrite Forall_forall in Hall. apply Hall. apply list_elem_of_In. exact Hin.
Qed.

(** A community of 25 members matches the filters of the monitoring job;
    one without a member count, and one of 501 members, match no filter, not
    even the filter for 201 to 500 members. *)
Lemma size_filter_only_1_to_500_witness :
  TelegramScout.matches_size_filter 25
    [CommunitySize.MICRO; CommunitySize.SMALL; CommunitySize.MEDIUM_SMALL;
     CommunitySize.MEDIUM] = true
  /\ 1 <= 25 <= 500
  /\ TelegramScout.matches_size_filter 0
       [CommunitySize.MICRO; CommunitySize.SMALL; CommunitySize.MEDIUM_SMALL;
        CommunitySize.MEDIUM; CommunitySize.GROWING] = false
  /\ TelegramScout.matches_size_filter 501
       [CommunitySize.MICRO; CommunitySize.SMALL; CommunitySize.MEDIUM_SMALL;
        CommunitySize.MEDIUM; CommunitySize.GROWING] = false
  /\ TelegramScout.search_crypto_communities
       [CommunitySize.MICRO; CommunitySize.SMALL; CommunitySize.MEDIUM_SMALL;
        CommunitySize.MEDIUM]
       [TelegramScout.Fetched Sample.empty_community; TelegramScout.NotCrypto;
        TelegramScout.Fetched Sample.pump_community]
     = [Sample.pump_community].
Proof.
  split; [reflexivity|].
  split.
  { apply (proj1 (size_filter_only_1_to_500 25
                    [CommunitySize.MICRO; CommunitySize.SMALL;
                     CommunitySize.MEDIUM_SMALL; CommunitySize.MEDIUM])).
    reflexivity. }
  split.
  { apply (proj1 (proj2 (size_filter_only_1_to_500 0
                    [CommunitySize.MICRO; CommunitySize.SMALL;
                     CommunitySize.MEDIUM_SMALL; CommunitySize.MEDIUM;
                     CommunitySize.GROWING]))).
    left. lia. }
  split.
  { apply (proj1 (proj2 (size_filter_only_1_to_500 501
                    [CommunitySize.MICRO; CommunitySize.SMALL;
                     CommunitySize.MEDIUM_SMALL; CommunitySize.MEDIUM;
                     CommunitySize.GROWING]))).
    right. lia. }
  reflexivity.
Defined.

(** ** The alert store: invariants and round trips *)

Lemma next_id_above (db : EnhancedDatabaseManager.t) (r : EnhancedDatabaseManager.row) :
  In r db -> EnhancedDatabaseManager.id r < EnhancedDatabaseManager.next_id db.
Proof.
  unfold EnhancedDatabaseManager.next_id.
  induction db as [|r' db IH]; simpl; [intros []|].
  intros [->|Hin]; [lia|]. specialize (IH Hin). lia.
Qed.

Lemma add_community_alert_cases (db db' : EnhancedDatabaseManager.t)
    (alert : CommunityAlert.t) (added : bool) :
  EnhancedDatabaseManager.add_community_alert db alert = Ok (added, db') ->
  (added = false /\ db' = db
   /\ EnhancedDatabaseManager.unique_violation db (CommunityAlert.unique_id alert) = true)
  \/ (added = true
      /\ EnhancedDatabaseManager.unique_violation db (CommunityAlert.unique_id alert) = false
      /\ exists r, db' = db ++ [r]
           /\ EnhancedDatabaseManager.insert_community db alert = Ok (db ++ [r])
           /\ EnhancedDatabaseManager.unique_id r = CommunityAlert.unique_id alert
           /\ EnhancedDatabaseManager.id r = EnhancedDatabaseManager.next_id db
           /\ EnhancedDatabaseManager.sent r = false).
Proof.
  unfold EnhancedDatabaseManager.add_community_alert,
    EnhancedDatabaseManager.insert_community.
  destruct (EnhancedDatabaseManager.unique_violation db (CommunityAlert.unique_id alert));
    intros Heq; injection Heq as <- <-.
  - left. repeat split; reflexivity.
  - right. split; [reflexivity|]. split; [reflexivity|].
    eexists. repeat split; reflexivity.
Qed.

Lemma mark_sent_unique_id (db : EnhancedDatabaseManager.t) (uid : string) :
  map EnhancedDatabaseManager.unique_id
    (EnhancedDatabaseManager.mark_community_alert_sent db uid)
  = map EnhancedDatabaseManager.unique_id db.
Proof.
  unfold EnhancedDatabaseManager.mark_community_alert_sent.
  induction db as [|r db IH]; simpl; [reflexivity|]. rewrite IH.
  destruct (String.eqb (EnhancedDatabaseManager.unique_id r) uid); reflexivity.
Qed.

Lemma mark_sent_id (db : EnhancedDatabaseManager.t) (uid : string) :
  map EnhancedDatabaseManager.id
    (EnhancedDatabaseManager.mark_community_alert_sent db uid)
  = map EnhancedDatabaseManager.id db.
Proof.
  unfold EnhancedDatabaseManager.mark_community_alert_sent.
  induction db as [|r db IH]; simpl; [reflexivity|]. rewrite IH.
  destruct (String.eqb (EnhancedDatabaseManager.unique_id r) uid); reflexivity.
Qed.

(** X1. The store keeps its keys unique: when the [unique_id]s and the
    [id]s of the rows are pairwise distinct, they still are after
    [add_community_alert] (whether it inserts or not) and after
    [mark_community_alert_sent]. *)
Theorem store_keys_stay_unique (db db' : EnhancedDatabaseManager.t)
    (alert : CommunityAlert.t) (added : bool) (uid : string) :
  NoDup (map EnhancedDatabaseManager.unique_id db) ->
  NoDup (map EnhancedDatabaseManager.id db) ->
  EnhancedDatabaseManager.add_community_alert db alert = Ok (added, db') ->
  NoDup (map EnhancedDatabaseManager.unique_id db')
  /\ NoDup (map EnhancedDatabaseManager.id db')
  /\ NoDup (map EnhancedDatabaseManager.unique_id
              (EnhancedDatabaseManager.mark_community_alert_sent db' uid))
  /\ NoDup (map EnhancedDatabaseManager.id
              (EnhancedDatabaseManager.mark_community_alert_sent db' uid)).
Proof.
  intros Huid Hid Hadd.
  assert (Hboth : NoDup (map EnhancedDatabaseManager.unique_id db')
                  /\ NoDup (map EnhancedDatabaseManager.id db')).
  { destruct (add_community_alert_cases db db' alert added Hadd)
      as [(_ & -> & _) | (_ & Hfresh & r & -> & _ & Hruid & Hrid & _)];
      [split; assumption|].
    rewrite !map_app. simpl. split.
    - apply NoDup_app. split; [exact Huid|]. split; [|apply NoDup_singleton].
      intros u Hu Hu'. apply list_elem_of_singleton in Hu'. subst u.
      apply list_elem_of_In, in_map_iff in Hu. destruct Hu as [r' [Heq Hin]].
      apply unique_violation_false with (r := r') in Hfresh; [|exact Hin].
      congruence.
    - apply NoDup_app. split; [exact Hid|]. split; [|apply NoDup_singleton].
      intros i Hi Hi'. apply list_elem_of_singleton in Hi'. subst i.
      apply list_elem_of_In, in_map_iff in Hi. destruct Hi as [r' [Heq Hin]].
      pose proof (next_id_above db r' Hin). lia. }
  destruct Hboth as [H1 H2].
  rewrite mark_sent_unique_id, mark_sent_id. repeat split; assumption.
Qed.

Lemma of_value_value (risk : ScamRisk.t) :
  ScamRisk.of_value (ScamRisk.value risk) = Some risk.
Proof. destruct risk; reflexivity. Qed.

Lemma alerts_of_rows_app (rows1 rows2 : list EnhancedDatabaseManager.row) :
  EnhancedDatabaseManager.alerts_of_rows (rows1 ++ rows2)
  = (alerts1 ← EnhancedDatabaseManager.alerts_of_rows rows1;
     alerts2 ← EnhancedDatabaseManager.alerts_of_rows rows2;
     mret (alerts1 ++ alerts2)).
Proof.
  induction rows1 as [|r rows1 IH]; simpl.
  - destruct (EnhancedDatabaseManager.alerts_of_rows rows2); reflexivity.
  - destruct (EnhancedDatabaseManager.alert_of_row r) as [alert|e]; [|reflexivity].
    rewrite !bind_Ok, IH.
    destruct (EnhancedDatabaseManager.alerts_of_rows rows1) as [alerts1|e]; [|reflexivity].
    rewrite !bind_Ok.
    destruct (EnhancedDatabaseManager.alerts_of_rows rows2) as [alerts2|e]; reflexivity.
Qed.

Lemma alert_of_row_unique_id (r : EnhancedDatabaseManager.row) (alert : CommunityAlert.t) :
  EnhancedDatabaseManager.alert_of_row r = Ok alert ->
  CommunityAlert.unique_id alert = EnhancedDatabaseManager.unique_id r.
Proof.
  unfold EnhancedDatabaseManager.alert_of_row.
  destruct (ScamRisk.of_value (EnhancedDatabaseManager.risk_level r));
    [|discriminate].
  intros Heq. injection Heq as <-. reflexivity.
Qed.

(** X2. Insert and read back: after [add_community_alert] has stored an
    alert, [get_unsent_community_alerts] returns the alerts it returned
    before followed by the stored one, which keeps the [unique_id], the
    discovery time, the whole project analysis (the risk level survives
    [risk_level.value] and [ScamRisk(...)]) and the stored columns of the
    community, while the recent messages come back empty, [verified] and
    [restricted] come back [False], and the size category is recomputed
    from the member count. *)
Theorem stored_alert_reads_back (db db' : EnhancedDatabaseManager.t)
    (alert : CommunityAlert.t) (alerts : list CommunityAlert.t) :
  EnhancedDatabaseManager.get_unsent_community_alerts db = Ok alerts ->
  EnhancedDatabaseManager.add_community_alert db alert = Ok (true, db') ->
  exists stored,
    EnhancedDatabaseManager.get_unsent_community_alerts db' = Ok (alerts ++ [stored])
    /\ CommunityAlert.unique_id stored = CommunityAlert.unique_id alert
    /\ CommunityAlert.discovery_timestamp stored = CommunityAlert.discovery_timestamp alert
    /\ CommunityAlert.project_analysis stored = CommunityAlert.project_analysis alert
    /\ CommunityAlert.size_category stored
       = EnhancedDatabaseManager.size_category_of
           (TelegramCommunityInfo.member_count (CommunityAlert.community_info alert))
    /\ CommunityAlert.community_info stored
       = let community_info := CommunityAlert.community_info alert in
         {| TelegramCommunityInfo.title := TelegramCommunityInfo.title community_info;
            TelegramCommunityInfo.username := TelegramCommunityInfo.username community_info;
            TelegramCommunityInfo.member_count :=
              TelegramCommunityInfo.member_count community_info;
            TelegramCommunityInfo.description :=
              TelegramCommunityInfo.description community_info;
            TelegramCommunityInfo.recent_messages := [];
            TelegramCommunityInfo.admin_count :=
              TelegramCommunityInfo.admin_count community_info;
            TelegramCommunityInfo.creation_date :=
              TelegramCommunityInfo.creation_date community_info;
            TelegramCommunityInfo.invite_link :=
              TelegramCommunityInfo.invite_link community_info;
            TelegramCommunityInfo.category := "crypto";
            TelegramCommunityInfo.verified := false;
            TelegramCommunityInfo.restricted := false |}.
Proof.
  intros Hread Hadd.
  destruct (add_community_alert_cases db db' alert true Hadd)
    as [(Hfalse & _) | (_ & Hfresh & r & -> & Hins & _)]; [discriminate Hfalse|].
  unfold EnhancedDatabaseManager.insert_community in Hins. rewrite Hfresh in Hins.
  injection Hins as Hr. apply app_inv_head in Hr. injection Hr as <-.
  unfold EnhancedDatabaseManager.get_unsent_community_alerts in *.
  rewrite List.filter_app, alerts_of_rows_app, Hread, bind_Ok. simpl.
  unfold EnhancedDatabaseManager.alert_of_row. simpl.
  rewrite of_value_value. simpl.
  eexists. split; [reflexivity|]. simpl.
  repeat split; try reflexivity.
  destruct (CommunityAlert.project_analysis alert); reflexivity.
Qed.

Lemma alerts_of_rows_cons_inv (r : EnhancedDatabaseManager.row)
    (rows : list EnhancedDatabaseManager.row) (alerts : list CommunityAlert.t) :
  EnhancedDatabaseManager.alerts_of_rows (r :: rows) = Ok alerts ->
  exists alert rest,
    alerts = alert :: rest
    /\ EnhancedDatabaseManager.alert_of_row r = Ok alert
    /\ EnhancedDatabaseManager.alerts_of_rows rows = Ok rest.
Proof.
  simpl. destruct (EnhancedDatabaseManager.alert_of_row r) as [alert|e]; [|discriminate].
  rewrite bind_Ok.
  destruct (EnhancedDatabaseManager.alerts_of_rows rows) as [rest|e]; [|discriminate].
  rewrite bind_Ok. intros Heq. injection Heq as <-.
  exists alert, rest. repeat split; reflexivity.
Qed.

Lemma alert_of_row_mark (r : EnhancedDatabaseManager.row) :
  EnhancedDatabaseManager.alert_of_row
    {| EnhancedDatabaseManager.id := EnhancedDatabaseManager.id r;
       EnhancedDatabaseManager.unique_id := EnhancedDatabaseManager.unique_id r;
       EnhancedDatabaseManager.title := EnhancedDatabaseManager.title r;
       EnhancedDatabaseManager.username := EnhancedDatabaseManager.username r;
       EnhancedDatabaseManager.member_count := EnhancedDatabaseManager.member_count r;
       EnhancedDatabaseManager.description := EnhancedDatabaseManager.description r;
       EnhancedDatabaseManager.admin_count := EnhancedDatabaseManager.admin_count r;
       EnhancedDatabaseManager.creation_date := EnhancedDatabaseManager.creation_date r;
       EnhancedDatabaseManager.invite_link := EnhancedDatabaseManager.invite_link r;
       EnhancedDatabaseManager.legitimacy_score :=
         EnhancedDatabaseManager.legitimacy_score r;
       EnhancedDatabaseManager.risk_level := EnhancedDatabaseManager.risk_level r;
       EnhancedDatabaseManager.scam_indicators :=
         EnhancedDatabaseManager.scam_indicators r;
       EnhancedDatabaseManager.positive_indicators :=
         EnhancedDatabaseManager.positive_indicators r;
       EnhancedDatabaseManager.tokenomics_analysis :=
         EnhancedDatabaseManager.tokenomics_analysis r;
       EnhancedDatabaseManager.roadmap_quality :=
         EnhancedDatabaseManager.roadmap_quality r;
       EnhancedDatabaseManager.team_analysis := EnhancedDatabaseManager.team_analysis r;
       EnhancedDatabaseManager.sentiment_score :=
         EnhancedDatabaseManager.sentiment_score r;
       EnhancedDatabaseManager.discovery_timestamp :=
         EnhancedDatabaseManager.discovery_timestamp r;
       EnhancedDatabaseManager.sent := true |}
  = EnhancedDatabaseManager.alert_of_row r.
Proof. reflexivity. Qed.

Lemma get_unsent_after_mark (db : EnhancedDatabaseManager.t)
    (uid : string) (alerts : list CommunityAlert.t) :
  EnhancedDatabaseManager.get_unsent_community_alerts db = Ok alerts ->
  EnhancedDatabaseManager.get_unsent_community_alerts
    (EnhancedDatabaseManager.mark_community_alert_sent db uid)
  = Ok (List.filter (fun alert => negb (String.eqb (CommunityAlert.unique_id alert) uid))
          alerts).
Proof.
  unfold EnhancedDatabaseManager.get_unsent_community_alerts,
    EnhancedDatabaseManager.mark_community_alert_sent.
  revert alerts. induction db as [|r db IH]; intros alerts Hread; simpl in *.
  - injection Hread as <-. reflexivity.
  - destruct (EnhancedDatabaseManager.sent r) eqn:Hsent; simpl in Hread.
    + destruct (String.eqb (EnhancedDatabaseManager.unique_id r) uid);
        simpl; rewrite ?Hsent; simpl; apply IH; exact Hread.
    + apply alerts_of_rows_cons_inv in Hread.
      destruct Hread as (alert & rest & -> & Halert & Hrest).
      pose proof (alert_of_row_unique_id r alert Halert) as Huid.
      specialize (IH rest Hrest). simpl. rewrite Huid.
      destruct (String.eqb (EnhancedDatabaseManager.unique_id r) uid); simpl.
      * exact IH.
      * rewrite Hsent. simpl. rewrite Halert, bind_Ok, IH. reflexivity.
Qed.

(** X3. [mark_community_alert_sent] removes from the unsent alerts exactly
    those with the given [unique_id]: the alerts read afterwards are the
    alerts read before, in the same order, without them; and it deletes no
    row and changes no key. *)
Theorem mark_sent_removes_from_unsent (db : EnhancedDatabaseManager.t)
    (uid : string) (alerts : list CommunityAlert.t) :
  EnhancedDatabaseManager.get_unsent_community_alerts db = Ok alerts ->
  EnhancedDatabaseManager.get_unsent_community_alerts
    (EnhancedDatabaseManager.mark_community_alert_sent db uid)
  = Ok (List.filter (fun alert => negb (String.eqb (CommunityAlert.unique_id alert) uid))
          alerts)
  /\ map EnhancedDatabaseManager.unique_id
       (EnhancedDatabaseManager.mark_community_alert_sent db uid)
     = map EnhancedDatabaseManager.unique_id db
  /\ map EnhancedDatabaseManager.id
       (EnhancedDatabaseManager.mark_community_alert_sent db uid)
     = map EnhancedDatabaseManager.id db.
Proof.
  intros Hread. split; [exact (get_unsent_after_mark db uid alerts Hread)|].
  split; [apply mark_sent_unique_id | apply mark_sent_id].
Qed.

(** ** The broadcast *)

Lemma broadcast_loop_unfold (subscribers : list Z)
    (get_user_preferences : Z -> option EnhancedTelegramBot.prefs)
    (alerts : list CommunityAlert.t) :
  forall db outbox,
    EnhancedTelegramBot.broadcast_loop subscribers get_user_preferences alerts db outbox
    = (fold_left EnhancedDatabaseManager.mark_community_alert_sent
         (map CommunityAlert.unique_id alerts) db,
       outbox ++ flat_map (EnhancedTelegramBot.dispatches_for subscribers
                             get_user_preferences) alerts).
Proof.
  induction alerts as [|alert rest IH]; intros db outbox; simpl.
  - rewrite app_nil_r. reflexivity.
  - rewrite IH, <- app_assoc. reflexivity.
Qed.

Lemma get_unsent_after_marks (uids : list string) :
  forall (db : EnhancedDatabaseManager.t) (alerts : list CommunityAlert.t),
    EnhancedDatabaseManager.get_unsent_community_alerts db = Ok alerts ->
    EnhancedDatabaseManager.get_unsent_community_alerts
      (fold_left EnhancedDatabaseManager.mark_community_alert_sent uids db)
    = Ok (List.filter
            (fun alert => negb (existsb (String.eqb (CommunityAlert.unique_id alert)) uids))
            alerts).
Proof.
  induction uids as [|uid uids IH]; intros db alerts Hread; simpl.
  - rewrite Hread. f_equal. clear Hread.
    induction alerts as [|a alerts IHa]; simpl; congruence.
  - rewrite (IH _ _ (get_unsent_after_mark db uid alerts Hread)).
    f_equal. clear Hread. induction alerts as [|a alerts IHa]; simpl; [reflexivity|].
    destruct (String.eqb (CommunityAlert.unique_id a) uid); simpl; [exact IHa|].
    destruct (existsb (String.eqb (CommunityAlert.unique_id a)) uids); simpl;
      congruence.
Qed.

Lemma filter_own_unique_ids (alerts : list CommunityAlert.t) :
  List.filter
    (fun alert => negb (existsb (String.eqb (CommunityAlert.unique_id alert))
                          (map CommunityAlert.unique_id alerts)))
    alerts = [].
Proof.
  assert (Hall : forall alert, In alert alerts ->
    negb (existsb (String.eqb (CommunityAlert.unique_id alert))
            (map CommunityAlert.unique_id alerts)) = false).
  { intros alert Hin. apply negb_false_iff, existsb_exists.
    exists (CommunityAlert.unique_id alert). split; [|apply String.eqb_refl].
    apply in_map. exact Hin. }
  revert Hall. generalize (map CommunityAlert.unique_id alerts) as uids.
  intros uids Hall. induction alerts as [|a alerts IH]; simpl; [reflexivity|].
  rewrite (Hall a (or_introl eq_refl)). apply IH.
  intros alert Hin. apply Hall. right. exact Hin.
Qed.

(** X4. When [broadcast_community_alerts] returns, no alert is left
    unsent, so a broadcast that follows it at once, to whatever
    subscribers, sends nothing and changes nothing. *)
Theorem broadcast_leaves_nothing_unsent (subscribers subscribers' : list Z)
    (get_user_preferences get_user_preferences' : Z -> option EnhancedTelegramBot.prefs)
    (db db' : EnhancedDatabaseManager.t) (outbox : list EnhancedTelegramBot.dispatch) :
  EnhancedTelegramBot.broadcast_community_alerts subscribers get_user_preferences db
  = Ok (db', outbox) ->
  EnhancedDatabaseManager.get_unsent_community_alerts db' = Ok []
  /\ EnhancedTelegramBot.broadcast_community_alerts subscribers' get_user_preferences' db'
     = Ok (db', []).
Proof.
  intros Hrun. unfold EnhancedTelegramBot.broadcast_community_alerts in Hrun.
  destruct (EnhancedDatabaseManager.get_unsent_community_alerts db) as [alerts|e] eqn:Hread;
    [|discriminate Hrun].
  rewrite bind_Ok, broadcast_loop_unfold in Hrun. injection Hrun as <- <-.
  assert (Hnone :
    EnhancedDatabaseManager.get_unsent_community_alerts
      (fold_left EnhancedDatabaseManager.mark_community_alert_sent
         (map CommunityAlert.unique_id alerts) db) = Ok []).
  { rewrite (get_unsent_after_marks _ db alerts Hread), filter_own_unique_ids.
    reflexivity. }
  split; [exact Hnone|].
  unfold EnhancedTelegramBot.broadcast_community_alerts. rewrite Hnone. reflexivity.
Qed.

Lemma should_send_true_iff (alert : CommunityAlert.t) (p : EnhancedTelegramBot.prefs) :
  EnhancedTelegramBot.should_send_community_to_user alert p = true
  <-> EnhancedTelegramBot.telegram_communities p <> Some false
      /\ (default [] (EnhancedTelegramBot.community_size_filters p) = []
          \/ In (CommunitySize.value (CommunityAlert.size_category alert))
                (default [] (EnhancedTelegramBot.community_size_filters p)))
      /\ ProjectAnalysis.risk_level (CommunityAlert.project_analysis alert)
         <> ScamRisk.CRITICAL.
Proof.
  unfold EnhancedTelegramBot.should_send_community_to_user.
  assert (Hin : forall x l, list_in x l = true <-> In x l).
  { intros x l. unfold list_in. rewrite existsb_exists. split.
    - intros [y [Hy Heq]]. apply String.eqb_eq in Heq. subst y. exact Hy.
    - intros Hx. exists x. split; [exact Hx | apply String.eqb_refl]. }
  assert (Htail : forall filters enabled,
    enabled <> Some false ->
    (if match filters with [] => false | _ :: _ => true end
        && negb (list_in (CommunitySize.value (CommunityAlert.size_category alert)) filters)
     then false
     else if bool_decide (ProjectAnalysis.risk_level (CommunityAlert.project_analysis alert)
                          = ScamRisk.CRITICAL)
     then false else true) = true
    <-> enabled <> Some false
        /\ (filters = []
            \/ In (CommunitySize.value (CommunityAlert.size_category alert)) filters)
        /\ ProjectAnalysis.risk_level (CommunityAlert.project_analysis alert)
           <> ScamRisk.CRITICAL).
  { intros filters enabled Hen.
    destruct filters as [|f filters].
    - simpl. case_bool_decide as Hc; split; intros Hx;
        try discriminate Hx; try reflexivity;
        try (destruct Hx as (_ & _ & Hn); contradiction).
      split; [exact Hen|]. split; [left; reflexivity | exact Hc].
    - replace (match f :: filters with [] => false | _ :: _ => true end)
        with true by reflexivity.
      rewrite andb_true_l.
      destruct (list_in (CommunitySize.value (CommunityAlert.size_category alert))
                  (f :: filters)) eqn:Hl; cbn [negb].
      + case_bool_decide as Hc; split; intros Hx;
          try discriminate Hx; try reflexivity;
          try (destruct Hx as (_ & _ & Hn); contradiction).
        split; [exact Hen|]. split; [right; apply Hin; exact Hl | exact Hc].
      + split; [discriminate|].
        intros (_ & [Hnil|Hmem] & _); [discriminate Hnil|].
        apply Hin in Hmem. congruence. }
  destruct (EnhancedTelegramBot.telegram_communities p) as [[|]|] eqn:Hen; simpl.
  - apply Htail. discriminate.
  - split; [discriminate|]. intros [Hne _]. contradiction.
  - apply Htail. discriminate.
Qed.

(** X5. Who receives what: [broadcast_community_alerts] calls
    [send_community_alert(alert, chat_id)] exactly for the unsent alerts and
    the subscribers that have preferences, have not switched Telegram
    communities off, have no size filter or one that lists the alert's size
    range, and only when the alert is not [CRITICAL]. *)
Theorem broadcast_recipients (subscribers : list Z)
    (get_user_preferences : Z -> option EnhancedTelegramBot.prefs)
    (db db' : EnhancedDatabaseManager.t) (alerts : list CommunityAlert.t)
    (outbox : list EnhancedTelegramBot.dispatch)
    (alert : CommunityAlert.t) (chat_id : Z) :
  EnhancedDatabaseManager.get_unsent_community_alerts db = Ok alerts ->
  EnhancedTelegramBot.broadcast_community_alerts subscribers get_user_preferences db
  = Ok (db', outbox) ->
  (In {| EnhancedTelegramBot.dispatch_alert := alert;
         EnhancedTelegramBot.dispatch_chat_id := chat_id |} outbox
   <-> In alert alerts
       /\ In chat_id subscribers
       /\ exists p,
            get_user_preferences chat_id = Some p
            /\ EnhancedTelegramBot.telegram_communities p <> Some false
            /\ (default [] (EnhancedTelegramBot.community_size_filters p) = []
                \/ In (CommunitySize.value (CommunityAlert.size_category alert))
                      (default [] (EnhancedTelegramBot.community_size_filters p)))
            /\ ProjectAnalysis.risk_level (CommunityAlert.project_analysis alert)
               <> ScamRisk.CRITICAL).
Proof.
  intros Hread Hrun. unfold EnhancedTelegramBot.broadcast_community_alerts in Hrun.
  rewrite Hread, bind_Ok, broadcast_loop_unfold in Hrun. injection Hrun as _ <-.
  simpl. rewrite in_flat_map. unfold EnhancedTelegramBot.dispatches_for. split.
  - intros [a [Ha Hd]]. apply in_flat_map in Hd. destruct Hd as [c [Hc Hd]].
    destruct (get_user_preferences c) as [p|] eqn:Hp; [|destruct Hd].
    destruct (EnhancedTelegramBot.should_send_community_to_user a p) eqn:Hsend;
      [|destruct Hd].
    destruct Hd as [Hd|[]]. injection Hd as <- <-.
    split; [exact Ha|]. split; [exact Hc|]. exists p. split; [exact Hp|].
    apply should_send_true_iff. exact Hsend.
  - intros (Ha & Hc & p & Hp & Hsend). exists alert. split; [exact Ha|].
    apply in_flat_map. exists chat_id. split; [exact Hc|].
    rewrite Hp. apply should_send_true_iff in Hsend. rewrite Hsend.
    left. reflexivity.
Qed.

(** ** Size categories and size filters *)

Lemma matches_size_filter_iff (member_count : Z) (size_filters : list CommunitySize.t) :
  TelegramScout.matches_size_filter member_count size_filters = true
  <-> 1 <= member_count <= 500
      /\ In (EnhancedDatabaseManager.size_category_of member_count) size_filters.
Proof.
  induction size_filters as [|size_filter rest IH].
  - simpl. split; [discriminate | intros [_ []]].
  - cbn [TelegramScout.matches_size_filter In]. revert IH.
    unfold EnhancedDatabaseManager.size_category_of.
    destruct size_filter; simpl;
      repeat match goal with
             | |- context [?a <=? ?b] => destruct (Z.leb_spec a b); simpl
             end;
      intros IH; try lia.
    all: split.
    all: try (intros Hx; apply IH in Hx; destruct Hx as [Hb Hin];
              split; [lia | right; assumption]).
    all: try (intros [Hb [Hx|Hx]]; [discriminate Hx | apply IH; split; assumption]).
    all: try (intros _; split; [lia | left; reflexivity]).
    all: try (intros _; reflexivity).
    all: intros [Hb _]; lia.
Qed.

(** X6. A list of size filters matches a member count exactly when the
    count is between 1 and 500 and the list holds the size category that
    the store and the monitoring job compute for it; outside 1 to 500 that
    category is [GROWING] ("201-500") although no filter matches. *)
Theorem size_filter_agrees_with_category (member_count : Z)
    (size_filters : list CommunitySize.t) :
  (TelegramScout.matches_size_filter member_count size_filters = true
   <-> 1 <= member_count <= 500
       /\ In (EnhancedDatabaseManager.size_category_of member_count) size_filters)
  /\ (member_count <= 0 \/ 500 < member_count ->
      EnhancedDatabaseManager.size_category_of member_count = CommunitySize.GROWING
      /\ TelegramScout.matches_size_filter member_count [CommunitySize.GROWING] = false).
Proof.
  split; [apply matches_size_filter_iff|].
  intros Hout. split.
  - unfold EnhancedDatabaseManager.size_category_of.
    repeat match goal with
           | |- context [?a <=? ?b] => destruct (Z.leb_spec a b); simpl
           end; try reflexivity; lia.
  - destruct (TelegramScout.matches_size_filter member_count [CommunitySize.GROWING])
      eqn:Hm; [|reflexivity].
    apply matches_size_filter_iff in Hm. lia.
Qed.

(** ** The monitoring cycle *)

Section Cycle_facts.
Context `{Externals}.
Variable md5_hexdigest : string -> string.
Variable subscribers : list Z.
Variable get_user_preferences : Z -> option EnhancedTelegramBot.prefs.

Lemma analyze_project_without_scout (now : datetime) (self : ProjectAnalyzer.t)
    (community : TelegramCommunityInfo.t) :
  ProjectAnalyzer.scout self = None ->
  ProjectAnalyzer.analyze_project now self community = Raise AttributeError.
Proof.
  intros Hs. unfold ProjectAnalyzer.analyze_project, ProjectAnalyzer.detect_scam_indicators.
  rewrite Hs. reflexivity.
Qed.

Lemma process_community_cases (self : ProjectAnalyzer.t) (analysed discovered : datetime)
    (db : EnhancedDatabaseManager.t) (new_alerts : Z)
    (community : TelegramCommunityInfo.t) :
  let uid :=
    md5_hexdigest (TelegramCommunityInfo.title community
                   +:+ TelegramCommunityInfo.username community) in
  CommunityMonitoring.process_community md5_hexdigest self analysed discovered
    db new_alerts community = (db, new_alerts)
  \/ (EnhancedDatabaseManager.unique_violation db uid = false
      /\ (exists analysis,
            ProjectAnalyzer.analyze_project analysed self community = Ok analysis)
      /\ exists r,
           CommunityMonitoring.process_community md5_hexdigest self analysed discovered
             db new_alerts community = (db ++ [r], new_alerts + 1)
           /\ EnhancedDatabaseManager.unique_id r = uid
           /\ EnhancedDatabaseManager.member_count r
              = TelegramCommunityInfo.member_count community).
Proof.
  cbv zeta. unfold CommunityMonitoring.process_community.
  destruct (ProjectAnalyzer.analyze_project analysed self community) as [analysis|e];
    [|left; reflexivity].
  rewrite bind_Ok.
  unfold EnhancedDatabaseManager.add_community_alert,
    EnhancedDatabaseManager.insert_community.
  change (CommunityAlert.unique_id
            (CommunityMonitoring.make_alert md5_hexdigest discovered community analysis))
    with (md5_hexdigest (TelegramCommunityInfo.title community
                         +:+ TelegramCommunityInfo.username community)).
  destruct (EnhancedDatabaseManager.unique_violation db _); [left; reflexivity|].
  right. split; [reflexivity|]. split; [eexists; reflexivity|].
  eexists. split; [reflexivity|]. split; reflexivity.
Qed.

Lemma process_communities_rows (self : ProjectAnalyzer.t)
    (clock : nat -> datetime * datetime)
    (communities : list TelegramCommunityInfo.t) :
  forall position db new_alerts,
    exists new_rows,
      CommunityMonitoring.process_communities md5_hexdigest self clock position
        db new_alerts communities
      = (db ++ new_rows, new_alerts + Z.of_nat (length new_rows))
      /\ Forall (fun r => exists community,
                   In community communities
                   /\ EnhancedDatabaseManager.member_count r
                      = TelegramCommunityInfo.member_count community
                   /\ EnhancedDatabaseManager.unique_id r
                      = md5_hexdigest (TelegramCommunityInfo.title community
                                       +:+ TelegramCommunityInfo.username community)
                   /\ EnhancedDatabaseManager.unique_violation db
                        (EnhancedDatabaseManager.unique_id r) = false
                   /\ exists now analysis,
                        ProjectAnalyzer.analyze_project now self community = Ok analysis)
           new_rows.
Proof.
  induction communities as [|community rest IH]; intros position db new_alerts.
  - exists []. simpl. rewrite app_nil_r, Z.add_0_r. split; [reflexivity|constructor].
  - cbn [CommunityMonitoring.process_communities].
    destruct (process_community_cases self (clock position).1 (clock position).2
                db new_alerts community)
      as [Hsame | (Hfresh & [analysis Hanalysis] & r & Hnew & Huid & Hcount)].
    + rewrite Hsame.
      destruct (IH (S position) db new_alerts) as [new_rows [Hrun Hall]].
      exists new_rows. split; [exact Hrun|].
      eapply Forall_impl; [exact Hall|].
      intros r (c & Hc & Hrest). exists c. split; [right; exact Hc | exact Hrest].
    + rewrite Hnew.
      destruct (IH (S position) (db ++ [r]) (new_alerts + 1)) as [new_rows [Hrun Hall]].
      exists (r :: new_rows). split.
      * rewrite Hrun, <- app_assoc. simpl. f_equal. lia.
      * constructor.
        -- exists community. split; [left; reflexivity|].
           split; [exact Hcount|]. split; [exact Huid|].
           split; [rewrite Huid; exact Hfresh | eauto].
        -- eapply Forall_impl; [exact Hall|].
           intros r' (c & Hc & Hcnt & Hu & Hv & Hrest). exists c.
           split; [right; exact Hc|]. split; [exact Hcnt|]. split; [exact Hu|].
           split; [|exact Hrest].
           unfold EnhancedDatabaseManager.unique_violation in *.
           rewrite existsb_app in Hv. apply orb_false_iff in Hv. apply Hv.
Qed.

Lemma search_result_matches (size_filters : list CommunitySize.t)
    (chats : list TelegramScout.chat_outcome) (community : TelegramCommunityInfo.t) :
  In community (TelegramScout.search_crypto_communities size_filters chats) ->
  TelegramScout.matches_size_filter (TelegramCommunityInfo.member_count community)
    size_filters = true.
Proof.
  unfold TelegramScout.search_crypto_communities.
  assert (Hgen : forall communities,
    Forall (fun c => TelegramScout.matches_size_filter
                       (TelegramCommunityInfo.member_count c) size_filters = true)
      communities ->
    Forall (fun c => TelegramScout.matches_size_filter
                       (TelegramCommunityInfo.member_count c) size_filters = true)
      (TelegramScout.search_crypto_communities_loop size_filters chats communities)).
  { induction chats as [|chat rest IH]; intros communities Hall; simpl; [exact Hall|].
    destruct chat as [|community_info|e]; [apply IH; exact Hall| |exact Hall].
    destruct (TelegramScout.matches_size_filter
                (TelegramCommunityInfo.member_count community_info) size_filters) eqn:Hm;
      [|apply IH; exact Hall].
    apply IH. apply Forall_app. split; [exact Hall|]. constructor; [exact Hm|constructor]. }
  intros Hin. specialize (Hgen [] ltac:(constructor)).
  rewrite Forall_forall in Hgen. apply Hgen. apply list_elem_of_In. exact Hin.
Qed.

Lemma fold_mark_columns (uids : list string) :
  forall db : EnhancedDatabaseManager.t,
    map EnhancedDatabaseManager.unique_id
      (fold_left EnhancedDatabaseManager.mark_community_alert_sent uids db)
    = map EnhancedDatabaseManager.unique_id db
    /\ map EnhancedDatabaseManager.member_count
         (fold_left EnhancedDatabaseManager.mark_community_alert_sent uids db)
       = map EnhancedDatabaseManager.member_count db.
Proof.
  induction uids as [|uid uids IH]; intros db; simpl; [split; reflexivity|].
  destruct (IH (EnhancedDatabaseManager.mark_community_alert_sent db uid)) as [-> ->].
  split; [apply mark_sent_unique_id|].
  unfold EnhancedDatabaseManager.mark_community_alert_sent.
  induction db as [|r db IHdb]; simpl; [reflexivity|]. rewrite IHdb.
  destruct (String.eqb (EnhancedDatabaseManager.unique_id r) uid); reflexivity.
Qed.

(** X7. With an analyzer that has no [scout] attribute, which is how
    [ProjectAnalyzer.__init__] leaves it, every analysis of a monitoring
    cycle raises, and the cycle stores nothing and sends nothing, whatever
    communities the search finds. *)
Theorem monitoring_without_scout_does_nothing (self : ProjectAnalyzer.t)
    (clock : nat -> datetime * datetime)
    (chats : list TelegramScout.chat_outcome) (db : EnhancedDatabaseManager.t) :
  ProjectAnalyzer.scout self = None ->
  CommunityMonitoring.community_monitoring_cycle md5_hexdigest subscribers
    get_user_preferences self clock chats db = (db, []).
Proof.
  intros Hs. unfold CommunityMonitoring.community_monitoring_cycle. cbv zeta.
  destruct (process_communities_rows self clock
              (TelegramScout.search_crypto_communities
                 CommunityMonitoring.size_filters chats) O db 0)
    as [new_rows [Hrun Hall]].
  rewrite Hrun.
  destruct new_rows as [|r new_rows].
  - simpl. rewrite app_nil_r. reflexivity.
  - exfalso. inversion Hall as [|? ? (c & _ & _ & _ & _ & now & analysis & Hok) _].
    rewrite (analyze_project_without_scout now self c Hs) in Hok. discriminate.
Qed.

(** X8. Whatever a monitoring cycle adds to the store is a community of 1
    to 200 members, whose size category is therefore never [GROWING]; the
    rows that were there keep their place, their [unique_id] and their
    member count. *)
Theorem monitoring_stores_only_small_communities (self : ProjectAnalyzer.t)
    (clock : nat -> datetime * datetime)
    (chats : list TelegramScout.chat_outcome) (db : EnhancedDatabaseManager.t) :
  exists new_rows,
    let db' :=
      (CommunityMonitoring.community_monitoring_cycle md5_hexdigest subscribers
         get_user_preferences self clock chats db).1 in
    map EnhancedDatabaseManager.unique_id db'
    = map EnhancedDatabaseManager.unique_id (db ++ new_rows)
    /\ map EnhancedDatabaseManager.member_count db'
       = map EnhancedDatabaseManager.member_count (db ++ new_rows)
    /\ Forall (fun r =>
                 1 <= EnhancedDatabaseManager.member_count r <= 200
                 /\ EnhancedDatabaseManager.size_category_of
                      (EnhancedDatabaseManager.member_count r)
                    <> CommunitySize.GROWING) new_rows.
Proof.
  unfold CommunityMonitoring.community_monitoring_cycle. cbv zeta.
  destruct (process_communities_rows self clock
              (TelegramScout.search_crypto_communities
                 CommunityMonitoring.size_filters chats) O db 0)
    as [new_rows [Hrun Hall]].
  rewrite Hrun. exists new_rows.
  assert (Hsmall : Forall (fun r =>
                 1 <= EnhancedDatabaseManager.member_count r <= 200
                 /\ EnhancedDatabaseManager.size_category_of
                      (EnhancedDatabaseManager.member_count r)
                    <> CommunitySize.GROWING) new_rows).
  { eapply Forall_impl; [exact Hall|].
    intros r (c & Hc & Hcount & _). rewrite Hcount.
    apply search_result_matches, matches_size_filter_iff in Hc.
    destruct Hc as [Hb Hcat]. revert Hcat.
    unfold EnhancedDatabaseManager.size_category_of, CommunityMonitoring.size_filters.
    repeat match goal with
           | |- context [?a <=? ?b] => destruct (Z.leb_spec a b); simpl
           end;
      intros Hcat; (split; [try lia | try discriminate]);
      try (exfalso; intuition discriminate). }
  destruct (0 + Z.of_nat (length new_rows) >? 0); simpl;
    [|repeat split; exact Hsmall].
  unfold EnhancedTelegramBot.broadcast_community_alerts.
  destruct (EnhancedDatabaseManager.get_unsent_community_alerts (db ++ new_rows))
    as [alerts|e]; simpl; [|repeat split; exact Hsmall].
  rewrite broadcast_loop_unfold. simpl.
  destruct (fold_mark_columns (map CommunityAlert.unique_id alerts) (db ++ new_rows))
    as [-> ->].
  repeat split; exact Hsmall.
Qed.

(** X9. A monitoring cycle broadcasts only after it has stored a new
    alert: when every community that the search finds is already in the
    store, the cycle changes nothing and sends nothing, also when the store
    holds alerts that were never sent. *)
Theorem monitoring_without_new_alert_sends_nothing (self : ProjectAnalyzer.t)
    (clock : nat -> datetime * datetime)
    (chats : list TelegramScout.chat_outcome) (db : EnhancedDatabaseManager.t) :
  (forall community,
     In community (TelegramScout.search_crypto_communities
                     CommunityMonitoring.size_filters chats) ->
     EnhancedDatabaseManager.unique_violation db
       (md5_hexdigest (TelegramCommunityInfo.title community
                       +:+ TelegramCommunityInfo.username community)) = true) ->
  CommunityMonitoring.community_monitoring_cycle md5_hexdigest subscribers
    get_user_preferences self clock chats db = (db, []).
Proof.
  intros Hknown. unfold CommunityMonitoring.community_monitoring_cycle. cbv zeta.
  destruct (process_communities_rows self clock
              (TelegramScout.search_crypto_communities
                 CommunityMonitoring.size_filters chats) O db 0)
    as [new_rows [Hrun Hall]].
  rewrite Hrun.
  destruct new_rows as [|r new_rows].
  - simpl. rewrite app_nil_r. reflexivity.
  - exfalso. inversion Hall as [|? ? (c & Hc & _ & Huid & Hfresh & _) _].
    rewrite Huid, (Hknown c Hc) in Hfresh. discriminate.
Qed.

(** X10. The key of an alert is the hash of title and username written one
    after the other: once a community is stored, a community with the same
    concatenation (the same community found again, with whatever new
    analysis, or another one such as "ab"+"c" against "a"+"bc") is not
    stored, and the stored row stays as it is. *)
Theorem same_title_and_username_stored_once
    (db db1 : EnhancedDatabaseManager.t) (added : bool)
    (community1 community2 : TelegramCommunityInfo.t)
    (analysis1 analysis2 : ProjectAnalysis.t) (discovered1 discovered2 : datetime) :
  TelegramCommunityInfo.title community1 +:+ TelegramCommunityInfo.username community1
  = TelegramCommunityInfo.title community2 +:+ TelegramCommunityInfo.username community2 ->
  EnhancedDatabaseManager.add_community_alert db
    (CommunityMonitoring.make_alert md5_hexdigest discovered1 community1 analysis1)
  = Ok (added, db1) ->
  EnhancedDatabaseManager.add_community_alert db1
    (CommunityMonitoring.make_alert md5_hexdigest discovered2 community2 analysis2)
  = Ok (false, db1).
Proof.
  intros Hsame Hadd. apply add_community_alert_existing.
  change (CommunityAlert.unique_id
            (CommunityMonitoring.make_alert md5_hexdigest discovered2 community2 analysis2))
    with (md5_hexdigest (TelegramCommunityInfo.title community2
                         +:+ TelegramCommunityInfo.username community2)).
  rewrite <- Hsame.
  destruct (add_community_alert_cases db db1 _ added Hadd)
    as [(_ & -> & Hdup) | (_ & _ & r & -> & _ & Huid & _)].
  - exact Hdup.
  - apply unique_violation_true. exists r. split; [|exact Huid].
    apply in_or_app. right. left. reflexivity.
Qed.
End Cycle_facts.

(** ** The scoring engine: counts, monotonicity and the override *)

Lemma count_tagged_app (tag : string) (l1 l2 : list string) :
  ProjectAnalyzer.count_tagged tag (l1 ++ l2)
  = ProjectAnalyzer.count_tagged tag l1 + ProjectAnalyzer.count_tagged tag l2.
Proof.
  unfold ProjectAnalyzer.count_tagged, len.
  rewrite List.filter_app, length_app. lia.
Qed.

Lemma count_tagged_ge (tag : string) (l : list string) :
  0 <= ProjectAnalyzer.count_tagged tag l.
Proof. unfold ProjectAnalyzer.count_tagged, len. lia. Qed.

Lemma count_tagged_all (tag : string) (l : list string) :
  (forall x, In x l -> str_in tag x = true) ->
  ProjectAnalyzer.count_tagged tag l = len l.
Proof.
  intros Hall. unfold ProjectAnalyzer.count_tagged. f_equal.
  induction l as [|x l IH]; simpl; [reflexivity|].
  rewrite (Hall x (or_introl eq_refl)). f_equal. apply IH.
  intros y Hy. apply Hall. right. exact Hy.
Qed.

Lemma count_tagged_none (tag : string) (l : list string) :
  (forall x, In x l -> str_in tag x = false) ->
  ProjectAnalyzer.count_tagged tag l = 0.
Proof.
  intros Hall. unfold ProjectAnalyzer.count_tagged.
  replace (List.filter (fun i => str_in tag i) l) with (@nil string); [reflexivity|].
  induction l as [|x l IH]; simpl; [reflexivity|].
  rewrite (Hall x (or_introl eq_refl)). apply IH.
  intros y Hy. apply Hall. right. exact Hy.
Qed.

Lemma append_matches_len (label : string) (phrases : list string) (text_lower : string) :
  len (ProjectAnalyzer.append_matches label phrases text_lower)
  = len (List.filter (fun phrase => str_in phrase text_lower) phrases).
Proof. unfold ProjectAnalyzer.append_matches, len. rewrite length_map. reflexivity. Qed.

Lemma append_matches_labelled (label : string) (phrases : list string)
    (text_lower x : string) :
  In x (ProjectAnalyzer.append_matches label phrases text_lower) ->
  exists phrase, In phrase phrases /\ x = label +:+ phrase.
Proof.
  unfold ProjectAnalyzer.append_matches. intros Hin.
  apply in_map_iff in Hin. destruct Hin as [phrase [<- Hf]].
  apply filter_In in Hf. exists phrase. split; [apply Hf | reflexivity].
Qed.

(** Whether a tag occurs in the labelled phrases of a lexicon, decided by
    evaluation over the lexicon. *)
Lemma labelled_tag (tag label : string) (phrases : list string) (b : bool) :
  forallb (fun phrase => Bool.eqb (str_in tag (label +:+ phrase)) b) phrases = true ->
  forall text_lower x,
    In x (ProjectAnalyzer.append_matches label phrases text_lower) ->
    str_in tag x = b.
Proof.
  intros Hall text_lower x Hin.
  destruct (append_matches_labelled label phrases text_lower x Hin) as [phrase [Hp ->]].
  rewrite forallb_forall in Hall. specialize (Hall phrase Hp).
  apply Bool.eqb_prop in Hall. exact Hall.
Qed.

Section Counts.
Context `{Externals}.

Lemma detect_scam_indicators_blocks (self : ProjectAnalyzer.t)
    (api_id : Z) (api_hash phone session text : string) :
  ProjectAnalyzer.scout self = Some (TelegramScout.init api_id api_hash phone session) ->
  exists heuristics,
    ProjectAnalyzer.detect_scam_indicators self text
    = Ok (ProjectAnalyzer.append_matches "HIGH RISK: " TelegramScout.high_risk_phrases
            (str_lower text)
          ++ ProjectAnalyzer.append_matches "MEDIUM RISK: "
               TelegramScout.medium_risk_phrases (str_lower text)
          ++ flat_map (fun pattern =>
                         map (fun m => "SUSPICIOUS PATTERN: " +:+ m)
                             (re_findall pattern (str_lower text)))
               TelegramScout.suspicious_patterns
          ++ heuristics)
    /\ incl heuristics ["EXCESSIVE HYPE EMOJIS"; "MULTIPLE SUSPICIOUS LINKS"].
Proof.
  intros Hs. unfold ProjectAnalyzer.detect_scam_indicators. rewrite Hs.
  destruct (scout_lexicons api_id api_hash phone session) as (Hh & Hm & Hp & _).
  cbv zeta in Hh, Hm, Hp.
  unfold getattr. cbv zeta. rewrite !bind_Ok, Hh, !bind_Ok, Hm, !bind_Ok, Hp, !bind_Ok.
  rewrite app_nil_l.
  destruct (str_in "telegram.me" (str_lower text) || str_in "t.me" (str_lower text));
    [destruct (len (re_findall ProjectAnalyzer.tme_link_re (str_lower text)) >? 3)|];
    destruct (len (re_findall ProjectAnalyzer.hype_emojis_re text) >? 10);
    rewrite <- ?app_assoc;
    first [ exists ["EXCESSIVE HYPE EMOJIS"; "MULTIPLE SUSPICIOUS LINKS"];
            split; [reflexivity|]
          | exists ["EXCESSIVE HYPE EMOJIS"]; split; [reflexivity|]
          | exists ["MULTIPLE SUSPICIOUS LINKS"]; split; [reflexivity|]
          | exists []; rewrite ?app_nil_r; split; [reflexivity|] ];
    intros x Hx; simpl in *; tauto.
Qed.

Lemma pattern_block_count (text_lower : string) (patterns : list string) :
  ProjectAnalyzer.count_tagged "SUSPICIOUS PATTERN"
    (flat_map (fun pattern =>
                 map (fun m => "SUSPICIOUS PATTERN: " +:+ m) (re_findall pattern text_lower))
              patterns)
  = len (flat_map (fun pattern => re_findall pattern text_lower) patterns).
Proof.
  rewrite count_tagged_all.
  - unfold len. f_equal.
    induction patterns as [|p ps IH]; simpl; [reflexivity|].
    rewrite !length_app, length_map, IH. reflexivity.
  - intros x Hx. apply in_flat_map in Hx. destruct Hx as [p [_ Hx]].
    apply in_map_iff in Hx. destruct Hx as [m [<- _]].
    apply (str_in_app "SUSPICIOUS PATTERN" (": " +:+ m)).
Qed.

Lemma pattern_block_clean (tag text_lower : string) (patterns : list string) :
  (forall m, str_in tag ("SUSPICIOUS PATTERN: " +:+ m) = str_in tag m) ->
  (forall pattern m,
     In pattern patterns -> In m (re_findall pattern text_lower) -> str_in tag m = false) ->
  ProjectAnalyzer.count_tagged tag
    (flat_map (fun pattern =>
                 map (fun m => "SUSPICIOUS PATTERN: " +:+ m) (re_findall pattern text_lower))
              patterns) = 0.
Proof.
  intros Hlabel Hclean. apply count_tagged_none.
  intros x Hx. apply in_flat_map in Hx. destruct Hx as [p [Hp Hx]].
  apply in_map_iff in Hx. destruct Hx as [m [<- Hm]].
  rewrite Hlabel. exact (Hclean p m Hp Hm).
Qed.

Lemma scam_tag_counts_lemma (self : ProjectAnalyzer.t)
    (api_id : Z) (api_hash phone session text : string) :
  ProjectAnalyzer.scout self = Some (TelegramScout.init api_id api_hash phone session) ->
  (forall pattern m,
     In pattern TelegramScout.suspicious_patterns ->
     In m (re_findall pattern (str_lower text)) ->
     str_in "HIGH RISK" m = false /\ str_in "MEDIUM RISK" m = false) ->
  exists indicators,
    ProjectAnalyzer.detect_scam_indicators self text = Ok indicators
    /\ ProjectAnalyzer.count_tagged "HIGH RISK" indicators
       = len (List.filter (fun phrase => str_in phrase (str_lower text))
                TelegramScout.high_risk_phrases)
    /\ ProjectAnalyzer.count_tagged "MEDIUM RISK" indicators
       = len (List.filter (fun phrase => str_in phrase (str_lower text))
                TelegramScout.medium_risk_phrases)
    /\ ProjectAnalyzer.count_tagged "SUSPICIOUS PATTERN" indicators
       = len (flat_map (fun pattern => re_findall pattern (str_lower text))
                TelegramScout.suspicious_patterns).
Proof.
  intros Hs Hclean.
  destruct (detect_scam_indicators_blocks self api_id api_hash phone session text Hs)
    as [heuristics [Hrun Hheur]].
  exists (ProjectAnalyzer.append_matches "HIGH RISK: " TelegramScout.high_risk_phrases
            (str_lower text)
          ++ ProjectAnalyzer.append_matches "MEDIUM RISK: "
               TelegramScout.medium_risk_phrases (str_lower text)
          ++ flat_map (fun pattern =>
                         map (fun m => "SUSPICIOUS PATTERN: " +:+ m)
                             (re_findall pattern (str_lower text)))
               TelegramScout.suspicious_patterns
          ++ heuristics).
  split; [exact Hrun|].
  assert (Hheur0 : forall tag,
    In tag ["HIGH RISK"; "MEDIUM RISK"; "SUSPICIOUS PATTERN"] ->
    ProjectAnalyzer.count_tagged tag heuristics = 0).
  { intros tag Htag. apply count_tagged_none. intros x Hx. apply Hheur in Hx.
    simpl in Htag, Hx.
    destruct Htag as [<-|[<-|[<-|[]]]]; destruct Hx as [<-|[<-|[]]]; reflexivity. }
  rewrite !count_tagged_app.
  repeat split.
  - rewrite (count_tagged_all "HIGH RISK"
               (ProjectAnalyzer.append_matches "HIGH RISK: " _ _))
      by (apply (labelled_tag _ _ _ true); reflexivity).
    rewrite (count_tagged_none "HIGH RISK"
               (ProjectAnalyzer.append_matches "MEDIUM RISK: " _ _))
      by (apply (labelled_tag _ _ _ false); reflexivity).
    rewrite (pattern_block_clean "HIGH RISK")
      by (first [reflexivity | intros p m Hp Hm; apply (Hclean p m Hp Hm)]).
    rewrite Hheur0 by (simpl; tauto). rewrite append_matches_len. lia.
  - rewrite (count_tagged_none "MEDIUM RISK"
               (ProjectAnalyzer.append_matches "HIGH RISK: " _ _))
      by (apply (labelled_tag _ _ _ false); reflexivity).
    rewrite (count_tagged_all "MEDIUM RISK"
               (ProjectAnalyzer.append_matches "MEDIUM RISK: " _ _))
      by (apply (labelled_tag _ _ _ true); reflexivity).
    rewrite (pattern_block_clean "MEDIUM RISK")
      by (first [reflexivity | intros p m Hp Hm; apply (Hclean p m Hp Hm)]).
    rewrite Hheur0 by (simpl; tauto). rewrite append_matches_len. lia.
  - rewrite (count_tagged_none "SUSPICIOUS PATTERN"
               (ProjectAnalyzer.append_matches "HIGH RISK: " _ _))
      by (apply (labelled_tag _ _ _ false); reflexivity).
    rewrite (count_tagged_none "SUSPICIOUS PATTERN"
               (ProjectAnalyzer.append_matches "MEDIUM RISK: " _ _))
      by (apply (labelled_tag _ _ _ false); reflexivity).
    rewrite pattern_block_count.
    rewrite Hheur0 by (simpl; tauto). lia.
Qed.
End Counts.

Lemma determine_risk_level_critical_iff (score : Q) (indicators : list string) :
  ProjectAnalyzer.determine_risk_level score indicators = ScamRisk.CRITICAL
  <-> 0 < ProjectAnalyzer.count_tagged "HIGH RISK" indicators \/ (score < 20)%Q.
Proof.
  unfold ProjectAnalyzer.determine_risk_level. cbv zeta.
  destruct (ProjectAnalyzer.count_tagged "HIGH RISK" indicators >? 0) eqn:Hc; simpl.
  - apply Z.gtb_lt in Hc. split; [intros _; left; lia | reflexivity].
  - assert (Hn : ~ 0 < ProjectAnalyzer.count_tagged "HIGH RISK" indicators).
    { intros Hp. apply Z.gtb_lt in Hp. congruence. }
    destruct (Qltb score 20) eqn:H20.
    + apply Qltb_lt in H20. split; [intros _; right; exact H20 | reflexivity].
    + apply Qltb_ge in H20.
      assert (Hs : ~ (score < 20)%Q) by (apply Qle_not_lt; exact H20).
      destruct (Qltb score 40); [|destruct (Qltb score 60)];
        (split; [discriminate | intros [Hp|Hq]; contradiction]).
Qed.

Lemma matched_phrase_count (phrases : list string) (text_lower : string) :
  0 < len (List.filter (fun phrase => str_in phrase text_lower) phrases)
  <-> exists phrase, In phrase phrases /\ str_in phrase text_lower = true.
Proof.
  unfold len. split.
  - destruct (List.filter (fun phrase => str_in phrase text_lower) phrases)
      as [|phrase l] eqn:Hf; simpl; [lia|].
    intros _. exists phrase.
    apply (filter_In (fun phrase => str_in phrase text_lower)).
    rewrite Hf. left. reflexivity.
  - intros [phrase Hp].
    apply (filter_In (fun phrase => str_in phrase text_lower)) in Hp.
    destruct (List.filter (fun phrase => str_in phrase text_lower) phrases);
      [destruct Hp | simpl; lia].
Qed.

Section Analyzer_counts.
Context `{Externals}.

(** X11. The tags count what was matched: when no match of a suspicious
    pattern holds the text of a risk tag (matches are pieces of the
    lowercased text), the numbers of indicators that
    [calculate_legitimacy_score] and [determine_risk_level] find under the
    tags HIGH RISK, MEDIUM RISK and SUSPICIOUS PATTERN are the number of
    high-risk phrases in the text, the number of medium-risk phrases in the
    text, and the number of pattern matches; the emoji and link warnings
    count under none of them. *)
Theorem scam_tags_count_matches (self : ProjectAnalyzer.t)
    (api_id : Z) (api_hash phone session text : string) :
  ProjectAnalyzer.scout self = Some (TelegramScout.init api_id api_hash phone session) ->
  (forall pattern m,
     In pattern TelegramScout.suspicious_patterns ->
     In m (re_findall pattern (str_lower text)) ->
     str_in "HIGH RISK" m = false /\ str_in "MEDIUM RISK" m = false) ->
  exists indicators,
    ProjectAnalyzer.detect_scam_indicators self text = Ok indicators
    /\ ProjectAnalyzer.count_tagged "HIGH RISK" indicators
       = len (List.filter (fun phrase => str_in phrase (str_lower text))
                TelegramScout.high_risk_phrases)
    /\ ProjectAnalyzer.count_tagged "MEDIUM RISK" indicators
       = len (List.filter (fun phrase => str_in phrase (str_lower text))
                TelegramScout.medium_risk_phrases)
    /\ ProjectAnalyzer.count_tagged "SUSPICIOUS PATTERN" indicators
       = len (flat_map (fun pattern => re_findall pattern (str_lower text))
                TelegramScout.suspicious_patterns).
Proof. apply scam_tag_counts_lemma. Qed.

(** X12. The override fires for nothing else: under the same premise on
    the pattern matches, the analysis of a community is [CRITICAL] exactly
    when its lowercased text holds a phrase of the high-risk list or its
    legitimacy score is below 20. *)
Theorem critical_iff_high_risk_phrase_or_low_score (now : datetime)
    (self : ProjectAnalyzer.t) (api_id : Z) (api_hash phone session : string)
    (community_info : TelegramCommunityInfo.t) (analysis : ProjectAnalysis.t) :
  ProjectAnalyzer.scout self = Some (TelegramScout.init api_id api_hash phone session) ->
  (forall pattern m,
     In pattern TelegramScout.suspicious_patterns ->
     In m (re_findall pattern (str_lower (ProjectAnalyzer.all_text community_info))) ->
     str_in "HIGH RISK" m = false /\ str_in "MEDIUM RISK" m = false) ->
  ProjectAnalyzer.analyze_project now self community_info = Ok analysis ->
  (ProjectAnalysis.risk_level analysis = ScamRisk.CRITICAL
   <-> (exists phrase,
          In phrase TelegramScout.high_risk_phrases
          /\ str_in phrase (str_lower (ProjectAnalyzer.all_text community_info)) = true)
       \/ (ProjectAnalysis.legitimacy_score analysis < 20)%Q).
Proof.
  intros Hs Hclean Hrun.
  destruct (scam_tag_counts_lemma self api_id api_hash phone session
              (ProjectAnalyzer.all_text community_info) Hs Hclean)
    as (indicators & Hscam & Hhigh & _).
  unfold ProjectAnalyzer.analyze_project in Hrun. cbv zeta in Hrun.
  rewrite Hscam, bind_Ok in Hrun.
  destruct (ProjectAnalyzer.detect_positive_indicators self
              (ProjectAnalyzer.all_text community_info)) as [positive|e];
    [|discriminate Hrun].
  rewrite bind_Ok in Hrun. injection Hrun as <-. simpl.
  rewrite determine_risk_level_critical_iff, Hhigh, matched_phrase_count.
  reflexivity.
Qed.
End Analyzer_counts.

Section Positive_counts.
Context `{Externals}.

Lemma detect_positive_indicators_blocks (self : ProjectAnalyzer.t)
    (api_id : Z) (api_hash phone session text : string) :
  ProjectAnalyzer.scout self = Some (TelegramScout.init api_id api_hash phone session) ->
  exists signs,
    ProjectAnalyzer.detect_positive_indicators self text
    = Ok (ProjectAnalyzer.append_matches "POSITIVE: " TelegramScout.positive_phrases
            (str_lower text)
          ++ ProjectAnalyzer.append_matches "TEAM: " TelegramScout.team_phrases
               (str_lower text)
          ++ ProjectAnalyzer.append_matches "TECHNICAL: " TelegramScout.tech_phrases
               (str_lower text)
          ++ signs)
    /\ incl signs ["GITHUB REPOSITORY"; "SECURITY AUDIT"; "DOCUMENTATION"].
Proof.
  intros Hs. unfold ProjectAnalyzer.detect_positive_indicators. rewrite Hs.
  destruct (scout_lexicons api_id api_hash phone session) as (_ & _ & _ & Hp & Ht & Hx).
  cbv zeta in Hp, Ht, Hx.
  unfold getattr. cbv zeta. rewrite !bind_Ok, Hp, !bind_Ok, Ht, !bind_Ok, Hx, !bind_Ok.
  rewrite app_nil_l.
  destruct (str_in "github.com" (str_lower text));
    destruct (existsb (fun word => str_in word (str_lower text))
                ["audit"; "certik"; "peckshield"]);
    destruct (str_in "whitepaper" (str_lower text) || str_in "lite paper" (str_lower text));
    rewrite <- ?app_assoc;
    (eexists; split;
     [ first [ reflexivity | rewrite app_nil_r; reflexivity ] | ]);
    intros x Hx'; simpl in *; tauto.
Qed.

(** X13. The positive tags count what was matched: the numbers of
    indicators that [calculate_legitimacy_score] finds under POSITIVE, TEAM
    and TECHNICAL are the numbers of phrases of the three legitimacy
    lexicons in the lowercased text, so the additional signs GITHUB
    REPOSITORY, SECURITY AUDIT and DOCUMENTATION do not enter the score. *)
Theorem positive_tags_count_matches (self : ProjectAnalyzer.t)
    (api_id : Z) (api_hash phone session text : string) :
  ProjectAnalyzer.scout self = Some (TelegramScout.init api_id api_hash phone session) ->
  exists indicators,
    ProjectAnalyzer.detect_positive_indicators self text = Ok indicators
    /\ ProjectAnalyzer.count_tagged "POSITIVE" indicators
       = len (List.filter (fun phrase => str_in phrase (str_lower text))
                TelegramScout.positive_phrases)
    /\ ProjectAnalyzer.count_tagged "TEAM" indicators
       = len (List.filter (fun phrase => str_in phrase (str_lower text))
                TelegramScout.team_phrases)
    /\ ProjectAnalyzer.count_tagged "TECHNICAL" indicators
       = len (List.filter (fun phrase => str_in phrase (str_lower text))
                TelegramScout.tech_phrases).
Proof.
  intros Hs.
  destruct (detect_positive_indicators_blocks self api_id api_hash phone session text Hs)
    as [signs [Hrun Hsigns]].
  eexists. split; [exact Hrun|].
  assert (Hsigns0 : forall tag,
    In tag ["POSITIVE"; "TEAM"; "TECHNICAL"] ->
    ProjectAnalyzer.count_tagged tag signs = 0).
  { intros tag Htag. apply count_tagged_none. intros x Hx. apply Hsigns in Hx.
    simpl in Htag, Hx.
    destruct Htag as [<-|[<-|[<-|[]]]]; destruct Hx as [<-|[<-|[<-|[]]]]; reflexivity. }
  rewrite !count_tagged_app.
  repeat split.
  - rewrite (count_tagged_all "POSITIVE"
               (ProjectAnalyzer.append_matches "POSITIVE: " _ _))
      by (apply (labelled_tag _ _ _ true); reflexivity).
    rewrite (count_tagged_none "POSITIVE" (ProjectAnalyzer.append_matches "TEAM: " _ _))
      by (apply (labelled_tag _ _ _ false); reflexivity).
    rewrite (count_tagged_none "POSITIVE"
               (ProjectAnalyzer.append_matches "TECHNICAL: " _ _))
      by (apply (labelled_tag _ _ _ false); reflexivity).
    rewrite Hsigns0 by (simpl; tauto). rewrite append_matches_len. lia.
  - rewrite (count_tagged_none "TEAM"
               (ProjectAnalyzer.append_matches "POSITIVE: " _ _))
      by (apply (labelled_tag _ _ _ false); reflexivity).
    rewrite (count_tagged_all "TEAM" (ProjectAnalyzer.append_matches "TEAM: " _ _))
      by (apply (labelled_tag _ _ _ true); reflexivity).
    rewrite (count_tagged_none "TEAM"
               (ProjectAnalyzer.append_matches "TECHNICAL: " _ _))
      by (apply (labelled_tag _ _ _ false); reflexivity).
    rewrite Hsigns0 by (simpl; tauto). rewrite append_matches_len. lia.
  - rewrite (count_tagged_none "TECHNICAL"
               (ProjectAnalyzer.append_matches "POSITIVE: " _ _))
      by (apply (labelled_tag _ _ _ false); reflexivity).
    rewrite (count_tagged_none "TECHNICAL" (ProjectAnalyzer.append_matches "TEAM: " _ _))
      by (apply (labelled_tag _ _ _ false); reflexivity).
    rewrite (count_tagged_all "TECHNICAL"
               (ProjectAnalyzer.append_matches "TECHNICAL: " _ _))
      by (apply (labelled_tag _ _ _ true); reflexivity).
    rewrite Hsigns0 by (simpl; tauto). rewrite append_matches_len. lia.
Qed.
End Positive_counts.

Lemma determine_risk_level_monotone (score1 score2 : Q) (indicators1 indicators2 : list string) :
  (score1 <= score2)%Q ->
  ProjectAnalyzer.count_tagged "HIGH RISK" indicators2
    <= ProjectAnalyzer.count_tagged "HIGH RISK" indicators1 ->
  risk_severity (ProjectAnalyzer.determine_risk_level score2 indicators2)
  <= risk_severity (ProjectAnalyzer.determine_risk_level score1 indicators1).
Proof.
  intros Hscore Hcount. unfold ProjectAnalyzer.determine_risk_level. cbv zeta.
  destruct (ProjectAnalyzer.count_tagged "HIGH RISK" indicators1 >? 0) eqn:H1;
    destruct (ProjectAnalyzer.count_tagged "HIGH RISK" indicators2 >? 0) eqn:H2;
    cbn [orb].
  - cbn. lia.
  - destruct (Qltb score2 20); [|destruct (Qltb score2 40); [|destruct (Qltb score2 60)]];
      cbn; lia.
  - apply Z.gtb_lt in H2.
    assert (~ 0 < ProjectAnalyzer.count_tagged "HIGH RISK" indicators1)
      by (intros Hp; apply Z.gtb_lt in Hp; congruence).
    lia.
  - destruct (Qltb score1 20) eqn:A1; destruct (Qltb score1 40) eqn:A2;
      destruct (Qltb score1 60) eqn:A3;
      destruct (Qltb score2 20) eqn:B1; destruct (Qltb score2 40) eqn:B2;
      destruct (Qltb score2 60) eqn:B3; cbn; try lia;
      repeat match goal with
             | Hb : Qltb _ _ = true |- _ => apply Qltb_lt in Hb
             | Hb : Qltb _ _ = false |- _ => apply Qltb_ge in Hb
             end;
      exfalso; lra.
Qed.

Lemma clamp_Q_monotone (x y : Q) :
  (x <= y)%Q -> (ProjectAnalyzer.clamp_0_100 x <= ProjectAnalyzer.clamp_0_100 y)%Q.
Proof.
  intros Hxy. unfold ProjectAnalyzer.clamp_0_100.
  apply Q.max_le_compat_l, Q.min_le_compat_l. exact Hxy.
Qed.

Lemma calculate_legitimacy_score_monotone (now : datetime)
    (scam1 scam2 positive1 positive2 : list string)
    (community_info : TelegramCommunityInfo.t) :
  (forall tag, ProjectAnalyzer.count_tagged tag scam1
               <= ProjectAnalyzer.count_tagged tag scam2) ->
  (forall tag, ProjectAnalyzer.count_tagged tag positive2
               <= ProjectAnalyzer.count_tagged tag positive1) ->
  (ProjectAnalyzer.calculate_legitimacy_score now scam2 positive2 community_info
   <= ProjectAnalyzer.calculate_legitimacy_score now scam1 positive1 community_info)%Q.
Proof.
  intros Hscam Hpos. unfold ProjectAnalyzer.calculate_legitimacy_score. cbv zeta.
  apply clamp_Q_monotone.
  pose proof (Hscam "HIGH RISK") as Hh. pose proof (Hscam "MEDIUM RISK") as Hm.
  pose proof (Hscam "SUSPICIOUS PATTERN") as Hs.
  pose proof (Hpos "POSITIVE") as Hp. pose proof (Hpos "TEAM") as Ht.
  pose proof (Hpos "TECHNICAL") as Hx.
  assert (Hh' : (inject_Z (ProjectAnalyzer.count_tagged "HIGH RISK" scam1 * 20)
                 <= inject_Z (ProjectAnalyzer.count_tagged "HIGH RISK" scam2 * 20))%Q)
    by (rewrite <- Zle_Qle; lia).
  assert (Hm' : (inject_Z (ProjectAnalyzer.count_tagged "MEDIUM RISK" scam1 * 10)
                 <= inject_Z (ProjectAnalyzer.count_tagged "MEDIUM RISK" scam2 * 10))%Q)
    by (rewrite <- Zle_Qle; lia).
  assert (Hs' : (inject_Z (ProjectAnalyzer.count_tagged "SUSPICIOUS PATTERN" scam1 * 5)
                 <= inject_Z (ProjectAnalyzer.count_tagged "SUSPICIOUS PATTERN" scam2 * 5))%Q)
    by (rewrite <- Zle_Qle; lia).
  assert (Hp' : (inject_Z (ProjectAnalyzer.count_tagged "POSITIVE" positive2 * 8)
                 <= inject_Z (ProjectAnalyzer.count_tagged "POSITIVE" positive1 * 8))%Q)
    by (rewrite <- Zle_Qle; lia).
  assert (Ht' : (inject_Z (ProjectAnalyzer.count_tagged "TEAM" positive2 * 12)
                 <= inject_Z (ProjectAnalyzer.count_tagged "TEAM" positive1 * 12))%Q)
    by (rewrite <- Zle_Qle; lia).
  assert (Hx' : (inject_Z (ProjectAnalyzer.count_tagged "TECHNICAL" positive2 * 10)
                 <= inject_Z (ProjectAnalyzer.count_tagged "TECHNICAL" positive1 * 10))%Q)
    by (rewrite <- Zle_Qle; lia).
  destruct (TelegramCommunityInfo.admin_count community_info >? 1);
    destruct (TelegramCommunityInfo.verified community_info);
    destruct (TelegramCommunityInfo.restricted community_info);
    destruct (TelegramCommunityInfo.creation_date community_info) as [creation_date|];
    try destruct (timedelta_days now creation_date >? 30);
    lra.
Qed.

(** X14. More warnings never help: with further scam indicators the
    legitimacy score is not higher and the risk tier not less severe, and
    with further positive indicators the score is not lower and the tier
    not more severe. *)
Theorem indicators_move_score_one_way (now : datetime)
    (scam positive extra : list string) (community_info : TelegramCommunityInfo.t) :
  ((ProjectAnalyzer.calculate_legitimacy_score now (scam ++ extra) positive community_info
    <= ProjectAnalyzer.calculate_legitimacy_score now scam positive community_info)%Q
   /\ risk_severity
        (ProjectAnalyzer.determine_risk_level
           (ProjectAnalyzer.calculate_legitimacy_score now scam positive community_info)
           scam)
      <= risk_severity
           (ProjectAnalyzer.determine_risk_level
              (ProjectAnalyzer.calculate_legitimacy_score now (scam ++ extra) positive
                 community_info)
              (scam ++ extra)))
  /\ ((ProjectAnalyzer.calculate_legitimacy_score now scam positive community_info
       <= ProjectAnalyzer.calculate_legitimacy_score now scam (positive ++ extra)
            community_info)%Q
      /\ risk_severity
           (ProjectAnalyzer.determine_risk_level
              (ProjectAnalyzer.calculate_legitimacy_score now scam (positive ++ extra)
                 community_info)
              scam)
         <= risk_severity
              (ProjectAnalyzer.determine_risk_level
                 (ProjectAnalyzer.calculate_legitimacy_score now scam positive
                    community_info)
                 scam)).
Proof.
  assert (Hmore : forall tag l,
    ProjectAnalyzer.count_tagged tag l <= ProjectAnalyzer.count_tagged tag (l ++ extra)).
  { intros tag l. rewrite count_tagged_app. pose proof (count_tagged_ge tag extra). lia. }
  assert (Hscam :
    (ProjectAnalyzer.calculate_legitimacy_score now (scam ++ extra) positive community_info
     <= ProjectAnalyzer.calculate_legitimacy_score now scam positive community_info)%Q).
  { apply calculate_legitimacy_score_monotone; [intros tag; apply Hmore | intros tag; lia]. }
  assert (Hpos :
    (ProjectAnalyzer.calculate_legitimacy_score now scam positive community_info
     <= ProjectAnalyzer.calculate_legitimacy_score now scam (positive ++ extra)
          community_info)%Q).
  { apply calculate_legitimacy_score_monotone; [intros tag; lia | intros tag; apply Hmore]. }
  split; split; try assumption.
  - apply determine_risk_level_monotone; [exact Hscam | apply Hmore].
  - apply determine_risk_level_monotone; [exact Hpos | lia].
Qed.

(** ** The needs deriver: errors and the shape of its result *)

Lemma identify_project_needs_not_number (basic_info : BasicInfo.t)
    (social_analysis : SocialAnalysis.t) (technical_analysis : TechnicalAnalysis.t)
    (team_analysis : TeamAnalysis.t) (community_analysis : CommunityAnalysis.t) :
  (forall q, ProjectResearcher.market_cap_of basic_info <> PyNum q) ->
  ProjectResearcher.identify_project_needs basic_info social_analysis technical_analysis
    team_analysis community_analysis = Raise TypeError.
Proof.
  intros Hcap. unfold ProjectResearcher.identify_project_needs.
  destruct (ProjectResearcher.market_cap_of basic_info) as [|q|s|l];
    [ | exfalso; exact (Hcap q eq_refl) | | ];
    needs_cases social_analysis technical_analysis team_analysis; reflexivity.
Qed.

(** X16. [identify_project_needs] returns exactly when the market cap read
    from [basic_info] is a number; otherwise ([None], a string, a list) it
    raises [TypeError], and it raises nothing else: the five strategies
    that it indexes are all in [pitch_strategies]. *)
Theorem identify_project_needs_errors (basic_info : BasicInfo.t)
    (social_analysis : SocialAnalysis.t) (technical_analysis : TechnicalAnalysis.t)
    (team_analysis : TeamAnalysis.t) (community_analysis : CommunityAnalysis.t) :
  match ProjectResearcher.market_cap_of basic_info with
  | PyNum _ =>
      exists needs,
        ProjectResearcher.identify_project_needs basic_info social_analysis
          technical_analysis team_analysis community_analysis = Ok needs
  | PyNone | PyStr _ | PyList _ =>
      ProjectResearcher.identify_project_needs basic_info social_analysis
        technical_analysis team_analysis community_analysis = Raise TypeError
  end.
Proof.
  destruct (ProjectResearcher.market_cap_of basic_info) as [|q|s|l] eqn:Hcap.
  - apply identify_project_needs_not_number. intros q. rewrite Hcap. discriminate.
  - destruct (identify_project_needs_maturity basic_info social_analysis
                technical_analysis team_analysis community_analysis q Hcap)
      as [needs [Hok _]].
    exists needs. exact Hok.
  - apply identify_project_needs_not_number. intros q. rewrite Hcap. discriminate.
  - apply identify_project_needs_not_number. intros q. rewrite Hcap. discriminate.
Qed.

Lemma identify_project_needs_number (basic_info : BasicInfo.t)
    (social_analysis : SocialAnalysis.t) (technical_analysis : TechnicalAnalysis.t)
    (team_analysis : TeamAnalysis.t) (community_analysis : CommunityAnalysis.t)
    (needs : ProjectNeeds.t) :
  ProjectResearcher.identify_project_needs basic_info social_analysis technical_analysis
    team_analysis community_analysis = Ok needs ->
  exists q, ProjectResearcher.market_cap_of basic_info = PyNum q.
Proof.
  intros Hok.
  destruct (ProjectResearcher.market_cap_of basic_info) as [|q|s|l] eqn:Hcap;
    [ | exists q; reflexivity | | ];
    rewrite identify_project_needs_not_number in Hok
      by (intros q'; rewrite Hcap; discriminate);
    discriminate Hok.
Qed.

Lemma identify_project_needs_shape (basic_info : BasicInfo.t)
    (social_analysis : SocialAnalysis.t) (technical_analysis : TechnicalAnalysis.t)
    (team_analysis : TeamAnalysis.t) (community_analysis : CommunityAnalysis.t)
    (needs : ProjectNeeds.t) :
  ProjectResearcher.identify_project_needs basic_info social_analysis technical_analysis
    team_analysis community_analysis = Ok needs ->
  (exists high medium : nat,
     map JobOpportunity.urgency (ProjectNeeds.job_opportunities needs)
     = repeat "high" high ++ repeat "medium" medium
     /\ (high <= 3)%nat /\ (1 <= medium <= 4)%nat)
  /\ NoDup (map JobOpportunity.category (ProjectNeeds.job_opportunities needs))
  /\ In JobCategory.GRAPHICS_DESIGN
       (map JobOpportunity.category (ProjectNeeds.job_opportunities needs))
  /\ length (ProjectNeeds.missing_elements needs)
     = length (ProjectNeeds.improvement_areas needs).
Proof.
  intros Hok.
  destruct (identify_project_needs_number _ _ _ _ _ _ Hok) as [q Hcap].
  unfold ProjectResearcher.identify_project_needs in Hok. rewrite Hcap in Hok.
  unfold py_lt_int in Hok.
  destruct (Qltb q (inject_Z 10000000));
    needs_cases social_analysis technical_analysis team_analysis;
    injection Hok as <-;
    lazy [map ProjectNeeds.job_opportunities JobOpportunity.urgency
          JobOpportunity.category ProjectResearcher.create_job_opportunity app
          ProjectNeeds.missing_elements ProjectNeeds.improvement_areas];
    (split;
     [ match goal with
       | |- context [?urgencies = _] =>
           exists (length (List.filter (fun u => String.eqb u "high") urgencies)),
                  (length (List.filter (fun u => String.eqb u "medium") urgencies))
       end;
       vm_compute; split; [reflexivity | lia]
     | split;
       [ apply (bool_decide_unpack _); vm_compute; exact I
       | split; [simpl; tauto | reflexivity] ] ]).
Qed.

(** X17. The shape of the opportunities: whenever [identify_project_needs]
    returns, the opportunities of urgency "high" come first and are at most
    three, the others have urgency "medium" and are one to four, no
    category occurs twice, a graphics-design opportunity is always among
    them, and [missing_elements] and [improvement_areas] have the same
    length. *)
Theorem job_opportunities_shape (basic_info : BasicInfo.t)
    (social_analysis : SocialAnalysis.t) (technical_analysis : TechnicalAnalysis.t)
    (team_analysis : TeamAnalysis.t) (community_analysis : CommunityAnalysis.t)
    (needs : ProjectNeeds.t) :
  ProjectResearcher.identify_project_needs basic_info social_analysis technical_analysis
    team_analysis community_analysis = Ok needs ->
  (exists high medium : nat,
     map JobOpportunity.urgency (ProjectNeeds.job_opportunities needs)
     = repeat "high" high ++ repeat "medium" medium
     /\ (high <= 3)%nat /\ (1 <= medium <= 4)%nat)
  /\ NoDup (map JobOpportunity.category (ProjectNeeds.job_opportunities needs))
  /\ In JobCategory.GRAPHICS_DESIGN
       (map JobOpportunity.category (ProjectNeeds.job_opportunities needs))
  /\ length (ProjectNeeds.missing_elements needs)
     = length (ProjectNeeds.improvement_areas needs).
Proof. apply identify_project_needs_shape. Qed.

(** ** The research pipeline *)

Lemma avg_score_lt (social technical team k : Z) :
  Qltb (ProjectResearcher.avg_score social technical team) (inject_Z k)
  = (social + technical + team <? 3 * k).
Proof.
  unfold Qltb, Qle_bool, ProjectResearcher.avg_score. simpl.
  destruct (Z.ltb_spec (social + technical + team) (3 * k));
    [apply negb_true_iff | apply negb_false_iff];
    [apply Z.leb_gt | apply Z.leb_le]; lia.
Qed.

Lemma avg_score_gt (social technical team k : Z) :
  Qgtb (ProjectResearcher.avg_score social technical team) (inject_Z k)
  = (3 * k <? social + technical + team).
Proof.
  unfold Qgtb, Qltb, Qle_bool, ProjectResearcher.avg_score. simpl.
  destruct (Z.ltb_spec (3 * k) (social + technical + team));
    [apply negb_true_iff | apply negb_false_iff];
    [apply Z.leb_gt | apply Z.leb_le]; lia.
Qed.

Lemma social_score_cases (basic_info : BasicInfo.t) :
  let social := ProjectResearcher.analyze_social_presence basic_info in
  In (SocialAnalysis.overall_score social) [0; 10; 15; 55]
  /\ SocialAnalysis.overall_score social
     = ProjectResearcher.calculate_social_media_score social
  /\ Discord.present (SocialAnalysis.discord social) = false
  /\ ~ In "discord" (SocialAnalysis.missing_platforms social)
  /\ Telegram.members (SocialAnalysis.telegram social) = 0.
Proof.
  unfold ProjectResearcher.analyze_social_presence. cbv zeta.
  destruct (truthy (dict_get (BasicInfo.social_links basic_info) "twitter"));
    destruct (truthy (dict_get (BasicInfo.social_links basic_info) "telegram"));
    simpl; repeat split; try tauto; intuition discriminate.
Qed.

Lemma technical_score_cases (basic_info : BasicInfo.t)
    (technical : TechnicalAnalysis.t) :
  ProjectResearcher.analyze_technical_aspects basic_info = Ok technical ->
  In (TechnicalAnalysis.technical_score technical) [0; 20; 40]
  /\ TechnicalAnalysis.technical_score technical
     = ProjectResearcher.calculate_technical_score technical.
Proof.
  unfold ProjectResearcher.analyze_technical_aspects. cbv zeta.
  destruct (truthy (dict_get_default (BasicInfo.social_links basic_info) "github"
                      (PyList []))) eqn:Htruthy.
  - destruct (dict_get_default (BasicInfo.social_links basic_info) "github" (PyList []))
      as [|q|s|l]; try discriminate.
    + destruct s as [|c s]; [discriminate Htruthy|].
      rewrite bind_Ok. destruct (str_truthy (BasicInfo.website basic_info));
        intros Heq; injection Heq as <-; simpl; tauto.
    + destruct l as [|x l]; [discriminate Htruthy|].
      rewrite bind_Ok. destruct (str_truthy (BasicInfo.website basic_info));
        intros Heq; injection Heq as <-; simpl.
      all: unfold ProjectResearcher.analyze_github_presence, len; simpl.
      all: split; [|reflexivity]; simpl; tauto.
  - rewrite bind_Ok. destruct (str_truthy (BasicInfo.website basic_info));
      intros Heq; injection Heq as <-; simpl; tauto.
Qed.

Section Pipeline.
Context `{Externals}.

Lemma team_score_cases (basic_info : BasicInfo.t) :
  let team := ProjectResearcher.analyze_team basic_info in
  (TeamAnalysis.transparency team = "anonymous" /\ TeamAnalysis.team_score team = 0
   \/ TeamAnalysis.transparency team = "low" /\ TeamAnalysis.team_score team = 10
   \/ TeamAnalysis.transparency team = "medium" /\ TeamAnalysis.team_score team = 30)
  /\ TeamAnalysis.team_score team = ProjectResearcher.calculate_team_score team.
Proof.
  unfold ProjectResearcher.analyze_team. cbv zeta.
  destruct (len (List.filter
                   (fun keyword => str_in keyword
                                     (str_lower (BasicInfo.description basic_info)))
                   ["team"; "founder"; "ceo"; "developer"; "advisor"]) =? 0);
    [|destruct (len (List.filter
                       (fun keyword => str_in keyword
                                         (str_lower (BasicInfo.description basic_info)))
                       ["team"; "founder"; "ceo"; "developer"; "advisor"]) <? 3)];
    simpl; split; try reflexivity; tauto.
Qed.

Lemma tokenomics_score_range (basic_info : BasicInfo.t) :
  let tokenomics := ProjectResearcher.analyze_tokenomics_deep basic_info in
  25 <= TokenomicsAnalysis.tokenomics_score tokenomics <= 95
  /\ TokenomicsAnalysis.tokenomics_score tokenomics
     = ProjectResearcher.calculate_tokenomics_score tokenomics.
Proof.
  unfold ProjectResearcher.analyze_tokenomics_deep. cbv zeta.
  destruct (str_in "unlimited supply" (str_lower (BasicInfo.description basic_info)));
    destruct (str_in "burn" (str_lower (BasicInfo.description basic_info)));
    destruct (str_in "staking" (str_lower (BasicInfo.description basic_info)));
    destruct (str_in "governance" (str_lower (BasicInfo.description basic_info)));
    simpl; split; try reflexivity; unfold ProjectResearcher.calculate_tokenomics_score,
      ProjectResearcher.clamp_0_100, len; simpl; lia.
Qed.

(** X15. What the research pipeline can score: for every project the
    social score is 0, 10, 15 or 55, the technical score 0, 20 or 40, the
    team score 0, 10 or 30 with transparency never "high", the tokenomics
    score between 25 and 95 and the community score 50; Discord is neither
    found nor reported missing; and each stored score is the value that its
    [calculate_] function gives on the finished analysis. *)
Theorem pipeline_score_ranges (basic_info : BasicInfo.t)
    (technical : TechnicalAnalysis.t) :
  ProjectResearcher.analyze_technical_aspects basic_info = Ok technical ->
  let social := ProjectResearcher.analyze_social_presence basic_info in
  let team := ProjectResearcher.analyze_team basic_info in
  let tokenomics := ProjectResearcher.analyze_tokenomics_deep basic_info in
  let community := ProjectResearcher.analyze_community_health basic_info in
  (In (SocialAnalysis.overall_score social) [0; 10; 15; 55]
   /\ SocialAnalysis.overall_score social
      = ProjectResearcher.calculate_social_media_score social
   /\ Discord.present (SocialAnalysis.discord social) = false
   /\ ~ In "discord" (SocialAnalysis.missing_platforms social))
  /\ (In (TechnicalAnalysis.technical_score technical) [0; 20; 40]
      /\ TechnicalAnalysis.technical_score technical
         = ProjectResearcher.calculate_technical_score technical)
  /\ (In (TeamAnalysis.team_score team) [0; 10; 30]
      /\ TeamAnalysis.transparency team <> "high"
      /\ TeamAnalysis.team_score team = ProjectResearcher.calculate_team_score team)
  /\ (25 <= TokenomicsAnalysis.tokenomics_score tokenomics <= 95
      /\ TokenomicsAnalysis.tokenomics_score tokenomics
         = ProjectResearcher.calculate_tokenomics_score tokenomics)
  /\ (CommunityAnalysis.community_score community = 50
      /\ CommunityAnalysis.community_score community
         = ProjectResearcher.calculate_community_score community).
Proof.
  intros Htech. cbv zeta.
  destruct (social_score_cases basic_info) as (Hs1 & Hs2 & Hs3 & Hs4 & _).
  destruct (team_score_cases basic_info) as (Ht1 & Ht2).
  split; [repeat split; assumption|].
  split; [exact (technical_score_cases basic_info technical Htech)|].
  split.
  { split; [|split; [|exact Ht2]];
      destruct Ht1 as [[Ha Hb]|[[Ha Hb]|[Ha Hb]]]; rewrite ?Ha, ?Hb;
      simpl; try tauto; discriminate. }
  split; [exact (tokenomics_score_range basic_info)|].
  split; reflexivity.
Qed.
End Pipeline.

(** ** The result of a project research *)

Lemma identify_project_needs_weak (basic_info : BasicInfo.t)
    (social_analysis : SocialAnalysis.t) (technical_analysis : TechnicalAnalysis.t)
    (team_analysis : TeamAnalysis.t) (community_analysis : CommunityAnalysis.t)
    (needs : ProjectNeeds.t) :
  ProjectResearcher.identify_project_needs basic_info social_analysis technical_analysis
    team_analysis community_analysis = Ok needs ->
  (SocialAnalysis.overall_score social_analysis <? 70) = true ->
  (Telegram.members (SocialAnalysis.telegram social_analysis) <? 1000) = true ->
  (TeamAnalysis.team_score team_analysis <? 50) = true ->
  (SocialAnalysis.overall_score social_analysis >? 70) = false ->
  (TechnicalAnalysis.technical_score technical_analysis >? 70) = false ->
  (TeamAnalysis.team_score team_analysis >? 70) = false ->
  ProjectNeeds.strengths needs = []
  /\ In JobCategory.COMMUNITY_MANAGEMENT
       (map JobOpportunity.category (ProjectNeeds.job_opportunities needs))
  /\ In JobCategory.PR_MARKETING
       (map JobOpportunity.category (ProjectNeeds.job_opportunities needs))
  /\ In JobCategory.GRAPHICS_DESIGN
       (map JobOpportunity.category (ProjectNeeds.job_opportunities needs)).
Proof.
  intros Hok Hs Hmembers Hm Hs70 Ht70 Hm70.
  destruct (identify_project_needs_number _ _ _ _ _ _ Hok) as [q Hcap].
  unfold ProjectResearcher.identify_project_needs in Hok.
  rewrite Hcap, Hs70, Ht70, Hm70 in Hok. unfold py_lt_int in Hok.
  destruct (Qltb q (inject_Z 10000000));
    needs_cases social_analysis technical_analysis team_analysis;
    try discriminate Hs; try discriminate Hmembers; try discriminate Hm;
    injection Hok as <-; (split; [reflexivity|]); simpl; tauto.
Qed.

Lemma legitimacy_risk_by_sum (basic_info : BasicInfo.t)
    (social_analysis : SocialAnalysis.t) (technical_analysis : TechnicalAnalysis.t)
    (team_analysis : TeamAnalysis.t) :
  let sum := SocialAnalysis.overall_score social_analysis
             + TechnicalAnalysis.technical_score technical_analysis
             + TeamAnalysis.team_score team_analysis in
  let analysis :=
    ProjectResearcher.create_legitimacy_analysis basic_info social_analysis
      technical_analysis team_analysis in
  ProjectAnalysis.risk_level analysis
  = (if 210 <? sum then ScamRisk.LOW
     else if 150 <? sum then ScamRisk.MEDIUM
     else if 90 <? sum then ScamRisk.HIGH
     else ScamRisk.CRITICAL)
  /\ ProjectAnalysis.legitimacy_score analysis
     = ProjectResearcher.avg_score (SocialAnalysis.overall_score social_analysis)
         (TechnicalAnalysis.technical_score technical_analysis)
         (TeamAnalysis.team_score team_analysis).
Proof.
  cbv zeta. unfold ProjectResearcher.create_legitimacy_analysis. cbv zeta.
  destruct (String.eqb (TeamAnalysis.transparency team_analysis) "anonymous");
    destruct (TechnicalAnalysis.technical_score technical_analysis <? 30);
    destruct (TechnicalAnalysis.technical_score technical_analysis >? 70);
    destruct (SocialAnalysis.overall_score social_analysis <? 20);
    destruct (SocialAnalysis.overall_score social_analysis >? 60);
    cbn [ProjectAnalysis.risk_level ProjectAnalysis.legitimacy_score];
    (split; [|reflexivity]);
    change 70%Q with (inject_Z 70); change 50%Q with (inject_Z 50);
    change 30%Q with (inject_Z 30);
    rewrite !avg_score_gt; reflexivity.
Qed.

Lemma legitimacy_indicators (basic_info : BasicInfo.t)
    (social_analysis : SocialAnalysis.t) (technical_analysis : TechnicalAnalysis.t)
    (team_analysis : TeamAnalysis.t) :
  let analysis :=
    ProjectResearcher.create_legitimacy_analysis basic_info social_analysis
      technical_analysis team_analysis in
  ProjectAnalyzer.count_tagged "HIGH RISK" (ProjectAnalysis.scam_indicators analysis)
  = (if TechnicalAnalysis.technical_score technical_analysis <? 30 then 1 else 0)
  /\ (In "POSITIVE: Strong technical foundation" (ProjectAnalysis.positive_indicators analysis)
      <-> 70 < TechnicalAnalysis.technical_score technical_analysis)
  /\ (In "POSITIVE: Good social media presence" (ProjectAnalysis.positive_indicators analysis)
      <-> 60 < SocialAnalysis.overall_score social_analysis)
  /\ (forall indicator, In indicator (ProjectAnalysis.positive_indicators analysis) ->
      In indicator ["POSITIVE: Team information available";
                    "POSITIVE: Strong technical foundation";
                    "POSITIVE: Good social media presence"]).
Proof.
  cbv zeta. unfold ProjectResearcher.create_legitimacy_analysis. cbv zeta.
  destruct (String.eqb (TeamAnalysis.transparency team_analysis) "anonymous");
    destruct (Z.ltb_spec (TechnicalAnalysis.technical_score technical_analysis) 30);
    destruct (Z.gtb_spec (TechnicalAnalysis.technical_score technical_analysis) 70);
    destruct (Z.ltb_spec (SocialAnalysis.overall_score social_analysis) 20);
    destruct (Z.gtb_spec (SocialAnalysis.overall_score social_analysis) 60);
    try lia;
    cbn [ProjectAnalysis.scam_indicators ProjectAnalysis.positive_indicators app];
    (split; [vm_compute; reflexivity|]);
    (split; [split; [simpl; intros Hin; try lia;
                     repeat (destruct Hin as [Hin|Hin]; try discriminate Hin); tauto
                    | intros Hlt; try lia; simpl; tauto]|]);
    (split; [split; [simpl; intros Hin; try lia;
                     repeat (destruct Hin as [Hin|Hin]; try discriminate Hin); tauto
                    | intros Hlt; try lia; simpl; tauto]|]);
    intros indicator; simpl; tauto.
Qed.

(** X20. The two risk scales of the program: the research path reads the
    tier of its legitimacy score (the mean of the social, technical and
    team scores) from the thresholds 70, 50 and 30 alone, although it
    writes "HIGH RISK: Poor technical foundation" among the indicators when
    the technical score is below 30.  So on the score and the indicators of
    a research, [determine_risk_level] (the scale of the community path)
    answers CRITICAL whenever the technical score is below 30, also where
    the research says LOW (sum of the three scores above 210); and when the
    technical score is at least 30, the research is never less severe than
    [determine_risk_level]. *)
Theorem research_risk_against_determine_risk_level (basic_info : BasicInfo.t)
    (social_analysis : SocialAnalysis.t) (technical_analysis : TechnicalAnalysis.t)
    (team_analysis : TeamAnalysis.t) :
  let sum := SocialAnalysis.overall_score social_analysis
             + TechnicalAnalysis.technical_score technical_analysis
             + TeamAnalysis.team_score team_analysis in
  let analysis :=
    ProjectResearcher.create_legitimacy_analysis basic_info social_analysis
      technical_analysis team_analysis in
  let community_scale :=
    ProjectAnalyzer.determine_risk_level (ProjectAnalysis.legitimacy_score analysis)
      (ProjectAnalysis.scam_indicators analysis) in
  (TechnicalAnalysis.technical_score technical_analysis < 30 ->
   community_scale = ScamRisk.CRITICAL
   /\ In "HIGH RISK: Poor technical foundation" (ProjectAnalysis.scam_indicators analysis)
   /\ (210 < sum -> ProjectAnalysis.risk_level analysis = ScamRisk.LOW))
  /\ (30 <= TechnicalAnalysis.technical_score technical_analysis ->
      risk_severity community_scale
      <= risk_severity (ProjectAnalysis.risk_level analysis)).
Proof.
  cbv zeta.
  destruct (legitimacy_risk_by_sum basic_info social_analysis technical_analysis
              team_analysis) as [Hrisk Hscore].
  destruct (legitimacy_indicators basic_info social_analysis technical_analysis
              team_analysis) as (Hcount & _).
  unfold ProjectAnalyzer.determine_risk_level. cbv zeta.
  rewrite Hrisk, Hscore, Hcount.
  change 20%Q with (inject_Z 20). change 40%Q with (inject_Z 40).
  change 60%Q with (inject_Z 60). rewrite !avg_score_lt.
  split.
  - intros Hlow.
    destruct (Z.ltb_spec (TechnicalAnalysis.technical_score technical_analysis) 30);
      [|lia].
    split; [reflexivity|]. split.
    + unfold ProjectResearcher.create_legitimacy_analysis. cbv zeta.
      destruct (String.eqb (TeamAnalysis.transparency team_analysis) "anonymous");
        destruct (Z.ltb_spec (TechnicalAnalysis.technical_score technical_analysis) 30);
        try lia;
        destruct (SocialAnalysis.overall_score social_analysis <? 20);
        destruct (SocialAnalysis.overall_score social_analysis >? 60);
        simpl; tauto.
    + intros Hsum.
      destruct (Z.ltb_spec 210
                  (SocialAnalysis.overall_score social_analysis
                   + TechnicalAnalysis.technical_score technical_analysis
                   + TeamAnalysis.team_score team_analysis)); [reflexivity|lia].
  - intros Hok.
    destruct (Z.ltb_spec (TechnicalAnalysis.technical_score technical_analysis) 30);
      [lia|].
    cbn [Z.gtb Z.compare orb].
    repeat match goal with
           | |- context [?a <? ?b] => destruct (Z.ltb_spec a b)
           end; cbn; lia.
Qed.

Section Research.
Context `{Externals}.

(** X18. What a research can conclude: whenever
    [research_project_comprehensive] returns, the project has no strength,
    its maturity is "early" or "developing" and never "mature", the risk
    level of its legitimacy analysis is HIGH or CRITICAL, the only positive
    indicator it can carry is "POSITIVE: Team information available", and
    its opportunities always include community management, PR and
    marketing, and graphics design.  The scores that the pipeline can
    reach (social at most 55, technical at most 40, team at most 30) leave
    no other outcome. *)
Theorem research_result_limits (now : datetime) (project_identifier : string)
    (basic_info : BasicInfo.t) (analysis : ProjectResearcher.ComprehensiveProjectAnalysis.t) :
  ProjectResearcher.research_project_comprehensive now project_identifier basic_info
  = Ok analysis ->
  let needs := ProjectResearcher.ComprehensiveProjectAnalysis.project_needs analysis in
  let legitimacy :=
    ProjectResearcher.ComprehensiveProjectAnalysis.legitimacy_analysis analysis in
  ProjectNeeds.strengths needs = []
  /\ In (ProjectNeeds.overall_maturity needs) ["early"; "developing"]
  /\ In (ProjectAnalysis.risk_level legitimacy) [ScamRisk.HIGH; ScamRisk.CRITICAL]
  /\ (forall indicator, In indicator (ProjectAnalysis.positive_indicators legitimacy) ->
      indicator = "POSITIVE: Team information available")
  /\ In JobCategory.COMMUNITY_MANAGEMENT
       (map JobOpportunity.category (ProjectNeeds.job_opportunities needs))
  /\ In JobCategory.PR_MARKETING
       (map JobOpportunity.category (ProjectNeeds.job_opportunities needs))
  /\ In JobCategory.GRAPHICS_DESIGN
       (map JobOpportunity.category (ProjectNeeds.job_opportunities needs)).
Proof.
  intros Hres. unfold ProjectResearcher.research_project_comprehensive in Hres.
  cbv zeta in Hres.
  destruct (ProjectResearcher.analyze_technical_aspects basic_info)
    as [technical|e] eqn:Htech; [|discriminate Hres].
  rewrite bind_Ok in Hres.
  destruct (ProjectResearcher.identify_project_needs basic_info
              (ProjectResearcher.analyze_social_presence basic_info) technical
              (ProjectResearcher.analyze_team basic_info)
              (ProjectResearcher.analyze_community_health basic_info))
    as [needs|e] eqn:Hneeds; [|discriminate Hres].
  rewrite bind_Ok in Hres. injection Hres as <-.
  cbv zeta.
  cbn [ProjectResearcher.ComprehensiveProjectAnalysis.project_needs
       ProjectResearcher.ComprehensiveProjectAnalysis.legitimacy_analysis].
  destruct (social_score_cases basic_info) as (Hs & _ & _ & _ & Hmembers).
  destruct (technical_score_cases basic_info technical Htech) as (Ht & _).
  destruct (team_score_cases basic_info) as (Hm & _).
  cbv zeta in Hs, Hmembers, Hm.
  assert (Hsb : 0 <= SocialAnalysis.overall_score
                       (ProjectResearcher.analyze_social_presence basic_info) <= 55)
    by (simpl in Hs; lia).
  assert (Htb : 0 <= TechnicalAnalysis.technical_score technical <= 40)
    by (simpl in Ht; lia).
  assert (Hmb : 0 <= TeamAnalysis.team_score (ProjectResearcher.analyze_team basic_info)
                <= 30) by lia.
  destruct (identify_project_needs_weak _ _ _ _ _ _ Hneeds)
    as (Hstrengths & Hcm & Hpr & Hgd).
  { apply Z.ltb_lt. lia. }
  { rewrite Hmembers. reflexivity. }
  { apply Z.ltb_lt. lia. }
  { rewrite Z.gtb_ltb. apply Z.ltb_ge. lia. }
  { rewrite Z.gtb_ltb. apply Z.ltb_ge. lia. }
  { rewrite Z.gtb_ltb. apply Z.ltb_ge. lia. }
  split; [exact Hstrengths|].
  split.
  { destruct (identify_project_needs_number _ _ _ _ _ _ Hneeds) as [q Hcap].
    destruct (identify_project_needs_maturity basic_info
                (ProjectResearcher.analyze_social_presence basic_info) technical
                (ProjectResearcher.analyze_team basic_info)
                (ProjectResearcher.analyze_community_health basic_info) q Hcap)
      as (needs' & Hok & Hlabel).
    rewrite Hneeds in Hok. injection Hok as <-. rewrite Hlabel.
    unfold ProjectResearcher.maturity_label.
    change 40%Q with (inject_Z 40). change 70%Q with (inject_Z 70).
    rewrite !avg_score_lt.
    repeat match goal with
           | |- context [?a <? ?b] => destruct (Z.ltb_spec a b)
           end; simpl; try tauto; lia. }
  split.
  { destruct (legitimacy_risk_by_sum basic_info
                (ProjectResearcher.analyze_social_presence basic_info) technical
                (ProjectResearcher.analyze_team basic_info)) as [Hrisk _].
    cbv zeta in Hrisk. rewrite Hrisk.
    repeat match goal with
           | |- context [?a <? ?b] => destruct (Z.ltb_spec a b)
           end; simpl; try tauto; lia. }
  split; [|tauto].
  intros indicator Hin.
  destruct (legitimacy_indicators basic_info
              (ProjectResearcher.analyze_social_presence basic_info) technical
              (ProjectResearcher.analyze_team basic_info)) as (_ & Htech70 & Hsoc60 & Hall).
  cbv zeta in Htech70, Hsoc60, Hall.
  destruct (Hall indicator Hin) as [<-|[<-|[<-|[]]]].
  - reflexivity.
  - apply Htech70 in Hin. lia.
  - apply Hsoc60 in Hin. lia.
Qed.

(** The errors of a research whose description is a string. *)
Lemma research_of_strings_errors (now : datetime) (project_identifier : string)
    (basic_info : BasicInfo.t) :
  let github :=
    dict_get_default (BasicInfo.social_links basic_info) "github" (PyList []) in
  let github_is_number := exists q, github = PyNum q /\ truthy github = true in
  let market_cap_is_number :=
    exists q, ProjectResearcher.market_cap_of basic_info = PyNum q in
  match ProjectResearcher.research_project_comprehensive now project_identifier
          basic_info with
  | Ok analysis =>
      ~ github_is_number /\ market_cap_is_number
      /\ ProjectResearcher.ComprehensiveProjectAnalysis.project_name analysis
         = BasicInfo.name basic_info
      /\ ProjectResearcher.ComprehensiveProjectAnalysis.project_description analysis
         = BasicInfo.description basic_info
      /\ ProjectResearcher.ComprehensiveProjectAnalysis.sources_analyzed analysis
         = BasicInfo.sources basic_info
      /\ ProjectResearcher.ComprehensiveProjectAnalysis.research_timestamp analysis = now
  | Raise e =>
      e = TypeError /\ (github_is_number \/ ~ market_cap_is_number)
  end.
Proof.
  cbv zeta. unfold ProjectResearcher.research_project_comprehensive. cbv zeta.
  destruct (ProjectResearcher.analyze_technical_aspects basic_info)
    as [technical|e] eqn:Htech.
  - rewrite bind_Ok.
    assert (Hgithub : ~ exists q,
               dict_get_default (BasicInfo.social_links basic_info) "github" (PyList [])
               = PyNum q
               /\ truthy (dict_get_default (BasicInfo.social_links basic_info) "github"
                            (PyList [])) = true).
    { intros (q & Hq & Htruthy).
      unfold ProjectResearcher.analyze_technical_aspects in Htech. cbv zeta in Htech.
      rewrite Htruthy, Hq in Htech. discriminate Htech. }
    destruct (ProjectResearcher.identify_project_needs basic_info
                (ProjectResearcher.analyze_social_presence basic_info) technical
                (ProjectResearcher.analyze_team basic_info)
                (ProjectResearcher.analyze_community_health basic_info))
      as [needs|e] eqn:Hneeds.
    + rewrite bind_Ok. simpl.
      split; [exact Hgithub|]. split; [|tauto].
      exact (identify_project_needs_number _ _ _ _ _ _ Hneeds).
    + simpl.
      destruct (ProjectResearcher.market_cap_of basic_info) as [|q|s|l] eqn:Hcap.
      * rewrite identify_project_needs_not_number in Hneeds
          by (intros q; rewrite Hcap; discriminate).
        injection Hneeds as <-. split; [reflexivity|]. right.
        intros [q Hq]. discriminate Hq.
      * destruct (identify_project_needs_maturity basic_info
                    (ProjectResearcher.analyze_social_presence basic_info) technical
                    (ProjectResearcher.analyze_team basic_info)
                    (ProjectResearcher.analyze_community_health basic_info) q Hcap)
          as (needs' & Hok & _).
        rewrite Hneeds in Hok. discriminate Hok.
      * rewrite identify_project_needs_not_number in Hneeds
          by (intros q; rewrite Hcap; discriminate).
        injection Hneeds as <-. split; [reflexivity|]. right.
        intros [q Hq]. discriminate Hq.
      * rewrite identify_project_needs_not_number in Hneeds
          by (intros q; rewrite Hcap; discriminate).
        injection Hneeds as <-. split; [reflexivity|]. right.
        intros [q Hq]. discriminate Hq.
  - simpl.
    unfold ProjectResearcher.analyze_technical_aspects in Htech. cbv zeta in Htech.
    destruct (truthy (dict_get_default (BasicInfo.social_links basic_info) "github"
                        (PyList []))) eqn:Htruthy.
    + destruct (dict_get_default (BasicInfo.social_links basic_info) "github" (PyList []))
        as [|q|s|l] eqn:Hgithub.
      * discriminate Htruthy.
      * simpl in Htech. injection Htech as <-. split; [reflexivity|].
        left. exists q. split; reflexivity.
      * rewrite bind_Ok in Htech.
        destruct (str_truthy (BasicInfo.website basic_info)); discriminate Htech.
      * rewrite bind_Ok in Htech.
        destruct (str_truthy (BasicInfo.website basic_info)); discriminate Htech.
    + rewrite bind_Ok in Htech.
      destruct (str_truthy (BasicInfo.website basic_info)); discriminate Htech.
Qed.

(** X19. When a research fails, for a [basic_info] whose description is
    whatever the market-data API answered: [research_project_comprehensive]
    raises [TypeError] when the ['github'] entry of the social links is a
    non-zero number ([len] of a number); else it raises [AttributeError]
    when the description is not a string, for instance a JSON null
    ([description.lower()] in [analyze_team]); else it raises [TypeError]
    when the market cap is not a number; and in no other case does it
    raise: it then returns an analysis that carries the description, the
    sources and the time of the research. *)
Theorem research_errors (now : datetime) (project_identifier : string)
    (basic_info : BasicInfo.t) (description : pyval) :
  let github :=
    dict_get_default (BasicInfo.social_links basic_info) "github" (PyList []) in
  let github_is_number := exists q, github = PyNum q /\ truthy github = true in
  let description_is_string := exists text, description = PyStr text in
  let market_cap_is_number :=
    exists q, ProjectResearcher.market_cap_of basic_info = PyNum q in
  match ApiResearch.research_project_comprehensive now project_identifier basic_info
          description with
  | Ok analysis =>
      ~ github_is_number /\ market_cap_is_number
      /\ description
         = PyStr (ProjectResearcher.ComprehensiveProjectAnalysis.project_description
                    analysis)
      /\ ProjectResearcher.ComprehensiveProjectAnalysis.sources_analyzed analysis
         = BasicInfo.sources basic_info
      /\ ProjectResearcher.ComprehensiveProjectAnalysis.research_timestamp analysis = now
  | Raise e =>
      (github_is_number /\ e = TypeError)
      \/ (~ github_is_number /\ ~ description_is_string /\ e = AttributeError)
      \/ (~ github_is_number /\ description_is_string /\ ~ market_cap_is_number
          /\ e = TypeError)
  end.
Proof.
  cbv zeta. unfold ApiResearch.research_project_comprehensive.
  destruct (ProjectResearcher.analyze_technical_aspects basic_info)
    as [technical|e] eqn:Htech.
  - assert (Hgithub : ~ exists q,
               dict_get_default (BasicInfo.social_links basic_info) "github" (PyList [])
               = PyNum q
               /\ truthy (dict_get_default (BasicInfo.social_links basic_info) "github"
                            (PyList [])) = true).
    { intros (q & Hq & Htruthy).
      unfold ProjectResearcher.analyze_technical_aspects in Htech. cbv zeta in Htech.
      rewrite Htruthy, Hq in Htech. discriminate Htech. }
    rewrite bind_Ok.
    destruct description as [|q|text|l]; simpl.
    + right. left. split; [exact Hgithub|]. split; [|reflexivity].
      intros [text Htext]. discriminate Htext.
    + right. left. split; [exact Hgithub|]. split; [|reflexivity].
      intros [text Htext]. discriminate Htext.
    + pose proof (research_of_strings_errors now project_identifier
                    (ApiResearch.with_description basic_info text)) as Htyped.
      cbv zeta in Htyped.
      destruct (ProjectResearcher.research_project_comprehensive now project_identifier
                  (ApiResearch.with_description basic_info text)) as [analysis|e].
      * destruct Htyped as (_ & Hcap & _ & Hdescription & Hsources & Hnow).
        split; [exact Hgithub|]. split; [exact Hcap|].
        split; [rewrite Hdescription; reflexivity|].
        split; [exact Hsources | exact Hnow].
      * destruct Htyped as (-> & [Hnumber | Hcap]).
        -- left. split; [exact Hnumber | reflexivity].
        -- right. right. split; [exact Hgithub|].
           split; [exists text; reflexivity|]. split; [exact Hcap | reflexivity].
    + right. left. split; [exact Hgithub|]. split; [|reflexivity].
      intros [text Htext]. discriminate Htext.
  - simpl. left.
    unfold ProjectResearcher.analyze_technical_aspects in Htech. cbv zeta in Htech.
    destruct (truthy (dict_get_default (BasicInfo.social_links basic_info) "github"
                        (PyList []))) eqn:Htruthy.
    + destruct (dict_get_default (BasicInfo.social_links basic_info) "github" (PyList []))
        as [|q|s|l] eqn:Hgithub.
      * discriminate Htruthy.
      * simpl in Htech. injection Htech as <-.
        split; [exists q; split; reflexivity | reflexivity].
      * rewrite bind_Ok in Htech.
        destruct (str_truthy (BasicInfo.website basic_info)); discriminate Htech.
      * rewrite bind_Ok in Htech.
        destruct (str_truthy (BasicInfo.website basic_info)); discriminate Htech.
    + rewrite bind_Ok in Htech.
      destruct (str_truthy (BasicInfo.website basic_info)); discriminate Htech.
Qed.
End Research.

(** A project whose description the API answered with a JSON null: the
    research stops in [analyze_team]. *)
Example research_null_description_raises_AttributeError :
  @ApiResearch.research_project_comprehensive Ascii_runtime.externals Sample.a_day
    "acme" Sample.small_cap_project PyNone = Raise AttributeError
  /\ exists analysis,
       @ApiResearch.research_project_comprehensive Ascii_runtime.externals Sample.a_day
         "acme" Sample.small_cap_project
         (PyStr (BasicInfo.description Sample.small_cap_project)) = Ok analysis.
Proof.
  split; [vm_compute; reflexivity|].
  destruct (@ApiResearch.research_project_comprehensive Ascii_runtime.externals
              Sample.a_day "acme" Sample.small_cap_project
              (PyStr (BasicInfo.description Sample.small_cap_project)))
    as [analysis|e] eqn:Hrun;
    pose proof Hrun as Hcomputed; vm_compute in Hcomputed; [|discriminate Hcomputed].
  exists analysis. reflexivity.
Qed.

(** ** The action plan *)

Lemma priority_actions_fold (label : JobOpportunity.t -> string)
    (jobs : list JobOpportunity.t) :
  forall actions,
    fold_left
      (fun priority_actions job =>
         if String.eqb (JobOpportunity.urgency job) "high"
         then priority_actions ++ [label job]
         else priority_actions) jobs actions
    = actions
      ++ map label
           (List.filter (fun j => String.eqb (JobOpportunity.urgency j) "high") jobs).
Proof.
  induction jobs as [|job jobs IH]; intros actions; simpl.
  - rewrite app_nil_r. reflexivity.
  - rewrite IH. destruct (String.eqb (JobOpportunity.urgency job) "high"); simpl.
    + rewrite <- app_assoc. reflexivity.
    + reflexivity.
Qed.

Lemma no_high_urgency (jobs : list JobOpportunity.t) (medium : nat) :
  map JobOpportunity.urgency jobs = repeat "medium" medium ->
  forall n,
    List.filter (fun j => String.eqb (JobOpportunity.urgency j) "high") (take n jobs) = [].
Proof.
  revert medium. induction jobs as [|job jobs IH]; intros medium Hmap n.
  - destruct n; reflexivity.
  - destruct medium as [|medium]; [discriminate Hmap|].
    simpl in Hmap. injection Hmap as Hjob Hrest.
    destruct n as [|n]; [reflexivity|]. simpl. rewrite Hjob. simpl.
    exact (IH medium Hrest n).
Qed.

Lemma high_urgency_first (jobs : list JobOpportunity.t) (high medium : nat) :
  map JobOpportunity.urgency jobs = repeat "high" high ++ repeat "medium" medium ->
  forall n, (high <= n)%nat ->
    List.filter (fun j => String.eqb (JobOpportunity.urgency j) "high") (take n jobs)
    = take high jobs
    /\ List.filter (fun j => String.eqb (JobOpportunity.urgency j) "high") jobs
       = take high jobs
    /\ length (take high jobs) = high.
Proof.
  revert jobs. induction high as [|high IH]; intros jobs Hmap n Hn.
  - simpl in Hmap. rewrite take_0.
    split; [exact (no_high_urgency jobs medium Hmap n)|].
    split; [|reflexivity].
    pose proof (no_high_urgency jobs medium Hmap (length jobs)) as Hall.
    rewrite firstn_all in Hall. exact Hall.
  - destruct jobs as [|job jobs]; [discriminate Hmap|].
    simpl in Hmap. injection Hmap as Hjob Hrest.
    destruct n as [|n]; [lia|].
    destruct (IH jobs Hrest n ltac:(lia)) as (Htake & Hall & Hlen).
    simpl. rewrite Hjob. simpl. rewrite Htake, Hall, Hlen. repeat split; reflexivity.
Qed.

(** X21. No urgent opportunity is cut off: for the needs that
    [identify_project_needs] returns, the priority actions that
    [format_action_plan] lists from the first three opportunities are all
    the opportunities of urgency "high", in their order, so the number of
    actions listed is the number printed as "Time-Sensitive Opportunities",
    and it is at most three. *)
Theorem priority_actions_cover_time_sensitive (str_title : string -> string)
    (basic_info : BasicInfo.t)
    (social_analysis : SocialAnalysis.t) (technical_analysis : TechnicalAnalysis.t)
    (team_analysis : TeamAnalysis.t) (community_analysis : CommunityAnalysis.t)
    (analysis : ProjectResearcher.ComprehensiveProjectAnalysis.t) :
  ProjectResearcher.identify_project_needs basic_info social_analysis technical_analysis
    team_analysis community_analysis
  = Ok (ProjectResearcher.ComprehensiveProjectAnalysis.project_needs analysis) ->
  ActionPlan.priority_actions str_title analysis
  = map (fun job =>
           "🔥 **"
           +:+ str_title (replace_char "_" " "
                            (JobCategory.value (JobOpportunity.category job)))
           +:+ "** - Act within 48 hours")
        (List.filter (fun j => String.eqb (JobOpportunity.urgency j) "high")
           (ProjectNeeds.job_opportunities
              (ProjectResearcher.ComprehensiveProjectAnalysis.project_needs analysis)))
  /\ len (ActionPlan.priority_actions str_title analysis)
     = ActionPlan.time_sensitive_opportunities analysis
  /\ 0 <= ActionPlan.time_sensitive_opportunities analysis <= 3.
Proof.
  intros Hneeds.
  destruct (identify_project_needs_shape _ _ _ _ _ _ Hneeds)
    as ((high & medium & Hmap & Hhigh & _) & _).
  destruct (high_urgency_first _ high medium Hmap 3%nat Hhigh) as (Htake & Hall & Hlen).
  unfold ActionPlan.priority_actions, ActionPlan.time_sensitive_opportunities, slice_to.
  rewrite priority_actions_fold. simpl app.
  rewrite Htake, Hall. split; [reflexivity|].
  unfold len. rewrite length_map, Hlen. split; [reflexivity|lia].
Qed.

(** ** What an analysis reads of a community *)

Section Reads.
Context `{Externals}.

(** X22. What the analysis of a community reads: the title, the
    description, the first ten of the recent messages, the number of
    admins, the verified and restricted flags and the creation date.  Two
    communities that agree on these get the same analysis, whatever their
    member counts, usernames, invite links and later messages; a phrase in
    the eleventh message is never seen. *)
Theorem analysis_reads_first_ten_messages (now : datetime) (self : ProjectAnalyzer.t)
    (community1 community2 : TelegramCommunityInfo.t) :
  TelegramCommunityInfo.title community1 = TelegramCommunityInfo.title community2 ->
  TelegramCommunityInfo.description community1
  = TelegramCommunityInfo.description community2 ->
  slice_to 10 (TelegramCommunityInfo.recent_messages community1)
  = slice_to 10 (TelegramCommunityInfo.recent_messages community2) ->
  TelegramCommunityInfo.admin_count community1
  = TelegramCommunityInfo.admin_count community2 ->
  TelegramCommunityInfo.verified community1 = TelegramCommunityInfo.verified community2 ->
  TelegramCommunityInfo.restricted community1
  = TelegramCommunityInfo.restricted community2 ->
  TelegramCommunityInfo.creation_date community1
  = TelegramCommunityInfo.creation_date community2 ->
  ProjectAnalyzer.analyze_project now self community1
  = ProjectAnalyzer.analyze_project now self community2.
Proof.
  intros Htitle Hdescription Hmessages Hadmins Hverified Hrestricted Hdate.
  assert (Htext : ProjectAnalyzer.all_text community1
                  = ProjectAnalyzer.all_text community2).
  { unfold ProjectAnalyzer.all_text.
    rewrite Htitle, Hdescription, Hmessages. reflexivity. }
  assert (Hscore : forall scam positive,
             ProjectAnalyzer.calculate_legitimacy_score now scam positive community1
             = ProjectAnalyzer.calculate_legitimacy_score now scam positive community2).
  { intros scam positive. unfold ProjectAnalyzer.calculate_legitimacy_score.
    rewrite Hadmins, Hverified, Hrestricted, Hdate. reflexivity. }
  unfold ProjectAnalyzer.analyze_project. cbv zeta. rewrite Htext.
  destruct (ProjectAnalyzer.detect_scam_indicators self
              (ProjectAnalyzer.all_text community2)) as [scam|e]; [|reflexivity].
  rewrite !bind_Ok.
  destruct (ProjectAnalyzer.detect_positive_indicators self
              (ProjectAnalyzer.all_text community2)) as [positive|e]; [|reflexivity].
  rewrite !bind_Ok, Hscore. reflexivity.
Qed.
End Reads.

(** ** The theorems on the store, the broadcast and the monitoring cycle,
    at concrete inputs *)

Lemma store_keys_stay_unique_witness :
  exists db',
    EnhancedDatabaseManager.add_community_alert Sample.two_alerts_db
      (Sample.alert_with "a3" ScamRisk.HIGH) = Ok (true, db')
    /\ NoDup (map EnhancedDatabaseManager.unique_id db')
    /\ NoDup (map EnhancedDatabaseManager.id db')
    /\ NoDup (map EnhancedDatabaseManager.unique_id
                (EnhancedDatabaseManager.mark_community_alert_sent db' "a1"))
    /\ NoDup (map EnhancedDatabaseManager.id
                (EnhancedDatabaseManager.mark_community_alert_sent db' "a1")).
Proof.
  destruct (EnhancedDatabaseManager.add_community_alert Sample.two_alerts_db
              (Sample.alert_with "a3" ScamRisk.HIGH)) as [[added db']|e] eqn:Hadd;
    pose proof Hadd as Hcomputed; vm_compute in Hcomputed; [|discriminate Hcomputed].
  injection Hcomputed as Hadded _. subst added.
  exists db'. split; [reflexivity|].
  apply (store_keys_stay_unique Sample.two_alerts_db db'
           (Sample.alert_with "a3" ScamRisk.HIGH) true "a1").
  - vm_compute.
    repeat (constructor;
            [rewrite ?not_elem_of_cons; repeat split;
             solve [discriminate | apply not_elem_of_nil]|]);
    constructor.
  - vm_compute.
    repeat (constructor;
            [rewrite ?not_elem_of_cons; repeat split;
             solve [discriminate | apply not_elem_of_nil]|]);
    constructor.
  - exact Hadd.
Defined.

Lemma stored_alert_reads_back_witness :
  exists alerts db' stored,
    EnhancedDatabaseManager.get_unsent_community_alerts Sample.two_alerts_db = Ok alerts
    /\ EnhancedDatabaseManager.get_unsent_community_alerts db' = Ok (alerts ++ [stored])
    /\ CommunityAlert.unique_id stored = "a3"
    /\ CommunityAlert.project_analysis stored = Sample.analysis_with ScamRisk.HIGH.
Proof.
  destruct (EnhancedDatabaseManager.get_unsent_community_alerts Sample.two_alerts_db)
    as [alerts|e] eqn:Hread;
    pose proof Hread as Hcomputed; vm_compute in Hcomputed; [|discriminate Hcomputed].
  clear Hcomputed.
  destruct (EnhancedDatabaseManager.add_community_alert Sample.two_alerts_db
              (Sample.alert_with "a3" ScamRisk.HIGH)) as [[added db']|e] eqn:Hadd;
    pose proof Hadd as Hcomputed; vm_compute in Hcomputed; [|discriminate Hcomputed].
  injection Hcomputed as Hadded _. subst added.
  destruct (stored_alert_reads_back Sample.two_alerts_db db'
              (Sample.alert_with "a3" ScamRisk.HIGH) alerts Hread Hadd)
    as (stored & Hstored & Huid & _ & Hanalysis & _).
  exists alerts, db', stored. repeat split; assumption.
Defined.

Lemma mark_sent_removes_from_unsent_witness :
  exists alerts,
    EnhancedDatabaseManager.get_unsent_community_alerts Sample.two_alerts_db = Ok alerts
    /\ map CommunityAlert.unique_id alerts = ["a1"; "a2"]
    /\ EnhancedDatabaseManager.get_unsent_community_alerts
         (EnhancedDatabaseManager.mark_community_alert_sent Sample.two_alerts_db "a1")
       = Ok (List.filter
               (fun alert => negb (String.eqb (CommunityAlert.unique_id alert) "a1"))
               alerts).
Proof.
  destruct (EnhancedDatabaseManager.get_unsent_community_alerts Sample.two_alerts_db)
    as [alerts|e] eqn:Hread;
    pose proof Hread as Hcomputed; vm_compute in Hcomputed; [|discriminate Hcomputed].
  injection Hcomputed as Halerts.
  exists alerts. split; [reflexivity|].
  split; [rewrite <- Halerts; reflexivity|].
  apply (mark_sent_removes_from_unsent Sample.two_alerts_db "a1" alerts Hread).
Defined.

Lemma broadcast_leaves_nothing_unsent_witness :
  exists db' outbox,
    EnhancedTelegramBot.broadcast_community_alerts Scenario.subscribers
      Scenario.preferences Sample.two_alerts_db = Ok (db', outbox)
    /\ length outbox = 1%nat
    /\ EnhancedDatabaseManager.get_unsent_community_alerts db' = Ok []
    /\ EnhancedTelegramBot.broadcast_community_alerts [7; 8] Scenario.preferences db'
       = Ok (db', []).
Proof.
  destruct (EnhancedTelegramBot.broadcast_community_alerts Scenario.subscribers
              Scenario.preferences Sample.two_alerts_db)
    as [[db' outbox]|e] eqn:Hrun;
    pose proof Hrun as Hcomputed; vm_compute in Hcomputed; [|discriminate Hcomputed].
  injection Hcomputed as _ Hout.
  exists db', outbox. split; [reflexivity|].
  split; [rewrite <- Hout; reflexivity|].
  apply (broadcast_leaves_nothing_unsent Scenario.subscribers [7; 8]
           Scenario.preferences Scenario.preferences Sample.two_alerts_db db' outbox Hrun).
Defined.

Lemma broadcast_recipients_witness :
  exists alerts db' outbox,
    EnhancedTelegramBot.broadcast_community_alerts Scenario.subscribers
      Scenario.preferences Sample.two_alerts_db = Ok (db', outbox)
    /\ map CommunityAlert.unique_id alerts = ["a1"; "a2"]
    /\ forall alert,
         In {| EnhancedTelegramBot.dispatch_alert := alert;
               EnhancedTelegramBot.dispatch_chat_id := 7 |} outbox ->
         In alert alerts
         /\ ProjectAnalysis.risk_level (CommunityAlert.project_analysis alert)
            <> ScamRisk.CRITICAL.
Proof.
  destruct (EnhancedDatabaseManager.get_unsent_community_alerts Sample.two_alerts_db)
    as [alerts|e] eqn:Hread;
    pose proof Hread as Hcomputed; vm_compute in Hcomputed; [|discriminate Hcomputed].
  injection Hcomputed as Halerts.
  destruct (EnhancedTelegramBot.broadcast_community_alerts Scenario.subscribers
              Scenario.preferences Sample.two_alerts_db)
    as [[db' outbox]|e] eqn:Hrun;
    pose proof Hrun as Hcomputed; vm_compute in Hcomputed; [|discriminate Hcomputed].
  clear Hcomputed.
  exists alerts, db', outbox. split; [reflexivity|].
  split; [rewrite <- Halerts; reflexivity|].
  intros alert Hin.
  destruct (proj1 (broadcast_recipients Scenario.subscribers Scenario.preferences
                     Sample.two_alerts_db db' alerts outbox alert 7 Hread Hrun) Hin)
    as (Halert & _ & p & _ & _ & _ & Hrisk).
  split; assumption.
Defined.

Lemma size_filter_agrees_with_category_witness :
  (1 <= 25 <= 500
   /\ In (EnhancedDatabaseManager.size_category_of 25)
         [CommunitySize.MICRO; CommunitySize.MEDIUM])
  /\ EnhancedDatabaseManager.size_category_of 700 = CommunitySize.GROWING
  /\ TelegramScout.matches_size_filter 700 [CommunitySize.GROWING] = false.
Proof.
  split.
  - apply (proj1 (proj1 (size_filter_agrees_with_category 25
                           [CommunitySize.MICRO; CommunitySize.MEDIUM]))).
    reflexivity.
  - apply (proj2 (size_filter_agrees_with_category 700 [CommunitySize.GROWING])).
    right. lia.
Defined.

Lemma monitoring_without_scout_does_nothing_witness :
  @CommunityMonitoring.community_monitoring_cycle Ascii_runtime.externals
    Scenario.digest Scenario.subscribers Scenario.preferences Sample.fresh_analyzer
    Scenario.clock
    [TelegramScout.Fetched Sample.pump_community;
     TelegramScout.Fetched Scenario.community_ab_c]
    Sample.two_alerts_db
  = (Sample.two_alerts_db, []).
Proof.
  apply (@monitoring_without_scout_does_nothing Ascii_runtime.externals
           Scenario.digest Scenario.subscribers Scenario.preferences
           Sample.fresh_analyzer Scenario.clock).
  reflexivity.
Defined.

Lemma monitoring_without_new_alert_sends_nothing_witness :
  exists added db,
    EnhancedDatabaseManager.add_community_alert Sample.two_alerts_db
      (CommunityMonitoring.make_alert Scenario.digest Sample.a_day Scenario.community_ab_c
         (Sample.analysis_with ScamRisk.LOW)) = Ok (added, db)
    /\ @CommunityMonitoring.community_monitoring_cycle Ascii_runtime.externals
         Scenario.digest Scenario.subscribers Scenario.preferences Sample.analyzer
         Scenario.clock
         [TelegramScout.Fetched Scenario.community_ab_c; TelegramScout.NotCrypto]
         db
       = (db, []).
Proof.
  destruct (EnhancedDatabaseManager.add_community_alert Sample.two_alerts_db
              (CommunityMonitoring.make_alert Scenario.digest Sample.a_day
                 Scenario.community_ab_c (Sample.analysis_with ScamRisk.LOW)))
    as [[added db]|e] eqn:Hadd;
    pose proof Hadd as Hcomputed; vm_compute in Hcomputed; [|discriminate Hcomputed].
  injection Hcomputed as _ Hdb.
  exists added, db. split; [reflexivity|].
  apply (@monitoring_without_new_alert_sends_nothing Ascii_runtime.externals
           Scenario.digest Scenario.subscribers Scenario.preferences
           Sample.analyzer Scenario.clock).
  intros community Hin. rewrite <- Hdb. vm_compute in Hin.
  destruct Hin as [<-|[]]. vm_compute. reflexivity.
Defined.

Lemma same_title_and_username_stored_once_witness :
  exists db1,
    EnhancedDatabaseManager.add_community_alert EnhancedDatabaseManager.init_db
      (CommunityMonitoring.make_alert Scenario.digest Sample.a_day Scenario.community_ab_c
         (Sample.analysis_with ScamRisk.LOW)) = Ok (true, db1)
    /\ EnhancedDatabaseManager.add_community_alert db1
         (CommunityMonitoring.make_alert Scenario.digest (Sample.a_day + 1)
            Scenario.community_a_bc (Sample.analysis_with ScamRisk.HIGH))
       = Ok (false, db1).
Proof.
  destruct (EnhancedDatabaseManager.add_community_alert EnhancedDatabaseManager.init_db
              (CommunityMonitoring.make_alert Scenario.digest Sample.a_day
                 Scenario.community_ab_c (Sample.analysis_with ScamRisk.LOW)))
    as [[added db1]|e] eqn:Hadd;
    pose proof Hadd as Hcomputed; vm_compute in Hcomputed; [|discriminate Hcomputed].
  injection Hcomputed as Hadded _. subst added.
  exists db1. split; [reflexivity|].
  apply (same_title_and_username_stored_once Scenario.digest
           EnhancedDatabaseManager.init_db db1 true
           Scenario.community_ab_c Scenario.community_a_bc
           (Sample.analysis_with ScamRisk.LOW) (Sample.analysis_with ScamRisk.HIGH)
           Sample.a_day (Sample.a_day + 1)).
  - reflexivity.
  - exact Hadd.
Defined.

(** ** The theorems on the indicators, at a concrete text *)

Lemma scam_tags_count_matches_witness :
  exists indicators,
    @ProjectAnalyzer.detect_scam_indicators Ascii_runtime.externals Sample.analyzer
      "Guaranteed profit: PUMP it 100x, risk free" = Ok indicators
    /\ ProjectAnalyzer.count_tagged "HIGH RISK" indicators = 2
    /\ ProjectAnalyzer.count_tagged "MEDIUM RISK" indicators
       = len (List.filter
                (fun phrase =>
                   str_in phrase
                     (@str_lower Ascii_runtime.externals
                        "Guaranteed profit: PUMP it 100x, risk free"))
                TelegramScout.medium_risk_phrases).
Proof.
  destruct (@scam_tags_count_matches Ascii_runtime.externals Sample.analyzer
              1 "hash" "+100" "scout_session"
              "Guaranteed profit: PUMP it 100x, risk free")
    as (indicators & Hok & Hhigh & Hmedium & _).
  - reflexivity.
  - intros pattern m Hpattern Hm. vm_compute in Hpattern.
    repeat (destruct Hpattern as [<-|Hpattern];
            [vm_compute in Hm;
             repeat (destruct Hm as [<-|Hm]; [split; reflexivity|]);
             destruct Hm|]).
    destruct Hpattern.
  - exists indicators. split; [exact Hok|]. split; [|exact Hmedium].
    rewrite Hhigh. vm_compute. reflexivity.
Defined.

Lemma critical_iff_high_risk_phrase_or_low_score_witness :
  exists analysis,
    @ProjectAnalyzer.analyze_project Ascii_runtime.externals Sample.a_day
      Sample.analyzer Scenario.community_ab_c = Ok analysis
    /\ ProjectAnalysis.risk_level analysis <> ScamRisk.CRITICAL
    /\ ~ exists phrase,
           In phrase TelegramScout.high_risk_phrases
           /\ str_in phrase
                (@str_lower Ascii_runtime.externals
                   (ProjectAnalyzer.all_text Scenario.community_ab_c)) = true.
Proof.
  destruct (@ProjectAnalyzer.analyze_project Ascii_runtime.externals Sample.a_day
              Sample.analyzer Scenario.community_ab_c) as [analysis|e] eqn:Hrun;
    pose proof Hrun as Hcomputed; vm_compute in Hcomputed; [|discriminate Hcomputed].
  injection Hcomputed as Hanalysis.
  assert (Hrisk : ProjectAnalysis.risk_level analysis <> ScamRisk.CRITICAL)
    by (rewrite <- Hanalysis; discriminate).
  exists analysis. split; [reflexivity|]. split; [exact Hrisk|].
  intros Hphrase. apply Hrisk.
  apply (proj2 (@critical_iff_high_risk_phrase_or_low_score Ascii_runtime.externals
                  Sample.a_day Sample.analyzer 1 "hash" "+100" "scout_session"
                  Scenario.community_ab_c analysis eq_refl
                  ltac:(intros pattern m Hpattern Hm; vm_compute in Hpattern;
                        repeat (destruct Hpattern as [<-|Hpattern];
                                [vm_compute in Hm;
                                 repeat (destruct Hm as [<-|Hm]; [split; reflexivity|]);
                                 destruct Hm|]);
                        destruct Hpattern)
                  Hrun)).
  left. exact Hphrase.
Defined.

Lemma positive_tags_count_matches_witness :
  exists indicators,
    @ProjectAnalyzer.detect_positive_indicators Ascii_runtime.externals Sample.analyzer
      "Audited whitepaper, doxxed team, code on GitHub" = Ok indicators
    /\ ProjectAnalyzer.count_tagged "TEAM" indicators
       = len (List.filter
                (fun phrase =>
                   str_in phrase
                     (@str_lower Ascii_runtime.externals
                        "Audited whitepaper, doxxed team, code on GitHub"))
                TelegramScout.team_phrases).
Proof.
  destruct (@positive_tags_count_matches Ascii_runtime.externals Sample.analyzer
              1 "hash" "+100" "scout_session"
              "Audited whitepaper, doxxed team, code on GitHub")
    as (indicators & Hok & _ & Hteam & _).
  - reflexivity.
  - exists indicators. split; [exact Hok | exact Hteam].
Defined.

(** ** The theorems on the research, at a concrete project *)

Lemma pipeline_score_ranges_witness :
  exists technical,
    ProjectResearcher.analyze_technical_aspects Sample.small_cap_project = Ok technical
    /\ In (TechnicalAnalysis.technical_score technical) [0; 20; 40]
    /\ In (SocialAnalysis.overall_score
             (ProjectResearcher.analyze_social_presence Sample.small_cap_project))
          [0; 10; 15; 55].
Proof.
  destruct (ProjectResearcher.analyze_technical_aspects Sample.small_cap_project)
    as [technical|e] eqn:Hrun;
    pose proof Hrun as Hcomputed; vm_compute in Hcomputed; [|discriminate Hcomputed].
  clear Hcomputed.
  destruct (@pipeline_score_ranges Ascii_runtime.externals Sample.small_cap_project
              technical Hrun) as ((Hsocial & _) & (Htechnical & _) & _).
  exists technical. split; [reflexivity|]. split; assumption.
Defined.

Lemma job_opportunities_shape_witness :
  exists needs,
    ProjectResearcher.identify_project_needs Sample.small_cap_project Sample.social_45
      Sample.technical_55 Sample.team_30 Sample.community = Ok needs
    /\ NoDup (map JobOpportunity.category (ProjectNeeds.job_opportunities needs))
    /\ In JobCategory.GRAPHICS_DESIGN
         (map JobOpportunity.category (ProjectNeeds.job_opportunities needs)).
Proof.
  destruct (ProjectResearcher.identify_project_needs Sample.small_cap_project
              Sample.social_45 Sample.technical_55 Sample.team_30 Sample.community)
    as [needs|e] eqn:Hrun;
    pose proof Hrun as Hcomputed; vm_compute in Hcomputed; [|discriminate Hcomputed].
  clear Hcomputed.
  destruct (job_opportunities_shape Sample.small_cap_project Sample.social_45
              Sample.technical_55 Sample.team_30 Sample.community needs Hrun)
    as (_ & Hnodup & Hgraphics & _).
  exists needs. split; [reflexivity|]. split; assumption.
Defined.

Lemma research_result_limits_witness :
  exists analysis,
    @ProjectResearcher.research_project_comprehensive Ascii_runtime.externals
      Sample.a_day "acme" Sample.small_cap_project = Ok analysis
    /\ ProjectNeeds.strengths
         (ProjectResearcher.ComprehensiveProjectAnalysis.project_needs analysis) = []
    /\ In (ProjectAnalysis.risk_level
             (ProjectResearcher.ComprehensiveProjectAnalysis.legitimacy_analysis analysis))
          [ScamRisk.HIGH; ScamRisk.CRITICAL].
Proof.
  destruct (@ProjectResearcher.research_project_comprehensive Ascii_runtime.externals
              Sample.a_day "acme" Sample.small_cap_project) as [analysis|e] eqn:Hrun;
    pose proof Hrun as Hcomputed; vm_compute in Hcomputed; [|discriminate Hcomputed].
  clear Hcomputed.
  destruct (@research_result_limits Ascii_runtime.externals Sample.a_day "acme"
              Sample.small_cap_project analysis Hrun)
    as (Hstrengths & _ & Hrisk & _).
  exists analysis. split; [reflexivity|]. split; assumption.
Defined.

Lemma research_risk_against_determine_risk_level_witness :
  let analysis :=
    ProjectResearcher.create_legitimacy_analysis Sample.small_cap_project
      Sample.social_45 Sample.technical_55 Sample.team_30 in
  risk_severity
    (ProjectAnalyzer.determine_risk_level (ProjectAnalysis.legitimacy_score analysis)
       (ProjectAnalysis.scam_indicators analysis))
  <= risk_severity (ProjectAnalysis.risk_level analysis).
Proof.
  apply (proj2 (research_risk_against_determine_risk_level Sample.small_cap_project
                  Sample.social_45 Sample.technical_55 Sample.team_30)).
  simpl. lia.
Defined.

Lemma priority_actions_cover_time_sensitive_witness :
  exists needs,
    ProjectResearcher.identify_project_needs Sample.unknown_project
      (ProjectResearcher.analyze_social_presence Sample.unknown_project)
      Sample.technical_55 Sample.team_30 Sample.community = Ok needs
    /\ ActionPlan.priority_actions Scenario.title (Scenario.analysis_with_needs needs)
       = ["🔥 **Social Media** - Act within 48 hours";
          "🔥 **Community Management** - Act within 48 hours"]
    /\ ActionPlan.time_sensitive_opportunities (Scenario.analysis_with_needs needs) = 2.
Proof.
  destruct (ProjectResearcher.identify_project_needs Sample.unknown_project
              (ProjectResearcher.analyze_social_presence Sample.unknown_project)
              Sample.technical_55 Sample.team_30 Sample.community)
    as [needs|e] eqn:Hrun;
    pose proof Hrun as Hcomputed; vm_compute in Hcomputed; [|discriminate Hcomputed].
  injection Hcomputed as Hneeds.
  destruct (priority_actions_cover_time_sensitive Scenario.title Sample.unknown_project
              (ProjectResearcher.analyze_social_presence Sample.unknown_project)
              Sample.technical_55 Sample.team_30 Sample.community
              (Scenario.analysis_with_needs needs) Hrun) as (Hactions & Hlen & _).
  exists needs. split; [reflexivity|].
  split; [|rewrite <- Hlen]; rewrite Hactions, <- Hneeds; vm_compute; reflexivity.
Defined.

Lemma analysis_reads_first_ten_messages_witness :
  @ProjectAnalyzer.analyze_project Ascii_runtime.externals Sample.a_day Sample.analyzer
    (Scenario.community_with_messages 40
       (Scenario.ten_messages ++ ["guaranteed profit, pump and dump"]))
  = @ProjectAnalyzer.analyze_project Ascii_runtime.externals Sample.a_day Sample.analyzer
      (Scenario.community_with_messages 150 Scenario.ten_messages).
Proof.
  apply (@analysis_reads_first_ten_messages Ascii_runtime.externals Sample.a_day
           Sample.analyzer
           (Scenario.community_with_messages 40
              (Scenario.ten_messages ++ ["guaranteed profit, pump and dump"]))
           (Scenario.community_with_messages 150 Scenario.ten_messages));
    reflexivity.
Defined.
